(** * A shallow embedding of the messenger's delivery subsystem

    The development follows the Python sources file by file:
    - [ds_protocol.py]  : the JSON line codec ([Protocol]);
    - [ds_messenger.py] : the socket client ([Messenger]);
    - [database.py]     : the SQLite persistence layer ([Database]);
    - [messenger.py]    : the coordinator with its two workers ([App]).

    Python values that travel through the codec are JSON values; Python's
    [None] is the JSON [null] that [json.loads] maps to it.  Exceptions are
    explicit: a computation either returns or raises, and [try]/[except]
    is a combinator.  Everything the operating system or the server decides
    (whether a socket call fails, which line comes back) is read from a
    script carried by the [world]. *)

From Stdlib Require Import ZArith QArith String Ascii List Bool Lia.
From stdpp Require Import base option list gmap strings sorting.

Local Open Scope Z_scope.
Local Open Scope string_scope.

(** ** Python values, exceptions and the two monads *)

(** A decoded JSON document.  Numbers are the rationals they denote; a
    Python [dict] with string keys is a finite map. *)
#[warnings="-register-all"]
Inductive json : Type :=
  | JNull
  | JBool (b : bool)
  | JNum (q : Q)
  | JStr (s : string)
  | JArr (l : list json)
  | JObj (o : gmap string json).

(** The exception classes that occur in the sources.  All of them derive
    from Python's [Exception]; [ConnectionError] derives from [OSError],
    which is what [socket.error] names. *)
Inductive exn : Type :=
  | ConnectionError
  | OSError
  | JSONDecodeError
  | KeyError
  | AttributeError
  | TypeError
  | ValueError
  | IntegrityError
  | ProgrammingError
  | OperationalError
  | RuntimeError.

Inductive outcome (A : Type) : Type :=
  | Ret (a : A)
  | Raise (e : exn).
Arguments Ret {A} a.
Arguments Raise {A} e.

#[global] Instance outcome_ret : MRet outcome := fun A a => Ret a.
#[global] Instance outcome_bind : MBind outcome := fun A B f m =>
  match m with
  | Ret a => f a
  | Raise e => Raise e
  end.

(** A statement sequence over a mutable state [S]: the state reached is kept
    also when an exception is raised. *)
Definition Py (S A : Type) : Type := S -> outcome A * S.

#[global] Instance Py_ret {S} : MRet (Py S) := fun A a s => (Ret a, s).
#[global] Instance Py_bind {S} : MBind (Py S) := fun A B f m s =>
  match m s with
  | (Ret a, s') => f a s'
  | (Raise e, s') => (Raise e, s')
  end.

Definition raise {S A} (e : exn) : Py S A := fun s => (Raise e, s).
Definition pure_outcome {S A} (o : outcome A) : Py S A := fun s => (o, s).
Definition get_state {S} : Py S S := fun s => (Ret s, s).
Definition modify {S} (f : S -> S) : Py S unit := fun s => (Ret tt, f s).

(** [isinstance(e, cls)] for the classes named in [except] clauses. *)
Definition is_ConnectionError (e : exn) : bool :=
  match e with ConnectionError => true | _ => false end.
Definition is_OSError (e : exn) : bool :=
  match e with ConnectionError | OSError => true | _ => false end.
Definition is_JSONDecodeError (e : exn) : bool :=
  match e with JSONDecodeError => true | _ => false end.
Definition is_KeyError (e : exn) : bool :=
  match e with KeyError => true | _ => false end.
Definition is_AttributeError (e : exn) : bool :=
  match e with AttributeError => true | _ => false end.
Definition is_IntegrityError (e : exn) : bool :=
  match e with IntegrityError => true | _ => false end.
Definition is_Exception (e : exn) : bool := true.

(** [try: body / except cls1: h1 / except cls2: h2 ...]: the first clause
    whose class matches handles the exception; with no match it propagates. *)
Fixpoint dispatch {S A} (hs : list ((exn -> bool) * Py S A)) (e : exn) : Py S A :=
  match hs with
  | [] => raise e
  | (cls, h) :: hs' => if cls e then h else dispatch hs' e
  end.

Definition try_except {S A} (body : Py S A) (hs : list ((exn -> bool) * Py S A))
  : Py S A := fun s =>
  match body s with
  | (Ret a, s') => (Ret a, s')
  | (Raise e, s') => dispatch hs e s'
  end.

(** The same for code without state. *)
Fixpoint dispatch_pure {A} (hs : list ((exn -> bool) * outcome A)) (e : exn)
  : outcome A :=
  match hs with
  | [] => Raise e
  | (cls, h) :: hs' => if cls e then h else dispatch_pure hs' e
  end.

Definition try_except_pure {A} (body : outcome A)
    (hs : list ((exn -> bool) * outcome A)) : outcome A :=
  match body with
  | Ret a => Ret a
  | Raise e => dispatch_pure hs e
  end.

(** Truth value of a Python object in [if x] / [not x] / [x and y]. *)
Definition truthy (v : json) : bool :=
  match v with
  | JNull => false
  | JBool b => b
  | JNum q => negb (Qeq_bool q 0)
  | JStr s => negb (String.eqb s EmptyString)
  | JArr l => match l with [] => false | _ => true end
  | JObj o => negb (bool_decide (o = ∅))
  end.

Fixpoint is_substring (k s : string) : bool :=
  String.prefix k s ||
  match s with
  | EmptyString => false
  | String _ s' => is_substring k s'
  end.

(** [k in v] for a string [k]. *)
Definition py_in (k : string) (v : json) : outcome bool :=
  match v with
  | JObj o => Ret (bool_decide (is_Some (o !! k)))
  | JStr s => Ret (is_substring k s)
  | JArr l =>
      Ret (existsb (fun x => match x with JStr s => String.eqb s k | _ => false end) l)
  | JNull | JBool _ | JNum _ => Raise TypeError
  end.

(** [v[k]] for a string [k]. *)
Definition py_getitem (v : json) (k : string) : outcome json :=
  match v with
  | JObj o => match o !! k with Some x => Ret x | None => Raise KeyError end
  | _ => Raise TypeError
  end.

(** [v.get(k, dflt)]; only a [dict] has the method. *)
Definition py_get (v : json) (k : string) (dflt : json) : outcome json :=
  match v with
  | JObj o => Ret (default dflt (o !! k))
  | _ => Raise AttributeError
  end.

(** [v == s] for a string literal [s]. *)
Definition py_eq_str (v : json) (s : string) : bool :=
  match v with JStr s' => String.eqb s' s | _ => false end.

(** What the sources take from the Python runtime and its standard library. *)
Class Runtime : Type := {
  (** [json.loads]; raises [JSONDecodeError] on text that is not JSON *)
  json_loads : string -> outcome json;
  (** [json.dumps] *)
  json_dumps : json -> string;
  (** [float(s)] on a string; [None] stands for [ValueError] *)
  float_of_str : string -> option Q;
  (** [str(x)] on a float *)
  str_of_float : Q -> string
}.

(** The line end of the wire protocol: carriage return, line feed. *)
Definition CRLF : string := String "013"%char (String "010"%char EmptyString).

(** ** ds_protocol.py *)
Module Protocol.

Record ServerResponse : Type := {
  sr_type : json;
  sr_message : json;
  sr_token : json
}.

Record MessageResponse : Type := {
  mr_type : json;
  mr_messages : json
}.

Section WithRuntime.
Context `{Runtime}.

Definition create_join (username password : string) : string :=
  json_dumps (JObj {[ "join" :=
    JObj (<["username" := JStr username]>
         (<["password" := JStr password]>
          {[ "token" := JStr EmptyString ]})) ]}).

Definition create_direct_message (token : json) (message recipient : string)
    (now : Q) : string :=
  json_dumps (JObj (<["token" := token]>
    {[ "directmessage" :=
       JObj (<["entry" := JStr message]>
            (<["recipient" := JStr recipient]>
             {[ "timestamp" := JStr (str_of_float now) ]})) ]})).

Definition request_unread_messages (token : json) : string :=
  json_dumps (JObj (<["token" := token]> {[ "directmessage" := JStr "new" ]})).

Definition request_all_messages (token : json) : string :=
  json_dumps (JObj (<["token" := token]> {[ "directmessage" := JStr "all" ]})).

(** The body of the [try] in [parse_response]; [None] is the fall-through
    to the final [return None]. *)
Definition parse_response_body (json_msg : string)
    : outcome (option ServerResponse) :=
  json_obj ← json_loads json_msg;
  has ← py_in "response" json_obj;
  if has : bool then
    resp ← py_getitem json_obj "response";
    ty ← py_get resp "type" JNull;
    msg ← py_get resp "message" (JStr EmptyString);
    tok ← py_get resp "token" (JStr EmptyString);
    mret (Some {| sr_type := ty; sr_message := msg; sr_token := tok |})
  else mret None.

Definition parse_response (json_msg : string)
    : outcome (option ServerResponse) :=
  try_except_pure (parse_response_body json_msg)
    [ (is_JSONDecodeError, Ret None);
      (is_KeyError, Ret None);
      (is_AttributeError, Ret None);
      (is_Exception, Ret None) ].

Definition parse_messages_body (json_msg : string)
    : outcome (option MessageResponse) :=
  json_obj ← json_loads json_msg;
  has ← py_in "response" json_obj;
  if has : bool then
    resp ← py_getitem json_obj "response";
    ty ← py_get resp "type" JNull;
    msgs ← py_get resp "messages" (JArr []);
    mret (Some {| mr_type := ty; mr_messages := msgs |})
  else mret None.

Definition parse_messages (json_msg : string)
    : outcome (option MessageResponse) :=
  try_except_pure (parse_messages_body json_msg)
    [ (is_JSONDecodeError, Ret None);
      (is_KeyError, Ret None);
      (is_AttributeError, Ret None);
      (is_Exception, Ret None) ].

End WithRuntime.
End Protocol.

(** ** The environment: sockets, their peer and the clock *)

(** What the next input/output call will meet: success (with the line read,
    for a [readline]) or an exception. *)
Inductive io_outcome : Type :=
  | IoOk (line : string)
  | IoErr (e : exn).

Record world : Type := {
  script : list io_outcome;  (* outcomes of the coming I/O calls, in order *)
  live : list nat;           (* handles (sockets, streams) that are open *)
  next_handle : nat;
  wire : list string;        (* every text given to a stream's write, oldest first *)
  connects : nat;            (* calls of socket.connect so far *)
  clock : Q;                 (* what time.time() reads *)
  sleeps : list Q            (* arguments of time.sleep so far, oldest first *)
}.

Definition set_script (x : list io_outcome) (w : world) : world :=
  {| script := x; live := live w; next_handle := next_handle w; wire := wire w;
     connects := connects w; clock := clock w; sleeps := sleeps w |}.
Definition set_live (x : list nat) (w : world) : world :=
  {| script := script w; live := x; next_handle := next_handle w; wire := wire w;
     connects := connects w; clock := clock w; sleeps := sleeps w |}.
Definition set_next_handle (x : nat) (w : world) : world :=
  {| script := script w; live := live w; next_handle := x; wire := wire w;
     connects := connects w; clock := clock w; sleeps := sleeps w |}.
Definition set_wire (x : list string) (w : world) : world :=
  {| script := script w; live := live w; next_handle := next_handle w; wire := x;
     connects := connects w; clock := clock w; sleeps := sleeps w |}.
Definition set_connects (x : nat) (w : world) : world :=
  {| script := script w; live := live w; next_handle := next_handle w; wire := wire w;
     connects := x; clock := clock w; sleeps := sleeps w |}.
Definition set_clock (x : Q) (w : world) : world :=
  {| script := script w; live := live w; next_handle := next_handle w; wire := wire w;
     connects := connects w; clock := x; sleeps := sleeps w |}.
Definition set_sleeps (x : list Q) (w : world) : world :=
  {| script := script w; live := live w; next_handle := next_handle w; wire := wire w;
     connects := connects w; clock := clock w; sleeps := x |}.

Module Net.

(** One I/O call: it takes the next outcome of the script; when the script
    is used up the call succeeds and a read meets the end of the stream. *)
Definition io_call : Py world string := fun w =>
  match script w with
  | [] => (Ret EmptyString, w)
  | IoOk l :: rest => (Ret l, set_script rest w)
  | IoErr e :: rest => (Raise e, set_script rest w)
  end.

Definition fresh_handle : Py world nat := fun w =>
  (Ret (next_handle w),
   set_next_handle (S (next_handle w)) (set_live (next_handle w :: live w) w)).

Definition is_live (h : nat) (w : world) : bool := bool_decide (h ∈ live w).

(** [socket.socket(AF_INET, SOCK_STREAM)] *)
Definition socket_socket : Py world nat := fresh_handle.

(** [sock.connect((host, port))] *)
Definition socket_connect (sock : nat) (host : string) (port : Z)
    : Py world unit :=
  modify (fun w => set_connects (S (connects w)) w);;
  io_call;; mret tt.

(** [sock.makefile(mode)] *)
Definition makefile (sock : nat) : Py world nat := fresh_handle.

(** [stream.write(text)]; a closed file raises [ValueError]. *)
Definition stream_write (h : nat) (text : string) : Py world unit :=
  w ← get_state;
  if is_live h w then
    modify (fun w => set_wire (wire w ++ [text]) w);;
    io_call;; mret tt
  else raise ValueError.

Definition stream_flush (h : nat) : Py world unit :=
  w ← get_state;
  if is_live h w then io_call;; mret tt else raise ValueError.

Definition stream_readline (h : nat) : Py world string :=
  w ← get_state;
  if is_live h w then io_call else raise ValueError.

(** [h.close()]: nothing to do on a closed handle.  An open one is closed
    whether or not the release raises: a stream flushes and then closes its
    buffer in a [finally], a socket gives up its descriptor. *)
Definition handle_close (h : nat) : Py world unit :=
  w ← get_state;
  if is_live h w then
    modify (fun w => set_live (filter (fun x => x ≠ h) (live w)) w);;
    io_call;; mret tt
  else mret tt.

(** [time.time()] and [time.sleep(d)] *)
Definition time_time : Py world Q := fun w => (Ret (clock w), w).
Definition time_sleep (d : Q) : Py world unit :=
  modify (fun w => set_sleeps (sleeps w ++ [d]) w).

End Net.

(** ** ds_messenger.py *)
Module Messenger.

Record DirectMessage : Type := {
  recipient : json;
  message : json;
  timestamp : json
}.

(** [DirectMessage.is_valid] *)
Definition is_valid (dm : DirectMessage) : bool :=
  match message dm with JNull => false | _ => true end.

Record DirectMessenger : Type := {
  token : json;
  dsuserver : string;
  username : option string;
  password : option string;
  port : Z;
  socket : option nat;
  send_stream : option nat;
  recv_stream : option nat
}.

Definition set_token (x : json) (d : DirectMessenger) : DirectMessenger :=
  {| token := x; dsuserver := dsuserver d; username := username d;
     password := password d; port := port d; socket := socket d;
     send_stream := send_stream d; recv_stream := recv_stream d |}.
Definition set_socket (x : option nat) (d : DirectMessenger) : DirectMessenger :=
  {| token := token d; dsuserver := dsuserver d; username := username d;
     password := password d; port := port d; socket := x;
     send_stream := send_stream d; recv_stream := recv_stream d |}.
Definition set_send_stream (x : option nat) (d : DirectMessenger) : DirectMessenger :=
  {| token := token d; dsuserver := dsuserver d; username := username d;
     password := password d; port := port d; socket := socket d;
     send_stream := x; recv_stream := recv_stream d |}.
Definition set_recv_stream (x : option nat) (d : DirectMessenger) : DirectMessenger :=
  {| token := token d; dsuserver := dsuserver d; username := username d;
     password := password d; port := port d; socket := socket d;
     send_stream := send_stream d; recv_stream := x |}.

(** Truth value of an [Optional[str]]. *)
Definition str_truthy (s : option string) : bool :=
  match s with
  | Some x => negb (String.eqb x EmptyString)
  | None => false
  end.

(** [DirectMessenger.__init__] *)
Definition init (dsuserver username password : option string) : DirectMessenger :=
  {| token := JNull;
     dsuserver := (if str_truthy dsuserver then default EmptyString dsuserver else "127.0.0.1");
     username := username;
     password := password;
     port := 3001;
     socket := None;
     send_stream := None;
     recv_stream := None |}.

(** A method runs on the object and the world. *)
Definition mstate : Type := DirectMessenger * world.

Definition self : Py mstate DirectMessenger := fun s => (Ret (fst s), s).
Definition set_self (f : DirectMessenger -> DirectMessenger) : Py mstate unit :=
  modify (fun s => (f (fst s), snd s)).
Definition io {A} (m : Py world A) : Py mstate A := fun s =>
  let (r, w') := m (snd s) in (r, (fst s, w')).

(** Calling a method on an attribute that may hold [None]. *)
Definition attr {S A} (o : option A) : Py S A :=
  match o with
  | Some h => mret h
  | None => raise AttributeError
  end.

(** [DirectMessenger.close] *)
Definition close_body : Py mstate unit :=
  d ← self;
  match send_stream d with Some h => io (Net.handle_close h) | None => mret tt end;;
  match recv_stream d with Some h => io (Net.handle_close h) | None => mret tt end;;
  match socket d with Some h => io (Net.handle_close h) | None => mret tt end.

Definition close : Py mstate unit :=
  try_except close_body [ (is_Exception, mret tt) ].

Section WithRuntime.
Context `{Runtime}.

(** [DirectMessenger.connect] *)
Definition connect_body : Py mstate bool :=
  s ← io Net.socket_socket;
  set_self (set_socket (Some s));;
  d ← self;
  sock ← attr (socket d);
  io (Net.socket_connect sock (dsuserver d) (port d));;
  ws ← io (Net.makefile sock);
  set_self (set_send_stream (Some ws));;
  rs ← io (Net.makefile sock);
  set_self (set_recv_stream (Some rs));;
  d ← self;
  if str_truthy (username d) && str_truthy (password d) then
    let join_msg :=
      Protocol.create_join (default EmptyString (username d)) (default EmptyString (password d)) in
    out ← attr (send_stream d);
    io (Net.stream_write out (join_msg ++ CRLF));;
    io (Net.stream_flush out);;
    inp ← attr (recv_stream d);
    line ← io (Net.stream_readline inp);
    response ← pure_outcome (Protocol.parse_response line);
    match response with
    | Some r =>
        if py_eq_str (Protocol.sr_type r) "ok" then
          set_self (set_token (Protocol.sr_token r));;
          mret true
        else mret false
    | None => mret false
    end
  else mret false.

Definition connect : Py mstate bool :=
  try_except connect_body
    [ (is_ConnectionError, close;; mret false);
      (is_OSError, close;; mret false);
      (is_Exception, close;; mret false) ].

(** [DirectMessenger.send]; the value of [response and response.type == 'ok']
    is [None] when there is no response. *)
Definition send_body (message recipient : string) : Py mstate json :=
  d ← self;
  now ← io Net.time_time;
  let dm_msg := Protocol.create_direct_message (token d) message recipient now in
  out ← attr (send_stream d);
  io (Net.stream_write out (dm_msg ++ CRLF));;
  io (Net.stream_flush out);;
  inp ← attr (recv_stream d);
  line ← io (Net.stream_readline inp);
  response ← pure_outcome (Protocol.parse_response line);
  match response with
  | Some r => mret (JBool (py_eq_str (Protocol.sr_type r) "ok"))
  | None => mret JNull
  end.

Definition send_try (message recipient : string) : Py mstate json :=
  try_except (send_body message recipient)
    [ (is_ConnectionError, mret (JBool false));
      (is_OSError, mret (JBool false));
      (is_Exception, mret (JBool false)) ].

Definition send (message recipient : string) : Py mstate json :=
  d ← self;
  if negb (truthy (token d)) then
    ok ← connect;
    if negb ok then mret (JBool false) else send_try message recipient
  else send_try message recipient.

(** [for msg in v]: a list yields its items, a dict its keys, a string
    its characters; nothing else can be iterated. *)
Definition py_iter (v : json) : outcome (list json) :=
  match v with
  | JArr l => Ret l
  | JObj o => Ret (JStr <$> (fst <$> map_to_list o))
  | JStr s => Ret ((fun c => JStr (String c EmptyString)) <$> list_ascii_of_string s)
  | JNull | JBool _ | JNum _ => Raise TypeError
  end.

(** The loop [for msg in ...: ...; messages.append(dm)]: the first
    exception leaves the loop and the list built so far is dropped with
    the frame. *)
Fixpoint for_each {A B} (f : A -> outcome B) (l : list A) : outcome (list B) :=
  match l with
  | [] => Ret []
  | x :: l' =>
      y ← f x;
      ys ← for_each f l';
      mret (y :: ys)
  end.

Definition new_message (msg : json) : outcome DirectMessage :=
  m ← py_get msg "message" JNull;
  r ← py_get msg "from" JNull;
  t ← py_get msg "timestamp" JNull;
  mret {| recipient := r; message := m; timestamp := t |}.

Definition all_message (msg : json) : outcome DirectMessage :=
  m ← py_get msg "message" JNull;
  has ← py_in "from" msg;
  r ← (if has : bool then py_get msg "from" JNull
       else py_get msg "recipient" JNull);
  t ← py_get msg "timestamp" JNull;
  mret {| recipient := r; message := m; timestamp := t |}.

Definition retrieve_body (request : json -> string)
    (convert : json -> outcome DirectMessage) : Py mstate (list DirectMessage) :=
  d ← self;
  out ← attr (send_stream d);
  io (Net.stream_write out (request (token d) ++ CRLF));;
  io (Net.stream_flush out);;
  inp ← attr (recv_stream d);
  line ← io (Net.stream_readline inp);
  response ← pure_outcome (Protocol.parse_messages line);
  match response with
  | Some r =>
      if py_eq_str (Protocol.mr_type r) "ok" then
        items ← pure_outcome (py_iter (Protocol.mr_messages r));
        pure_outcome (for_each convert items)
      else mret []
  | None => mret []
  end.

Definition retrieve_try (request : json -> string)
    (convert : json -> outcome DirectMessage) : Py mstate (list DirectMessage) :=
  try_except (retrieve_body request convert)
    [ (is_ConnectionError, mret []);
      (is_OSError, mret []);
      (is_Exception, mret []) ].

Definition retrieve (request : json -> string)
    (convert : json -> outcome DirectMessage) : Py mstate (list DirectMessage) :=
  d ← self;
  if negb (truthy (token d)) then
    ok ← connect;
    if negb ok then mret [] else retrieve_try request convert
  else retrieve_try request convert.

(** [DirectMessenger.retrieve_new] *)
Definition retrieve_new : Py mstate (list DirectMessage) :=
  retrieve Protocol.request_unread_messages new_message.

(** [DirectMessenger.retrieve_all] *)
Definition retrieve_all : Py mstate (list DirectMessage) :=
  retrieve Protocol.request_all_messages all_message.

End WithRuntime.

(** The handles the object holds. *)
Definition transport (d : DirectMessenger) : list nat :=
  option_list (socket d) ++ option_list (send_stream d) ++ option_list (recv_stream d).

(** The Transport is released: no handle of the object is open. *)
Definition released (s : mstate) : Prop :=
  Forall (fun h => Net.is_live h (snd s) = false) (transport (fst s)).

End Messenger.

(** ** database.py *)
Module Database.

(** A row of [pending_messages] (the column [created_at] is not read by
    the program and is left out). *)
Record pending_row : Type := {
  pending_id : Z;
  user_id : Z;
  recipient : string;
  content : string;
  timestamp : Q;
  attempts : Z
}.

(** A row of [messages].  The poll worker stores what the server sent, so
    sender and content are Python values. *)
Record message_row : Type := {
  message_id : Z;
  msg_user_id : Z;
  msg_sender : json;
  msg_recipient : json;
  msg_content : json;
  msg_timestamp : Q;
  msg_is_sent : bool
}.

(** The tables and the AUTOINCREMENT counters.  Of [users] only the
    columns [user_id] and [username] are kept, of [contacts] the columns
    [user_id] and [friend_username]. *)
Record MessageDatabase : Type := {
  users : list (Z * string);
  contacts : list (Z * json);
  messages : list message_row;
  pending_messages : list pending_row;
  next_user_id : Z;
  next_message_id : Z;
  next_pending_id : Z
}.

Definition set_users (x : list (Z * string)) (n : Z) (db : MessageDatabase)
    : MessageDatabase :=
  {| users := x; contacts := contacts db; messages := messages db;
     pending_messages := pending_messages db; next_user_id := n;
     next_message_id := next_message_id db; next_pending_id := next_pending_id db |}.
Definition set_contacts (x : list (Z * json)) (db : MessageDatabase)
    : MessageDatabase :=
  {| users := users db; contacts := x; messages := messages db;
     pending_messages := pending_messages db; next_user_id := next_user_id db;
     next_message_id := next_message_id db; next_pending_id := next_pending_id db |}.
Definition set_messages (x : list message_row) (n : Z) (db : MessageDatabase)
    : MessageDatabase :=
  {| users := users db; contacts := contacts db; messages := x;
     pending_messages := pending_messages db; next_user_id := next_user_id db;
     next_message_id := n; next_pending_id := next_pending_id db |}.
Definition set_pending (x : list pending_row) (db : MessageDatabase)
    : MessageDatabase :=
  {| users := users db; contacts := contacts db; messages := messages db;
     pending_messages := x; next_user_id := next_user_id db;
     next_message_id := next_message_id db; next_pending_id := next_pending_id db |}.
Definition set_next_pending_id (n : Z) (db : MessageDatabase) : MessageDatabase :=
  {| users := users db; contacts := contacts db; messages := messages db;
     pending_messages := pending_messages db; next_user_id := next_user_id db;
     next_message_id := next_message_id db; next_pending_id := n |}.

(** [_init_database] on a new file *)
Definition init : MessageDatabase :=
  {| users := []; contacts := []; messages := []; pending_messages := [];
     next_user_id := 1; next_message_id := 1; next_pending_id := 1 |}.

(** [with self.get_connection() as conn]: commit when the body returns,
    roll back and raise again when it raises. *)
Definition get_connection {A} (body : Py MessageDatabase A) : Py MessageDatabase A :=
  fun db =>
    match body db with
    | (Ret a, db') => (Ret a, db')
    | (Raise e, _) => (Raise e, db)
    end.

(** Binding a Python value as a parameter of a statement: lists and dicts
    cannot be bound ([ProgrammingError]; [InterfaceError] before Python
    3.11).  The parameters are bound before the statement runs. *)
Definition bind_param (v : json) : outcome unit :=
  match v with
  | JArr _ | JObj _ => Raise ProgrammingError
  | JNull | JBool _ | JNum _ | JStr _ => Ret tt
  end.

(** A NOT NULL column refuses [None]. *)
Definition not_null (v : json) : outcome unit :=
  match v with
  | JNull => Raise IntegrityError
  | _ => Ret tt
  end.

Definition num_of_bool (b : bool) : Q := if b then 1%Q else 0%Q.

(** [a == b] on values that can be bound. *)
Definition py_eq (a b : json) : bool :=
  match a, b with
  | JNull, JNull => true
  | JStr s, JStr t => String.eqb s t
  | JNum p, JNum q => Qeq_bool p q
  | JBool x, JBool y => Bool.eqb x y
  | JBool x, JNum q | JNum q, JBool x => Qeq_bool (num_of_bool x) q
  | _, _ => false
  end.

(** [get_or_create_user]; the password hash is not modelled. *)
Definition get_or_create_user (username : string) : Py MessageDatabase Z :=
  get_connection (fun db =>
    match List.find (fun r => String.eqb (snd r) username) (users db) with
    | Some r => (Ret (fst r), db)
    | None =>
        (Ret (next_user_id db),
         set_users (users db ++ [(next_user_id db, username)])
                   (next_user_id db + 1) db)
    end).

(** The row that INSERT OR IGNORE adds under UNIQUE(user_id,
    friend_username): none when a NOT NULL column would get [None], none
    when the pair is there. *)
Definition insert_or_ignore_contact (user_id : option Z) (friend_username : json)
    (db : MessageDatabase) : MessageDatabase :=
  match user_id, friend_username with
  | None, _ | _, JNull => db
  | Some uid, _ =>
      if existsb (fun c => Z.eqb (fst c) uid && py_eq (snd c) friend_username)
                 (contacts db)
      then db
      else set_contacts (contacts db ++ [(uid, friend_username)]) db
  end.

(** [add_contact] on a connection of its own.  SQLite admits one writer:
    when [locked], another connection holds the write lock (it has written
    and not committed), the INSERT waits for its timeout and raises
    [OperationalError], which is no [IntegrityError]. *)
Definition add_contact_on (locked : bool) (user_id : option Z)
    (friend_username : json) : Py MessageDatabase unit :=
  get_connection (
    try_except (
      pure_outcome (bind_param friend_username);;
      if locked then raise OperationalError
      else modify (insert_or_ignore_contact user_id friend_username))
    [ (is_IntegrityError, mret tt) ]).

(** [add_contact], called while no connection is writing. *)
Definition add_contact (user_id : option Z) (friend_username : json)
    : Py MessageDatabase unit :=
  add_contact_on false user_id friend_username.

(** [add_message].  Its [self.add_contact(...)] opens a second connection
    while the INSERT of the first is not committed. *)
Definition add_message (user_id : option Z)
    (sender recipient content : json) (timestamp : Q) : Py MessageDatabase unit :=
  get_connection (
    pure_outcome (bind_param sender);;
    pure_outcome (bind_param recipient);;
    pure_outcome (bind_param content);;
    uid ← pure_outcome (match user_id with
                        | Some u => Ret u
                        | None => Raise IntegrityError end);
    pure_outcome (not_null sender);;
    pure_outcome (not_null recipient);;
    pure_outcome (not_null content);;
    modify (fun db =>
      set_messages (messages db ++
        [ {| message_id := next_message_id db; msg_user_id := uid;
             msg_sender := sender; msg_recipient := recipient;
             msg_content := content; msg_timestamp := timestamp;
             msg_is_sent := true |} ])
        (next_message_id db + 1) db);;
    let other_user := if negb (py_eq sender recipient) then recipient else sender in
    add_contact_on true user_id other_user).

(** [add_pending_message]; [attempts] takes its DEFAULT 0. *)
Definition add_pending_message (user_id : option Z) (recipient content : string)
    (timestamp : Q) : Py MessageDatabase unit :=
  get_connection (
    uid ← pure_outcome (match user_id with
                        | Some u => Ret u
                        | None => Raise IntegrityError end);
    modify (fun db =>
      set_next_pending_id (next_pending_id db + 1)
        (set_pending (pending_messages db ++
          [ {| pending_id := next_pending_id db; user_id := uid;
               recipient := recipient; content := content;
               timestamp := timestamp; attempts := 0 |} ]) db))).

(** ORDER BY timestamp ASC *)
Definition by_timestamp (r1 r2 : pending_row) : Prop :=
  Qle (timestamp r1) (timestamp r2).

#[global] Instance by_timestamp_dec r1 r2 : Decision (by_timestamp r1 r2) :=
  match Qlt_le_dec (timestamp r2) (timestamp r1) with
  | left Hlt => right (fun Hle => Qlt_not_le _ _ Hlt Hle)
  | right Hle => left Hle
  end.

(** WHERE user_id = ? AND attempts < 3 *)
Definition pending_selected (user_id : option Z) (r : pending_row) : bool :=
  match user_id with
  | Some u => Z.eqb (Database.user_id r) u && Z.ltb (attempts r) 3
  | None => false
  end.

(** [get_pending_messages] *)
Definition get_pending_messages (user_id : option Z)
    : Py MessageDatabase (list pending_row) :=
  get_connection (fun db =>
    (Ret (merge_sort by_timestamp
            (List.filter (pending_selected user_id) (pending_messages db))), db)).

(** [mark_pending_sent] *)
Definition mark_pending_sent (pending_id : Z) : Py MessageDatabase unit :=
  get_connection (modify (fun db =>
    set_pending
      (List.filter (fun r => negb (Z.eqb (Database.pending_id r) pending_id))
                   (pending_messages db)) db)).

(** [increment_pending_attempts] *)
Definition increment_pending_attempts (pending_id : Z) : Py MessageDatabase unit :=
  get_connection (modify (fun db =>
    set_pending
      (List.map (fun r =>
         if Z.eqb (Database.pending_id r) pending_id
         then {| pending_id := Database.pending_id r; user_id := Database.user_id r;
                 recipient := recipient r; content := content r;
                 timestamp := timestamp r; attempts := attempts r + 1 |}
         else r) (pending_messages db)) db)).

(** [clear_pending_messages] *)
Definition clear_pending_messages (user_id : Z) : Py MessageDatabase unit :=
  get_connection (modify (fun db =>
    set_pending
      (List.filter (fun r => negb (Z.eqb (Database.user_id r) user_id))
                   (pending_messages db)) db)).

End Database.

(** ** messenger.py *)
Module App.

Inductive ConnectionState : Type :=
  | CONNECTED
  | DISCONNECTED
  | RECONNECTING
  | OFFLINE.

Definition is_connected (s : ConnectionState) : bool :=
  match s with CONNECTED => true | _ => false end.

(** The dict put on [outgoing_queue].  [_send_message] leaves the keys
    ['is_retry'] and ['pending_id'] out; they are read with [.get], so an
    absent ['is_retry'] is [false] and an absent ['pending_id'] is [None]. *)
Record OutboundMessage : Type := {
  recipient : string;
  content : string;
  timestamp : Q;
  is_retry : bool;
  pending_id : option Z
}.

(** The dicts put on [incoming_queue]. *)
Inductive event : Type :=
  | sent_success (recipient : string)
  | new_message (sender content : json).

(** The fields of [MessengerApp] that the workers use, with the values read
    from [Config].  [threads_started] tells that [_start_threads] has run;
    [status_updates] are the label updates handed to the GUI thread. *)
Record MessengerApp : Type := {
  server : string;
  max_retries : Z;
  poll_interval : Q;
  db : Database.MessageDatabase;
  incoming_queue : list event;
  outgoing_queue : list OutboundMessage;
  stop_event : bool;
  threads_started : bool;
  messenger : option Messenger.DirectMessenger;
  connection_state : ConnectionState;
  retry_count : N;
  backoff_time : N;
  user_id : option Z;
  username : option string;
  password : option string;
  current_recipient : option string;
  status_updates : list ConnectionState
}.

Definition set_server (x : string) (a : MessengerApp) : MessengerApp :=
  {| server := x; max_retries := max_retries a; poll_interval := poll_interval a;
     db := db a; incoming_queue := incoming_queue a;
     outgoing_queue := outgoing_queue a; stop_event := stop_event a;
     threads_started := threads_started a; messenger := messenger a;
     connection_state := connection_state a; retry_count := retry_count a;
     backoff_time := backoff_time a; user_id := user_id a; username := username a;
     password := password a; current_recipient := current_recipient a;
     status_updates := status_updates a |}.
Definition set_db (x : Database.MessageDatabase) (a : MessengerApp) : MessengerApp :=
  {| server := server a; max_retries := max_retries a; poll_interval := poll_interval a;
     db := x; incoming_queue := incoming_queue a;
     outgoing_queue := outgoing_queue a; stop_event := stop_event a;
     threads_started := threads_started a; messenger := messenger a;
     connection_state := connection_state a; retry_count := retry_count a;
     backoff_time := backoff_time a; user_id := user_id a; username := username a;
     password := password a; current_recipient := current_recipient a;
     status_updates := status_updates a |}.
Definition set_incoming_queue (x : list event) (a : MessengerApp) : MessengerApp :=
  {| server := server a; max_retries := max_retries a; poll_interval := poll_interval a;
     db := db a; incoming_queue := x;
     outgoing_queue := outgoing_queue a; stop_event := stop_event a;
     threads_started := threads_started a; messenger := messenger a;
     connection_state := connection_state a; retry_count := retry_count a;
     backoff_time := backoff_time a; user_id := user_id a; username := username a;
     password := password a; current_recipient := current_recipient a;
     status_updates := status_updates a |}.
Definition set_outgoing_queue (x : list OutboundMessage) (a : MessengerApp)
    : MessengerApp :=
  {| server := server a; max_retries := max_retries a; poll_interval := poll_interval a;
     db := db a; incoming_queue := incoming_queue a;
     outgoing_queue := x; stop_event := stop_event a;
     threads_started := threads_started a; messenger := messenger a;
     connection_state := connection_state a; retry_count := retry_count a;
     backoff_time := backoff_time a; user_id := user_id a; username := username a;
     password := password a; current_recipient := current_recipient a;
     status_updates := status_updates a |}.
Definition set_stop_event (x : bool) (a : MessengerApp) : MessengerApp :=
  {| server := server a; max_retries := max_retries a; poll_interval := poll_interval a;
     db := db a; incoming_queue := incoming_queue a;
     outgoing_queue := outgoing_queue a; stop_event := x;
     threads_started := threads_started a; messenger := messenger a;
     connection_state := connection_state a; retry_count := retry_count a;
     backoff_time := backoff_time a; user_id := user_id a; username := username a;
     password := password a; current_recipient := current_recipient a;
     status_updates := status_updates a |}.
Definition set_threads_started (x : bool) (a : MessengerApp) : MessengerApp :=
  {| server := server a; max_retries := max_retries a; poll_interval := poll_interval a;
     db := db a; incoming_queue := incoming_queue a;
     outgoing_queue := outgoing_queue a; stop_event := stop_event a;
     threads_started := x; messenger := messenger a;
     connection_state := connection_state a; retry_count := retry_count a;
     backoff_time := backoff_time a; user_id := user_id a; username := username a;
     password := password a; current_recipient := current_recipient a;
     status_updates := status_updates a |}.
Definition set_messenger (x : option Messenger.DirectMessenger) (a : MessengerApp)
    : MessengerApp :=
  {| server := server a; max_retries := max_retries a; poll_interval := poll_interval a;
     db := db a; incoming_queue := incoming_queue a;
     outgoing_queue := outgoing_queue a; stop_event := stop_event a;
     threads_started := threads_started a; messenger := x;
     connection_state := connection_state a; retry_count := retry_count a;
     backoff_time := backoff_time a; user_id := user_id a; username := username a;
     password := password a; current_recipient := current_recipient a;
     status_updates := status_updates a |}.
Definition set_connection_state (x : ConnectionState) (upd : list ConnectionState)
    (a : MessengerApp) : MessengerApp :=
  {| server := server a; max_retries := max_retries a; poll_interval := poll_interval a;
     db := db a; incoming_queue := incoming_queue a;
     outgoing_queue := outgoing_queue a; stop_event := stop_event a;
     threads_started := threads_started a; messenger := messenger a;
     connection_state := x; retry_count := retry_count a;
     backoff_time := backoff_time a; user_id := user_id a; username := username a;
     password := password a; current_recipient := current_recipient a;
     status_updates := upd |}.
Definition set_retry_count (x : N) (a : MessengerApp) : MessengerApp :=
  {| server := server a; max_retries := max_retries a; poll_interval := poll_interval a;
     db := db a; incoming_queue := incoming_queue a;
     outgoing_queue := outgoing_queue a; stop_event := stop_event a;
     threads_started := threads_started a; messenger := messenger a;
     connection_state := connection_state a; retry_count := x;
     backoff_time := backoff_time a; user_id := user_id a; username := username a;
     password := password a; current_recipient := current_recipient a;
     status_updates := status_updates a |}.
Definition set_user (uid : option Z) (name pass : option string) (a : MessengerApp)
    : MessengerApp :=
  {| server := server a; max_retries := max_retries a; poll_interval := poll_interval a;
     db := db a; incoming_queue := incoming_queue a;
     outgoing_queue := outgoing_queue a; stop_event := stop_event a;
     threads_started := threads_started a; messenger := messenger a;
     connection_state := connection_state a; retry_count := retry_count a;
     backoff_time := backoff_time a; user_id := uid; username := name;
     password := pass; current_recipient := current_recipient a;
     status_updates := status_updates a |}.
Definition set_current_recipient (x : option string) (a : MessengerApp)
    : MessengerApp :=
  {| server := server a; max_retries := max_retries a; poll_interval := poll_interval a;
     db := db a; incoming_queue := incoming_queue a;
     outgoing_queue := outgoing_queue a; stop_event := stop_event a;
     threads_started := threads_started a; messenger := messenger a;
     connection_state := connection_state a; retry_count := retry_count a;
     backoff_time := backoff_time a; user_id := user_id a; username := username a;
     password := password a; current_recipient := x;
     status_updates := status_updates a |}.

(** [MessengerApp.__init__] over the database file and the configuration. *)
Definition init (server : string) (max_retries : Z) (poll_interval : Q)
    (db : Database.MessageDatabase) : MessengerApp :=
  {| server := server; max_retries := max_retries; poll_interval := poll_interval;
     db := db; incoming_queue := []; outgoing_queue := []; stop_event := false;
     threads_started := false; messenger := None;
     connection_state := DISCONNECTED; retry_count := 0%N; backoff_time := 1%N;
     user_id := None; username := None; password := None;
     current_recipient := None; status_updates := [] |}.

(** A method of the application runs on the object and the world. *)
Definition astate : Type := MessengerApp * world.

Definition self : Py astate MessengerApp := fun s => (Ret (fst s), s).
Definition set_self (f : MessengerApp -> MessengerApp) : Py astate unit :=
  modify (fun s => (f (fst s), snd s)).
Definition io {A} (m : Py world A) : Py astate A := fun s =>
  let (r, w') := m (snd s) in (r, (fst s, w')).

(** A call [self.db.f(...)] *)
Definition on_db {A} (m : Py Database.MessageDatabase A) : Py astate A := fun s =>
  let (r, db') := m (db (fst s)) in (r, (set_db db' (fst s), snd s)).

(** A call [self.messenger.f(...)]; the object is shared, what the method
    does to it is seen by every later call. *)
Definition on_messenger {A} (m : Py Messenger.mstate A) : Py astate A := fun s =>
  match messenger (fst s) with
  | Some d =>
      match m (d, snd s) with
      | (r, (d', w')) => (r, (set_messenger (Some d') (fst s), w'))
      end
  | None => (Raise AttributeError, s)
  end.

(** [_update_connection_state] *)
Definition _update_connection_state (state : ConnectionState) : Py astate unit :=
  set_self (fun a => set_connection_state state (status_updates a ++ [state]) a).

(** The delay of [_try_reconnect]:
    [min(self.backoff_time * (2 ** self.retry_count), 60)].  The base is
    the 1 of [__init__], the counter starts at 0 and is only counted up or
    put back to 0: both are natural numbers, and the power is the integer
    one. *)
Definition backoff (backoff_time retry_count : N) : Z :=
  Z.min (Z.of_N backoff_time * 2 ^ Z.of_N retry_count) 60.

(** [_flush_pending_messages] *)
Definition retry_of (msg : Database.pending_row) : OutboundMessage :=
  {| recipient := Database.recipient msg;
     content := Database.content msg;
     timestamp := Database.timestamp msg;
     is_retry := true;
     pending_id := Some (Database.pending_id msg) |}.

Definition _flush_pending_messages : Py astate unit :=
  a ← self;
  pending ← on_db (Database.get_pending_messages (user_id a));
  set_self (fun a => set_outgoing_queue (outgoing_queue a ++ (retry_of <$> pending)) a).

Definition json_of_str (s : option string) : json :=
  match s with Some x => JStr x | None => JNull end.

Section WithRuntime.
Context `{Runtime}.

(** [_connect] *)
Definition _connect : Py astate bool :=
  try_except (
    a ← self;
    set_self (set_messenger
      (Some (Messenger.init (Some (server a)) (username a) (password a))));;
    ok ← on_messenger Messenger.connect;
    if ok : bool then
      _update_connection_state CONNECTED;;
      set_self (set_retry_count 0%N);;
      mret true
    else
      _update_connection_state DISCONNECTED;;
      mret false)
  [ (is_Exception, _update_connection_state DISCONNECTED;; mret false) ].

(** [_try_reconnect] *)
Definition _try_reconnect : Py astate unit :=
  a ← self;
  if Z.leb (max_retries a) (Z.of_N (retry_count a)) then
    _update_connection_state OFFLINE
  else
    _update_connection_state RECONNECTING;;
    io (Net.time_sleep (inject_Z (backoff (backoff_time a) (retry_count a))));;
    set_self (fun a => set_retry_count (retry_count a + 1)%N a);;
    ok ← _connect;
    if ok : bool then _flush_pending_messages else mret tt.

(** [_handle_send_failure] *)
Definition _handle_send_failure (msg_data : OutboundMessage) : Py astate unit :=
  a ← self;
  (if negb (is_retry msg_data) then
     on_db (Database.add_pending_message (user_id a) (recipient msg_data)
              (content msg_data) (timestamp msg_data))
   else mret tt);;
  _update_connection_state DISCONNECTED;;
  _try_reconnect.

(** One turn of the loop of [_network_worker].  An empty queue is the
    [queue.Empty] after the timeout. *)
Definition _network_worker_body : Py astate unit :=
  a ← self;
  match outgoing_queue a with
  | [] => mret tt
  | msg_data :: rest =>
      set_self (set_outgoing_queue rest);;
      if is_connected (connection_state a) then
        sent ← match messenger a with
               | Some _ =>
                   r ← on_messenger
                         (Messenger.send (content msg_data) (recipient msg_data));
                   mret (truthy r)
               | None => mret false
               end;
        if sent : bool then
          a ← self;
          on_db (Database.add_message (user_id a)
                   (json_of_str (username a)) (JStr (recipient msg_data))
                   (JStr (content msg_data)) (timestamp msg_data));;
          match pending_id msg_data with
          | Some p => if Z.eqb p 0 then mret tt
                      else on_db (Database.mark_pending_sent p)
          | None => mret tt
          end;;
          set_self (fun a => set_incoming_queue
            (incoming_queue a ++ [sent_success (recipient msg_data)]) a)
        else _handle_send_failure msg_data
      else
        if negb (is_retry msg_data) then
          a ← self;
          on_db (Database.add_pending_message (user_id a) (recipient msg_data)
                   (content msg_data) (timestamp msg_data))
        else mret tt
  end.

Definition _network_worker_step : Py astate unit :=
  try_except _network_worker_body [ (is_Exception, mret tt) ].

(** [float(v)] *)
Definition py_float (v : json) : outcome Q :=
  match v with
  | JStr s => match float_of_str s with Some q => Ret q | None => Raise ValueError end
  | JNum q => Ret q
  | JBool b => Ret (Database.num_of_bool b)
  | JNull | JArr _ | JObj _ => Raise TypeError
  end.

(** The body of [for msg in new_messages] in [_poll_messages]; a
    [DirectMessage] has the attribute [message]. *)
Definition _poll_one (msg : Messenger.DirectMessage) : Py astate unit :=
  let content := Messenger.message msg in
  let sender := Messenger.recipient msg in
  let timestamp := Messenger.timestamp msg in
  if truthy content && truthy sender then
    a ← self;
    ts ← (if truthy timestamp then pure_outcome (py_float timestamp)
          else io Net.time_time);
    on_db (Database.add_message (user_id a) sender
             (json_of_str (username a)) content ts);;
    set_self (fun a => set_incoming_queue
      (incoming_queue a ++ [new_message sender content]) a)
  else mret tt.

Fixpoint for_loop {S A} (body : A -> Py S unit) (l : list A) : Py S unit :=
  match l with
  | [] => mret tt
  | x :: l' => body x;; for_loop body l'
  end.

(** One turn of the loop of [_poll_messages]. *)
Definition _poll_messages_body : Py astate unit :=
  a ← self;
  (if is_connected (connection_state a) && bool_decide (is_Some (messenger a)) then
     new_messages ← on_messenger Messenger.retrieve_new;
     for_loop _poll_one new_messages
   else mret tt);;
  a ← self;
  io (Net.time_sleep (poll_interval a)).

Definition _poll_messages_step : Py astate unit :=
  try_except _poll_messages_body
    [ (is_Exception,
       a ← self;
       (if is_connected (connection_state a) then
          _update_connection_state DISCONNECTED;;
          _try_reconnect
        else mret tt);;
       io (Net.time_sleep 5%Q)) ].

(** [_send_message]: [text] is what the input widget holds, already
    stripped. *)
Definition _send_message (text : string) : Py astate unit :=
  a ← self;
  match current_recipient a with
  | None => mret tt
  | Some r =>
      if String.eqb r EmptyString then mret tt
      else if String.eqb text EmptyString then mret tt
      else
        now ← io Net.time_time;
        set_self (fun a => set_outgoing_queue
          (outgoing_queue a ++
           [ {| recipient := r; content := text; timestamp := now;
                is_retry := false; pending_id := None |} ]) a)
  end.

(** [_start_threads] *)
Definition _start_threads : Py astate unit :=
  set_self (set_threads_started true).

(** [on_connect] of the settings dialog, with the stripped entries. *)
Definition on_connect (server username password : string) : Py astate unit :=
  if String.eqb username EmptyString || String.eqb password EmptyString then mret tt
  else
    set_self (set_server server);;
    uid ← on_db (Database.get_or_create_user username);
    set_self (set_user (Some uid) (Some username) (Some password));;
    ok ← _connect;
    if ok : bool then _start_threads else mret tt.

(** [_on_contact_select] *)
Definition _on_contact_select (name : string) : Py astate unit :=
  set_self (set_current_recipient (Some name)).

(** [_add_contact], with the stripped entry of the dialog. *)
Definition _add_contact (name : string) : Py astate unit :=
  a ← self;
  if negb (String.eqb name EmptyString) &&
     match user_id a with Some u => negb (Z.eqb u 0) | None => false end
  then on_db (Database.add_contact (user_id a) (JStr name))
  else mret tt.

(** The drain of [_process_incoming_queue]; what it shows is not modelled. *)
Definition _process_incoming_queue : Py astate unit :=
  set_self (set_incoming_queue []).

(** [shutdown] *)
Definition shutdown : Py astate unit :=
  set_self (set_stop_event true);;
  a ← self;
  match messenger a with
  | Some _ => on_messenger Messenger.close
  | None => mret tt
  end.

End WithRuntime.
End App.

(** ** The running program

    The GUI thread and the two workers take turns; the peer and the clock
    may change between two turns.  A worker turns only once
    [_start_threads] has run. *)
Inductive step `{Runtime} : App.astate -> App.astate -> Prop :=
  | step_network s :
      App.threads_started (fst s) = true ->
      step s (snd (App._network_worker_step s))
  | step_poll s :
      App.threads_started (fst s) = true ->
      step s (snd (App._poll_messages_step s))
  | step_send_message s text :
      step s (snd (App._send_message text s))
  | step_on_connect s server username password :
      step s (snd (App.on_connect server username password s))
  | step_contact_select s name :
      step s (snd (App._on_contact_select name s))
  | step_add_contact s name :
      step s (snd (App._add_contact name s))
  | step_process_incoming s :
      step s (snd (App._process_incoming_queue s))
  | step_shutdown s :
      step s (snd (App.shutdown s))
  | step_environment s scr t :
      step s (fst s, set_script scr (set_clock t (snd s))).

(** The states the program reaches from its start on the database file
    [db0], in a world [w0]. *)
Inductive reachable `{Runtime} (server : string) (max_retries : Z)
    (poll_interval : Q) (db0 : Database.MessageDatabase) (w0 : world)
    : App.astate -> Prop :=
  | reachable_init :
      reachable server max_retries poll_interval db0 w0
        (App.init server max_retries poll_interval db0, w0)
  | reachable_step s s' :
      reachable server max_retries poll_interval db0 w0 s ->
      step s s' ->
      reachable server max_retries poll_interval db0 w0 s'.

(** Every pending row still has the DEFAULT of its [attempts] column. *)
Definition attempts_untouched (db : Database.MessageDatabase) : Prop :=
  Forall (fun r => Database.attempts r = 0) (Database.pending_messages db).

(** ** A runtime to run the model on

    Its decoder knows the response lines of the test-suite; its encoder
    names a request by its kind. *)
Definition json_text (s : string) : string :=
  string_of_list_ascii
    ((fun c => if Ascii.eqb c "'"%char then "034"%char else c) <$>
     list_ascii_of_string s).

Definition join_ok_line : string :=
  json_text "{'response': {'type': 'ok', 'token': 'T1'}}".
Definition join_error_line : string :=
  json_text "{'response': {'type': 'error', 'message': 'Invalid credentials'}}".
Definition send_ok_line : string :=
  json_text "{'response': {'type': 'ok'}}".
Definition null_response_line : string :=
  json_text "{'response': null}".
Definition no_response_line : string :=
  json_text "{'other_key': 'value'}".
Definition all_batch_line : string :=
  json_text ("{'response': {'type': 'ok', 'messages': ["
    ++ "{'message': 'Incoming', 'from': 'sender', 'timestamp': '1234567890'},"
    ++ "{'message': 'Outgoing', 'recipient': 'recipient', 'timestamp': '1234567891'}"
    ++ "]}}").

Definition sample_loads (line : string) : outcome json :=
  if String.eqb line join_ok_line then
    Ret (JObj {[ "response" :=
      JObj (<["type" := JStr "ok"]> {[ "token" := JStr "T1" ]}) ]})
  else if String.eqb line join_error_line then
    Ret (JObj {[ "response" :=
      JObj (<["type" := JStr "error"]>
            {[ "message" := JStr "Invalid credentials" ]}) ]})
  else if String.eqb line send_ok_line then
    Ret (JObj {[ "response" := JObj {[ "type" := JStr "ok" ]} ]})
  else if String.eqb line null_response_line then
    Ret (JObj {[ "response" := JNull ]})
  else if String.eqb line no_response_line then
    Ret (JObj {[ "other_key" := JStr "value" ]})
  else if String.eqb line all_batch_line then
    Ret (JObj {[ "response" :=
      JObj (<["type" := JStr "ok"]> {[ "messages" :=
        JArr [ JObj (<["message" := JStr "Incoming"]>
                    (<["from" := JStr "sender"]>
                     {[ "timestamp" := JStr "1234567890" ]}));
               JObj (<["message" := JStr "Outgoing"]>
                    (<["recipient" := JStr "recipient"]>
                     {[ "timestamp" := JStr "1234567891" ]})) ] ]}) ]})
  else Raise JSONDecodeError.

Definition sample_dumps (v : json) : string :=
  match v with
  | JObj o =>
      match o !! "join", o !! "directmessage" with
      | Some _, _ => "{join}"
      | None, Some (JStr kind) => "{directmessage: " ++ kind ++ "}"
      | None, Some _ => "{directmessage: entry}"
      | None, None => "{}"
      end
  | _ => "?"
  end.

Definition sample_runtime : Runtime :=
  {| json_loads := sample_loads;
     json_dumps := sample_dumps;
     float_of_str := fun _ => None;
     str_of_float := fun _ => "0.0" |}.

(** An empty world with a given script. *)
Definition world_with (scr : list io_outcome) : world :=
  {| script := scr; live := []; next_handle := 0%nat; wire := [];
     connects := 0%nat; clock := 0%Q; sleeps := [] |}.

(** ** Frames and totality of statement sequences *)

(** [m] moves the state only along [R], whether it returns or raises. *)
Definition preserves {S A} (R : relation S) (m : Py S A) : Prop :=
  forall s, R s (snd (m s)).

(** [m] returns on every state. *)
Definition returns {S A} (m : Py S A) : Prop :=
  forall s, exists a, fst (m s) = Ret a.

(** [Q] holds of the outcome of [m] and the state it leaves, from [s]. *)
Definition wp {S A} (m : Py S A) (Q : outcome A -> S -> Prop) (s : S) : Prop :=
  Q (fst (m s)) (snd (m s)).

(** The part [p] of the state is left as it is. *)
Definition keeps {S B} (p : S -> B) : relation S := fun s s' => p s' = p s.

(** The property [P] of the state is kept. *)
Definition maintains {S} (P : S -> Prop) : relation S := fun s s' => P s -> P s'.



(** ** Sample states *)

Definition sample_messenger : Messenger.DirectMessenger :=
  Messenger.init (Some "127.0.0.1") (Some "testuser") (Some "testpass").

(** The messenger of the samples after a join that the server accepted. *)
Definition joined_state : Messenger.mstate :=
  snd (@Messenger.connect sample_runtime
         (sample_messenger,
          world_with [IoOk EmptyString; IoOk EmptyString; IoOk EmptyString;
                      IoOk join_ok_line])).

(** The joined messenger of the samples in a world where the next request
    is answered by [line]. *)
Definition joined_with (line : string) : Messenger.mstate :=
  (fst joined_state,
   set_script [IoOk EmptyString; IoOk EmptyString; IoOk line] (snd joined_state)).

Definition row (id uid : Z) (recipient content : string) (t : Q) (n : Z)
    : Database.pending_row :=
  {| Database.pending_id := id; Database.user_id := uid;
     Database.recipient := recipient; Database.content := content;
     Database.timestamp := t; Database.attempts := n |}.

(** A database with three pending rows: one of user 1 to flush, one of
    user 1 with three attempts, one of user 2. *)
Definition sample_db : Database.MessageDatabase :=
  {| Database.users := [(1, "testuser"); (2, "other")];
     Database.contacts := [];
     Database.messages := [];
     Database.pending_messages :=
       [ row 1 1 "bob" "hi" 10%Q 0;
         row 2 1 "carol" "again" 5%Q 3;
         row 3 2 "dave" "hey" 7%Q 0 ];
     Database.next_user_id := 3;
     Database.next_message_id := 1;
     Database.next_pending_id := 4 |}.

(** The application of user 1 over [db], disconnected, with [queue] to send. *)
Definition sample_app (db : Database.MessageDatabase)
    (queue : list App.OutboundMessage) : App.MessengerApp :=
  App.set_outgoing_queue queue
    (App.set_threads_started true
       (App.set_user (Some 1) (Some "testuser") (Some "testpass")
          (App.init "127.0.0.1" 5 2%Q db))).

(** A world in which the next connection and join succeed. *)
Definition friendly_world : world :=
  world_with [IoOk EmptyString; IoOk EmptyString; IoOk EmptyString;
              IoOk join_ok_line].

Definition hello : App.OutboundMessage :=
  {| App.recipient := "bob"; App.content := "hello"; App.timestamp := 12%Q;
     App.is_retry := false; App.pending_id := None |}.

(** The part [q] of the application object is left as it is. *)
Definition keeps_app {B} (q : App.MessengerApp -> B) : relation App.astate :=
  keeps (fun s : App.astate => q (fst s)).


(** The invariant of the pending table as a relation on states. *)
Definition untouched_rel : relation App.astate :=
  maintains (fun s : App.astate => attempts_untouched (App.db (fst s))).

(** Two documents of other shapes: a list, and a ['response'] that is a
    string; and a runtime whose decoder knows them. *)
Definition list_line : string := "[1, 2]".
Definition text_response_line : string := json_text "{'response': 'ok'}".

Definition shapes_runtime : Runtime :=
  {| json_loads := fun line =>
       if String.eqb line list_line then Ret (JArr [JNum 1; JNum 2])
       else if String.eqb line text_response_line then
         Ret (JObj {[ "response" := JStr "ok" ]})
       else sample_loads line;
     json_dumps := sample_dumps;
     float_of_str := fun _ => None;
     str_of_float := fun _ => "0.0" |}.

(** ** Further definitions *)

(** No call of the script meets an exception. *)
Definition no_failure (scr : list io_outcome) : Prop :=
  Forall (fun o => match o with IoOk _ => True | IoErr _ => False end) scr.

(** *** What [retrieve_new] is specified to return

    The definitions below follow the words of the specification, not the
    code of [retrieve_new]; the theorem on [retrieve_new] compares the two.

    The state in which the exchange takes place: the state of the call when
    the object holds a token, the state the implicit [connect] leaves when
    it holds none and the connect succeeds; there is no exchange when the
    implicit connect fails. *)
Definition exchange_state `{Runtime} (s : Messenger.mstate)
    : option Messenger.mstate :=
  if truthy (Messenger.token (fst s)) then Some s
  else match Messenger.connect s with
       | (Ret true, s') => Some s'
       | _ => None
       end.

(** The outcome of the next I/O call and what is left of the script. *)
Definition next_io (scr : list io_outcome) : io_outcome * list io_outcome :=
  match scr with
  | [] => (IoOk EmptyString, [])
  | o :: rest => (o, rest)
  end.

(** The line of the server's answer: there is one when both streams are
    there and open and none of the write, the flush and the read meets a
    transport error. *)
Definition reply_line (s : Messenger.mstate) : option string :=
  match Messenger.send_stream (fst s), Messenger.recv_stream (fst s) with
  | Some out, Some inp =>
      if Net.is_live out (snd s) && Net.is_live inp (snd s) then
        match next_io (script (snd s)) with
        | (IoOk _, after_write) =>
            match next_io after_write with
            | (IoOk _, after_flush) =>
                match next_io after_flush with
                | (IoOk line, _) => Some line
                | (IoErr _, _) => None
                end
            | (IoErr _, _) => None
            end
        | (IoErr _, _) => None
        end
      else None
  | _, _ => None
  end.

(** The records of a batch: every item has to be an object. *)
Fixpoint records (items : list json) : option (list (gmap string json)) :=
  match items with
  | [] => Some []
  | JObj o :: items' => cons o <$> records items'
  | _ :: _ => None
  end.

(** The decoded batch of a line: the line has to decode to a response of
    type ['ok'] whose messages are a list of records. *)
Definition decoded_batch `{Runtime} (line : string)
    : option (list (gmap string json)) :=
  match Protocol.parse_messages line with
  | Ret (Some r) =>
      if py_eq_str (Protocol.mr_type r) "ok" then
        match Protocol.mr_messages r with
        | JArr items => records items
        | _ => None
        end
      else None
  | _ => None
  end.

(** The message object of one raw record of an unread batch. *)
Definition message_of_record (o : gmap string json) : Messenger.DirectMessage :=
  {| Messenger.recipient := default JNull (o !! "from");
     Messenger.message := default JNull (o !! "message");
     Messenger.timestamp := default JNull (o !! "timestamp") |}.

(** One message per record of the decoded batch on success, the empty
    sequence on any failure. *)
Definition retrieve_new_spec `{Runtime} (s : Messenger.mstate)
    : list Messenger.DirectMessage :=
  match exchange_state s with
  | Some s1 =>
      match reply_line s1 with
      | Some line =>
          match decoded_batch line with
          | Some objs => message_of_record <$> objs
          | None => []
          end
      | None => []
      end
  | None => []
  end.

(** A batch of two received messages, and a runtime whose decoder knows
    it besides the lines of [sample_runtime]. *)
Definition inbox_line : string :=
  json_text ("{'response': {'type': 'ok', 'messages': ["
    ++ "{'message': 'one', 'from': 'alice', 'timestamp': '1'},"
    ++ "{'message': 'two', 'from': 'bob', 'timestamp': '2'}"
    ++ "]}}").

Definition inbox_runtime : Runtime :=
  {| json_loads := fun line =>
       if String.eqb line inbox_line then
         Ret (JObj {[ "response" :=
           JObj (<["type" := JStr "ok"]> {[ "messages" :=
             JArr [ JObj (<["message" := JStr "one"]>
                         (<["from" := JStr "alice"]>
                          {[ "timestamp" := JStr "1" ]}));
                    JObj (<["message" := JStr "two"]>
                         (<["from" := JStr "bob"]>
                          {[ "timestamp" := JStr "2" ]})) ] ]}) ]})
       else sample_loads line;
     json_dumps := sample_dumps;
     float_of_str := fun s =>
       if String.eqb s "1" then Some 1%Q
       else if String.eqb s "2" then Some 2%Q else None;
     str_of_float := fun _ => "0.0" |}.

(** The joined messenger of the samples, evaluated, and the same after
    [close]. *)
Definition joined : Messenger.mstate := Eval vm_compute in joined_state.

Definition closed : Messenger.mstate :=
  Eval vm_compute in snd (Messenger.close joined_state).

(** The joined messenger with [scr] as the coming outcomes. *)
Definition joined_script (scr : list io_outcome) : Messenger.mstate :=
  (fst joined, set_script scr (snd joined)).

(** Pending ids are distinct and below the AUTOINCREMENT counter. *)
Definition pending_ids_ok (db : Database.MessageDatabase) : Prop :=
  NoDup (Database.pending_id <$> Database.pending_messages db) /\
  Forall (fun r => Database.pending_id r < Database.next_pending_id db)
         (Database.pending_messages db).

(** [n] calls of [increment_pending_attempts] for the id [p]. *)
Definition increments (n : nat) (p : Z) (db : Database.MessageDatabase)
    : Database.MessageDatabase :=
  Nat.iter n (fun db => snd (Database.increment_pending_attempts p db)) db.

(** A pending row after [n] increments. *)
Definition bumped (n : nat) (r : Database.pending_row) : Database.pending_row :=
  {| Database.pending_id := Database.pending_id r;
     Database.user_id := Database.user_id r;
     Database.recipient := Database.recipient r;
     Database.content := Database.content r;
     Database.timestamp := Database.timestamp r;
     Database.attempts := Database.attempts r + Z.of_nat n |}.

(** ** database.py: reading the history *)
Module History.

(** ORDER BY timestamp ASC on [messages] *)
Definition by_timestamp (r1 r2 : Database.message_row) : Prop :=
  Qle (Database.msg_timestamp r1) (Database.msg_timestamp r2).

#[global] Instance by_timestamp_dec r1 r2 : Decision (by_timestamp r1 r2) :=
  match Qlt_le_dec (Database.msg_timestamp r2) (Database.msg_timestamp r1) with
  | left Hlt => right (fun Hle => Qlt_not_le _ _ Hlt Hle)
  | right Hle => left Hle
  end.

(** WHERE user_id = ? *)
Definition of_user (user_id : option Z) (r : Database.message_row) : bool :=
  match user_id with
  | Some u => Z.eqb (Database.msg_user_id r) u
  | None => false
  end.

(** [get_all_messages]: [get_messages] with no conversation partner and
    the default LIMIT 500, that is the query of its [else] branch. *)
Definition get_all_messages (user_id : option Z)
    : Py Database.MessageDatabase (list Database.message_row) :=
  Database.get_connection (fun db =>
    (Ret (take 500 (merge_sort by_timestamp
                      (List.filter (of_user user_id) (Database.messages db)))),
     db)).

End History.




(** The application of the samples, CONNECTED through the joined
    messenger. *)
Definition connected_app (db : Database.MessageDatabase)
    (queue : list App.OutboundMessage) : App.MessengerApp :=
  App.set_messenger (Some (fst joined))
    (App.set_connection_state App.CONNECTED [App.CONNECTED] (sample_app db queue)).

(** A batch whose one message has a timestamp that is no number. *)
Definition garbled_line : string :=
  json_text ("{'response': {'type': 'ok', 'messages': ["
    ++ "{'message': 'one', 'from': 'alice', 'timestamp': 'soon'}"
    ++ "]}}").

Definition garbled_runtime : Runtime :=
  {| json_loads := fun line =>
       if String.eqb line garbled_line then
         Ret (JObj {[ "response" :=
           JObj (<["type" := JStr "ok"]> {[ "messages" :=
             JArr [ JObj (<["message" := JStr "one"]>
                         (<["from" := JStr "alice"]>
                          {[ "timestamp" := JStr "soon" ]})) ] ]}) ]})
       else sample_loads line;
     json_dumps := sample_dumps;
     float_of_str := fun s =>
       if String.eqb s "1" then Some 1%Q
       else if String.eqb s "2" then Some 2%Q else None;
     str_of_float := fun _ => "0.0" |}.

(** A received message as [retrieve_new] hands it out. *)
Definition received (sender content timestamp : json) : Messenger.DirectMessage :=
  {| Messenger.recipient := sender; Messenger.message := content;
     Messenger.timestamp := timestamp |}.

(** The world of the joined messenger, with [scr] to come. *)
Definition joined_world (scr : list io_outcome) : world :=
  set_script scr (snd joined).

(** A script on which the join is answered and the connection is lost
    before the next answer is read, and the messenger after that join. *)
Definition join_then_lost : list io_outcome :=
  [IoOk EmptyString; IoOk EmptyString; IoOk EmptyString; IoOk join_ok_line;
   IoOk EmptyString; IoOk EmptyString; IoErr ConnectionError].

Definition rejoined : Messenger.mstate :=
  Eval vm_compute in
    snd (@Messenger.connect sample_runtime
           (sample_messenger, world_with join_then_lost)).

(** The turns of the samples: connect, choose bob, write, let the network
    worker run. *)
Definition sample_session : App.astate :=
  snd (@App._network_worker_step sample_runtime
    (snd (App._send_message "hello"
       (snd (App._on_contact_select "bob"
          (snd (@App.on_connect sample_runtime "127.0.0.1" "testuser" "testpass"
                  (App.init "127.0.0.1" 5 2%Q Database.init, friendly_world)))))))).

(** What the joined messenger and the world are after a send that the
    server acknowledges, and after the retrieval of the batch of two and of
    the garbled batch. *)
Definition sent_hi : outcome json * Messenger.mstate :=
  Eval vm_compute in
    @Messenger.send sample_runtime "hi" "bob"
      (fst joined,
       joined_world [IoOk EmptyString; IoOk EmptyString; IoOk send_ok_line]).

Definition inbox_poll : outcome (list Messenger.DirectMessage) * Messenger.mstate :=
  Eval vm_compute in
    @Messenger.retrieve_new inbox_runtime
      (fst joined,
       joined_world [IoOk EmptyString; IoOk EmptyString; IoOk inbox_line]).

Definition garbled_poll : outcome (list Messenger.DirectMessage) * Messenger.mstate :=
  Eval vm_compute in
    @Messenger.retrieve_new garbled_runtime
      (fst joined,
       joined_world [IoOk EmptyString; IoOk EmptyString; IoOk garbled_line]).

(** The retry of the first pending row of [sample_db]. *)
Definition hi_again : App.OutboundMessage :=
  App.retry_of (row 1 1 "bob" "hi" 10%Q 0).

(** * Properties *)

#[global] Instance keeps_preorder {S B} (p : S -> B) : PreOrder (keeps p).
Proof.
  split.
  - intros s. reflexivity.
  - intros s1 s2 s3 H12 H23. unfold keeps in *. congruence.
Qed.

#[global] Instance maintains_preorder {S} (P : S -> Prop) : PreOrder (maintains P).
Proof.
  split.
  - intros s Hs. exact Hs.
  - intros s1 s2 s3 H12 H23 Hs. apply H23, H12, Hs.
Qed.


(** ** The codec *)
Section ProtocolFacts.
Context `{Runtime}.

Lemma dispatch_pure_catch_all {A} (r : outcome A) (hs : list ((exn -> bool) * outcome A)) e :
  dispatch_pure (hs ++ [(is_Exception, r)]) e = r \/
  exists c h, In (c, h) hs /\ dispatch_pure (hs ++ [(is_Exception, r)]) e = h.
Proof.
  induction hs as [| [c h] hs IH]; simpl.
  - left. reflexivity.
  - destruct (c e).
    + right. exists c, h. split; [left; reflexivity | reflexivity].
    + destruct IH as [IH | (c' & h' & Hin & IH)].
      * left. exact IH.
      * right. exists c', h'. split; [right; exact Hin | exact IH].
Qed.

(** What [parse_response] returns is decided by the shape of the decoded
    document alone. *)
Lemma parse_response_raise line e :
  json_loads line = Raise e -> Protocol.parse_response line = Ret None.
Proof.
  intros Hl. unfold Protocol.parse_response, Protocol.parse_response_body.
  rewrite Hl. simpl. destruct e; reflexivity.
Qed.

Lemma parse_response_not_object line v :
  json_loads line = Ret v -> (forall o, v <> JObj o) ->
  Protocol.parse_response line = Ret None.
Proof.
  intros Hl Hv. unfold Protocol.parse_response, Protocol.parse_response_body.
  rewrite Hl. destruct v as [| b | q | s | l | o]; simpl; try reflexivity.
  - destruct (is_substring "response" s); reflexivity.
  - destruct (existsb _ l); reflexivity.
  - exfalso. apply (Hv o). reflexivity.
Qed.

Lemma parse_response_no_key line o :
  json_loads line = Ret (JObj o) -> o !! "response" = None ->
  Protocol.parse_response line = Ret None.
Proof.
  intros Hl Ho. unfold Protocol.parse_response, Protocol.parse_response_body.
  rewrite Hl. simpl. rewrite Ho. reflexivity.
Qed.

Lemma parse_response_not_dict line o v :
  json_loads line = Ret (JObj o) -> o !! "response" = Some v ->
  (forall ro, v <> JObj ro) ->
  Protocol.parse_response line = Ret None.
Proof.
  intros Hl Ho Hv. unfold Protocol.parse_response, Protocol.parse_response_body.
  rewrite Hl. simpl. rewrite Ho. simpl.
  destruct v; try reflexivity. exfalso. eapply Hv. reflexivity.
Qed.

Lemma parse_response_dict line o ro :
  json_loads line = Ret (JObj o) -> o !! "response" = Some (JObj ro) ->
  Protocol.parse_response line =
    Ret (Some {| Protocol.sr_type := default JNull (ro !! "type");
                 Protocol.sr_message := default (JStr EmptyString) (ro !! "message");
                 Protocol.sr_token := default (JStr EmptyString) (ro !! "token") |}).
Proof.
  intros Hl Ho. unfold Protocol.parse_response, Protocol.parse_response_body.
  rewrite Hl. simpl. rewrite Ho. reflexivity.
Qed.

Lemma parse_messages_raise line e :
  json_loads line = Raise e -> Protocol.parse_messages line = Ret None.
Proof.
  intros Hl. unfold Protocol.parse_messages, Protocol.parse_messages_body.
  rewrite Hl. simpl. destruct e; reflexivity.
Qed.

Lemma parse_messages_not_object line v :
  json_loads line = Ret v -> (forall o, v <> JObj o) ->
  Protocol.parse_messages line = Ret None.
Proof.
  intros Hl Hv. unfold Protocol.parse_messages, Protocol.parse_messages_body.
  rewrite Hl. destruct v as [| b | q | s | l | o]; simpl; try reflexivity.
  - destruct (is_substring "response" s); reflexivity.
  - destruct (existsb _ l); reflexivity.
  - exfalso. apply (Hv o). reflexivity.
Qed.

Lemma parse_messages_no_key line o :
  json_loads line = Ret (JObj o) -> o !! "response" = None ->
  Protocol.parse_messages line = Ret None.
Proof.
  intros Hl Ho. unfold Protocol.parse_messages, Protocol.parse_messages_body.
  rewrite Hl. simpl. rewrite Ho. reflexivity.
Qed.

Lemma parse_messages_not_dict line o v :
  json_loads line = Ret (JObj o) -> o !! "response" = Some v ->
  (forall ro, v <> JObj ro) ->
  Protocol.parse_messages line = Ret None.
Proof.
  intros Hl Ho Hv. unfold Protocol.parse_messages, Protocol.parse_messages_body.
  rewrite Hl. simpl. rewrite Ho. simpl.
  destruct v; try reflexivity. exfalso. eapply Hv. reflexivity.
Qed.

Lemma parse_messages_dict line o ro :
  json_loads line = Ret (JObj o) -> o !! "response" = Some (JObj ro) ->
  Protocol.parse_messages line =
    Ret (Some {| Protocol.mr_type := default JNull (ro !! "type");
                 Protocol.mr_messages := default (JArr []) (ro !! "messages") |}).
Proof.
  intros Hl Ho. unfold Protocol.parse_messages, Protocol.parse_messages_body.
  rewrite Hl. simpl. rewrite Ho. reflexivity.
Qed.

Lemma parse_response_total line :
  exists r, Protocol.parse_response line = Ret r.
Proof.
  unfold Protocol.parse_response, try_except_pure.
  destruct (Protocol.parse_response_body line) as [a | e]; [eauto |].
  destruct e; simpl; eauto.
Qed.

Lemma parse_messages_total line :
  exists r, Protocol.parse_messages line = Ret r.
Proof.
  unfold Protocol.parse_messages, try_except_pure.
  destruct (Protocol.parse_messages_body line) as [a | e]; [eauto |].
  destruct e; simpl; eauto.
Qed.

(** C3. For every line [parse_response] and [parse_messages] return and do
    not raise, and what they return is decided by the decoded document
    alone.  They return [None] when the line is not valid JSON (the decoder
    raises), when the document is no object, when it has no ['response']
    key, and when ['response'] is [null] or anything else that is no
    object (a string, a number, a list).  In the one case left, a
    ['response'] that is an object, each returns its record with the
    defaults for the keys that are absent: [None] for ['type'], the empty
    string for ['message'] and ['token'], and the empty list for
    ['messages']. *)
Theorem decode_returns_none_never_raises (line : string) :
  (exists r, Protocol.parse_response line = Ret r) /\
  (exists r, Protocol.parse_messages line = Ret r) /\
  (forall e, json_loads line = Raise e ->
     Protocol.parse_response line = Ret None /\
     Protocol.parse_messages line = Ret None) /\
  (forall v, json_loads line = Ret v -> (forall o, v <> JObj o) ->
     Protocol.parse_response line = Ret None /\
     Protocol.parse_messages line = Ret None) /\
  (forall o, json_loads line = Ret (JObj o) -> o !! "response" = None ->
     Protocol.parse_response line = Ret None /\
     Protocol.parse_messages line = Ret None) /\
  (forall o, json_loads line = Ret (JObj o) -> o !! "response" = Some JNull ->
     Protocol.parse_response line = Ret None /\
     Protocol.parse_messages line = Ret None) /\
  (forall o v, json_loads line = Ret (JObj o) -> o !! "response" = Some v ->
     (forall ro, v <> JObj ro) ->
     Protocol.parse_response line = Ret None /\
     Protocol.parse_messages line = Ret None) /\
  (forall o ro, json_loads line = Ret (JObj o) ->
     o !! "response" = Some (JObj ro) ->
     Protocol.parse_response line =
       Ret (Some {| Protocol.sr_type := default JNull (ro !! "type");
                    Protocol.sr_message :=
                      default (JStr EmptyString) (ro !! "message");
                    Protocol.sr_token :=
                      default (JStr EmptyString) (ro !! "token") |}) /\
     Protocol.parse_messages line =
       Ret (Some {| Protocol.mr_type := default JNull (ro !! "type");
                    Protocol.mr_messages :=
                      default (JArr []) (ro !! "messages") |})) /\
  (forall o ro, json_loads line = Ret (JObj o) ->
     o !! "response" = Some (JObj ro) -> ro !! "messages" = None ->
     Protocol.parse_messages line =
       Ret (Some {| Protocol.mr_type := default JNull (ro !! "type");
                    Protocol.mr_messages := JArr [] |})).
Proof.
  split; [apply parse_response_total |].
  split; [apply parse_messages_total |].
  split; [intros e He; split;
          [eapply parse_response_raise | eapply parse_messages_raise]; exact He |].
  split; [intros v Hl Hv; split;
          [eapply parse_response_not_object | eapply parse_messages_not_object];
          eassumption |].
  split; [intros o Hl Ho; split;
          [eapply parse_response_no_key | eapply parse_messages_no_key]; eassumption |].
  split.
  { intros o Hl Ho; split;
      [eapply parse_response_not_dict | eapply parse_messages_not_dict];
      try eassumption; intros ro; discriminate. }
  split.
  { intros o v Hl Ho Hv; split;
      [eapply parse_response_not_dict | eapply parse_messages_not_dict];
      eassumption. }
  split.
  { intros o ro Hl Ho. split;
      [apply (parse_response_dict line o ro Hl Ho)
      | apply (parse_messages_dict line o ro Hl Ho)]. }
  intros o ro Hl Ho Hm. rewrite (parse_messages_dict line o ro Hl Ho).
  rewrite Hm. reflexivity.
Qed.

End ProtocolFacts.

Lemma decode_returns_none_never_raises_witness :
  @Protocol.parse_response sample_runtime null_response_line = Ret None /\
  @Protocol.parse_messages sample_runtime null_response_line = Ret None /\
  @Protocol.parse_response sample_runtime no_response_line = Ret None /\
  @Protocol.parse_messages sample_runtime "not json" = Ret None /\
  @Protocol.parse_messages sample_runtime send_ok_line =
    Ret (Some {| Protocol.mr_type := JStr "ok"; Protocol.mr_messages := JArr [] |}) /\
  @Protocol.parse_response shapes_runtime list_line = Ret None /\
  @Protocol.parse_messages shapes_runtime text_response_line = Ret None /\
  @Protocol.parse_response sample_runtime join_ok_line =
    Ret (Some {| Protocol.sr_type := JStr "ok";
                 Protocol.sr_message := JStr EmptyString;
                 Protocol.sr_token := JStr "T1" |}).
Proof.
  pose proof (@decode_returns_none_never_raises sample_runtime null_response_line)
    as (_ & _ & _ & _ & _ & Hnull & _).
  pose proof (@decode_returns_none_never_raises sample_runtime no_response_line)
    as (_ & _ & _ & _ & Hnokey & _).
  pose proof (@decode_returns_none_never_raises sample_runtime "not json")
    as (_ & _ & Hbad & _).
  pose proof (@decode_returns_none_never_raises sample_runtime send_ok_line)
    as (_ & _ & _ & _ & _ & _ & _ & _ & Hdflt).
  pose proof (@decode_returns_none_never_raises shapes_runtime list_line)
    as (_ & _ & _ & Hlist & _).
  pose proof (@decode_returns_none_never_raises shapes_runtime text_response_line)
    as (_ & _ & _ & _ & _ & _ & Htext & _).
  pose proof (@decode_returns_none_never_raises sample_runtime join_ok_line)
    as (_ & _ & _ & _ & _ & _ & _ & Hdict & _).
  split; [| split; [| split; [| split; [| split; [| split; [| split]]]]]].
  - apply (Hnull {[ "response" := JNull ]}); reflexivity.
  - apply (Hnull {[ "response" := JNull ]}); reflexivity.
  - apply (Hnokey {[ "other_key" := JStr "value" ]}); reflexivity.
  - apply (Hbad JSONDecodeError); reflexivity.
  - exact (Hdflt {[ "response" := JObj {[ "type" := JStr "ok" ]} ]}
                 {[ "type" := JStr "ok" ]} eq_refl eq_refl eq_refl).
  - apply (Hlist (JArr [JNum 1; JNum 2])); [reflexivity | discriminate].
  - apply (Htext {[ "response" := JStr "ok" ]} (JStr "ok"));
      [reflexivity | reflexivity | discriminate].
  - exact (proj1 (Hdict {[ "response" :=
                      JObj (<["type" := JStr "ok"]> {[ "token" := JStr "T1" ]}) ]}
                 (<["type" := JStr "ok"]> {[ "token" := JStr "T1" ]})
                 eq_refl eq_refl)).
Defined.

(** ** Reasoning about statement sequences *)

Lemma bind_run {S A B} (m : Py S A) (f : A -> Py S B) (s : S) :
  (m ≫= f) s =
  match m s with
  | (Ret a, s') => f a s'
  | (Raise e, s') => (Raise e, s')
  end.
Proof. reflexivity. Qed.

Lemma try_except_run {S A} (body : Py S A) hs (s : S) :
  try_except body hs s =
  match body s with
  | (Ret a, s') => (Ret a, s')
  | (Raise e, s') => dispatch hs e s'
  end.
Proof. reflexivity. Qed.

Section Frame.
Context {S : Type} (R : relation S) `{!PreOrder R}.

Lemma preserves_ret {A} (a : A) : preserves R (mret a).
Proof. intros s. reflexivity. Qed.

Lemma preserves_raise {A} (e : exn) : preserves R (raise e : Py S A).
Proof. intros s. reflexivity. Qed.

Lemma preserves_pure_outcome {A} (o : outcome A) : preserves R (pure_outcome o).
Proof. intros s. reflexivity. Qed.

Lemma preserves_get_state : preserves R get_state.
Proof. intros s. reflexivity. Qed.

Lemma preserves_modify (f : S -> S) : (forall s, R s (f s)) -> preserves R (modify f).
Proof. intros Hf s. apply Hf. Qed.

Lemma preserves_bind {A B} (m : Py S A) (f : A -> Py S B) :
  preserves R m -> (forall a, preserves R (f a)) -> preserves R (m ≫= f).
Proof.
  intros Hm Hf s. rewrite bind_run.
  specialize (Hm s). destruct (m s) as [[a | e] s']; simpl in *.
  - etransitivity; [exact Hm | apply Hf].
  - exact Hm.
Qed.

Lemma preserves_dispatch {A} (hs : list ((exn -> bool) * Py S A)) e :
  Forall (fun h => preserves R (snd h)) hs -> preserves R (dispatch hs e).
Proof.
  induction 1 as [| [c h] hs Hh _ IH]; simpl.
  - apply preserves_raise.
  - destruct (c e); [exact Hh | exact IH].
Qed.

Lemma preserves_try_except {A} (body : Py S A) hs :
  preserves R body -> Forall (fun h => preserves R (snd h)) hs ->
  preserves R (try_except body hs).
Proof.
  intros Hb Hh s. rewrite try_except_run.
  specialize (Hb s). destruct (body s) as [[a | e] s']; simpl in *.
  - exact Hb.
  - etransitivity; [exact Hb | apply preserves_dispatch; exact Hh].
Qed.

End Frame.

Lemma returns_ret {S A} (a : A) : returns (mret a : Py S A).
Proof. intros s. exists a. reflexivity. Qed.

Lemma returns_modify {S} (f : S -> S) : returns (modify f).
Proof. intros s. exists tt. reflexivity. Qed.

Lemma returns_get_state {S} : returns (@get_state S).
Proof. intros s. exists s. reflexivity. Qed.

Lemma returns_bind {S A B} (m : Py S A) (f : A -> Py S B) :
  returns m -> (forall a, returns (f a)) -> returns (m ≫= f).
Proof.
  intros Hm Hf s. rewrite bind_run. destruct (Hm s) as [a Ha].
  destruct (m s) as [r s']. simpl in Ha. subst r. apply Hf.
Qed.

(** A [try] whose clauses all return and whose last clause is
    [except Exception] returns. *)
Lemma returns_dispatch {S A} (hs : list ((exn -> bool) * Py S A)) (h : Py S A) e :
  Forall (fun c => returns (snd c)) hs -> returns h ->
  returns (dispatch (hs ++ [(is_Exception, h)]) e).
Proof.
  intros Hhs Hh. induction Hhs as [| [c k] hs Hk _ IH]; simpl.
  - exact Hh.
  - destruct (c e); [exact Hk | exact IH].
Qed.

Lemma returns_try_except {S A} (body : Py S A) hs (h : Py S A) :
  Forall (fun c => returns (snd c)) hs -> returns h ->
  returns (try_except body (hs ++ [(is_Exception, h)])).
Proof.
  intros Hhs Hh s. rewrite try_except_run.
  destruct (body s) as [[a | e] s']; simpl.
  - exists a. reflexivity.
  - apply returns_dispatch; assumption.
Qed.

(** Stepping through a statement sequence. *)
Lemma wp_bind {S A B} (m : Py S A) (f : A -> Py S B) Q s :
  wp m (fun r s' => match r with
                    | Ret a => wp (f a) Q s'
                    | Raise e => Q (Raise e) s'
                    end) s ->
  wp (m ≫= f) Q s.
Proof.
  unfold wp. rewrite bind_run. destruct (m s) as [[a | e] s']; simpl; auto.
Qed.

Lemma wp_try_except {S A} (body : Py S A) hs Q s :
  wp body (fun r s' => match r with
                       | Ret a => Q (Ret a) s'
                       | Raise e => wp (dispatch hs e) Q s'
                       end) s ->
  wp (try_except body hs) Q s.
Proof.
  unfold wp. rewrite try_except_run. destruct (body s) as [[a | e] s']; simpl; auto.
Qed.

Lemma wp_ret {S A} (a : A) (Q : outcome A -> S -> Prop) s :
  Q (Ret a) s -> wp (mret a) Q s.
Proof. intros HQ. exact HQ. Qed.

Lemma wp_modify {S} (f : S -> S) (Q : outcome unit -> S -> Prop) s :
  Q (Ret tt) (f s) -> wp (modify f) Q s.
Proof. intros HQ. exact HQ. Qed.

Lemma wp_get_state {S} (Q : outcome S -> S -> Prop) s :
  Q (Ret s) s -> wp get_state Q s.
Proof. intros HQ. exact HQ. Qed.

Lemma wp_frame {S A} (R : relation S) (m : Py S A) (Q : outcome A -> S -> Prop) s :
  preserves R m -> (forall r s', R s s' -> Q r s') -> wp m Q s.
Proof. intros Hm HQ. apply HQ, Hm. Qed.

Lemma wp_returns_frame {S A} (R : relation S) (m : Py S A)
    (Q : outcome A -> S -> Prop) s :
  returns m -> preserves R m -> (forall a s', R s s' -> Q (Ret a) s') -> wp m Q s.
Proof.
  intros Hr Hm HQ. unfold wp. destruct (Hr s) as [a Ha]. rewrite Ha.
  apply HQ, Hm.
Qed.

(** Structural steps shared by the frame proofs below. *)
Ltac frame_step :=
  lazymatch goal with
  | |- preserves _ (mbind _ _) =>
      apply preserves_bind; [typeclasses eauto | | intros ?]
  | |- preserves _ (mret _) => apply preserves_ret; typeclasses eauto
  | |- preserves _ (raise _) => apply preserves_raise; typeclasses eauto
  | |- preserves _ (pure_outcome _) =>
      apply preserves_pure_outcome; typeclasses eauto
  | |- preserves _ get_state => apply preserves_get_state; typeclasses eauto
  | |- preserves _ (try_except _ _) =>
      apply preserves_try_except;
      [ typeclasses eauto
      |
      | repeat match goal with
               | |- Forall _ [] => constructor
               | |- Forall _ (_ :: _) => constructor; [simpl |]
               end ]
  | |- preserves _ (match ?x with _ => _ end) => destruct x
  | |- preserves _ (if ?b then _ else _) => destruct b
  end.

(** ** The socket layer *)
Section NetFacts.
Context {B : Type} (p : world -> B).

Lemma io_call_keeps :
  (forall x w, p (set_script x w) = p w) -> preserves (keeps p) Net.io_call.
Proof.
  intros Hp w. unfold keeps, Net.io_call.
  destruct (script w) as [| [l | e] rest]; simpl; [reflexivity | apply Hp | apply Hp].
Qed.

Lemma fresh_handle_keeps :
  (forall x w, p (set_live x w) = p w) ->
  (forall x w, p (set_next_handle x w) = p w) ->
  preserves (keeps p) Net.fresh_handle.
Proof.
  intros Hl Hn w. unfold keeps, Net.fresh_handle. simpl. rewrite Hn, Hl. reflexivity.
Qed.

Lemma time_time_keeps : preserves (keeps p) Net.time_time.
Proof. intros w. reflexivity. Qed.

Lemma time_sleep_keeps d :
  (forall x w, p (set_sleeps x w) = p w) -> preserves (keeps p) (Net.time_sleep d).
Proof. intros Hp w. unfold keeps, Net.time_sleep, modify. simpl. apply Hp. Qed.

Lemma stream_write_keeps h text :
  (forall x w, p (set_script x w) = p w) ->
  (forall x w, p (set_wire x w) = p w) ->
  preserves (keeps p) (Net.stream_write h text).
Proof.
  intros Hs Hw. unfold Net.stream_write.
  apply preserves_bind; [typeclasses eauto | apply preserves_get_state; typeclasses eauto |].
  intros w. destruct (Net.is_live h w).
  - apply preserves_bind; [typeclasses eauto | |].
    + apply preserves_modify. intros w'. apply Hw.
    + intros _. apply preserves_bind; [typeclasses eauto | apply io_call_keeps, Hs |].
      intros _. apply preserves_ret; typeclasses eauto.
  - apply preserves_raise; typeclasses eauto.
Qed.

Lemma stream_flush_keeps h :
  (forall x w, p (set_script x w) = p w) ->
  preserves (keeps p) (Net.stream_flush h).
Proof.
  intros Hs. unfold Net.stream_flush.
  apply preserves_bind; [typeclasses eauto | apply preserves_get_state; typeclasses eauto |].
  intros w. destruct (Net.is_live h w).
  - apply preserves_bind; [typeclasses eauto | apply io_call_keeps, Hs |].
    intros _. apply preserves_ret; typeclasses eauto.
  - apply preserves_raise; typeclasses eauto.
Qed.

Lemma stream_readline_keeps h :
  (forall x w, p (set_script x w) = p w) ->
  preserves (keeps p) (Net.stream_readline h).
Proof.
  intros Hs. unfold Net.stream_readline.
  apply preserves_bind; [typeclasses eauto | apply preserves_get_state; typeclasses eauto |].
  intros w. destruct (Net.is_live h w).
  - apply io_call_keeps, Hs.
  - apply preserves_raise; typeclasses eauto.
Qed.

Lemma handle_close_keeps h :
  (forall x w, p (set_script x w) = p w) ->
  (forall x w, p (set_live x w) = p w) ->
  preserves (keeps p) (Net.handle_close h).
Proof.
  intros Hs Hl. unfold Net.handle_close.
  apply preserves_bind; [typeclasses eauto | apply preserves_get_state; typeclasses eauto |].
  intros w. destruct (Net.is_live h w).
  - apply preserves_bind;
      [typeclasses eauto | apply preserves_modify; intros w'; apply Hl |].
    intros _. apply preserves_bind; [typeclasses eauto | apply io_call_keeps, Hs |].
    intros _. apply preserves_ret; typeclasses eauto.
  - apply preserves_ret; typeclasses eauto.
Qed.

End NetFacts.

(** ** The client *)
Section MessengerFrames.
Context `{Runtime}.

Lemma m_io_keeps_world {A B} (p : world -> B) (m : Py world A) :
  preserves (keeps p) m ->
  preserves (keeps (fun s : Messenger.mstate => p (snd s))) (Messenger.io m).
Proof.
  intros Hm [d w]. unfold keeps, Messenger.io. simpl.
  specialize (Hm w). destruct (m w) as [r w']. exact Hm.
Qed.

Lemma m_io_keeps_self {A B} (q : Messenger.DirectMessenger -> B) (m : Py world A) :
  preserves (keeps (fun s : Messenger.mstate => q (fst s))) (Messenger.io m).
Proof.
  intros [d w]. unfold keeps, Messenger.io. simpl.
  destruct (m w) as [r w']. reflexivity.
Qed.

Lemma m_set_self_keeps_world {B} (p : world -> B) f :
  preserves (keeps (fun s : Messenger.mstate => p (snd s))) (Messenger.set_self f).
Proof. intros [d w]. reflexivity. Qed.

Lemma m_set_self_keeps_self {B} (q : Messenger.DirectMessenger -> B) f :
  (forall d, q (f d) = q d) ->
  preserves (keeps (fun s : Messenger.mstate => q (fst s))) (Messenger.set_self f).
Proof. intros Hq [d w]. unfold keeps. simpl. apply Hq. Qed.

Lemma m_self_preserves (R : relation Messenger.mstate) `{!PreOrder R} :
  preserves R Messenger.self.
Proof. intros s. reflexivity. Qed.

Lemma attr_preserves {S A} (R : relation S) `{!PreOrder R} (o : option A) :
  preserves R (Messenger.attr o).
Proof. intros s. destruct o; reflexivity. Qed.

End MessengerFrames.

Ltac net_side := intros; first [reflexivity | assumption | solve [auto]].

Ltac net_frame :=
  first
    [ apply io_call_keeps; net_side
    | apply fresh_handle_keeps; net_side
    | apply time_time_keeps
    | apply time_sleep_keeps; net_side
    | apply stream_write_keeps; net_side
    | apply stream_flush_keeps; net_side
    | apply stream_readline_keeps; net_side
    | apply handle_close_keeps; net_side ].

Ltac m_frame :=
  repeat first
    [ frame_step
    | apply m_self_preserves; typeclasses eauto
    | apply attr_preserves; typeclasses eauto
    | apply m_io_keeps_self
    | apply m_set_self_keeps_world
    | apply m_set_self_keeps_self; net_side
    | apply m_io_keeps_world; net_frame ].

Section MessengerFacts.
Context `{Runtime}.

(** [close] leaves the object as it is: it closes handles in the world and
    assigns no attribute. *)
Lemma close_keeps_self : preserves (keeps fst) Messenger.close.
Proof.
  change (preserves (keeps (fun s : Messenger.mstate => id (fst s))) Messenger.close).
  unfold Messenger.close, Messenger.close_body. m_frame.
Qed.

Lemma close_keeps_world {B} (p : world -> B) :
  (forall x w, p (set_script x w) = p w) ->
  (forall x w, p (set_live x w) = p w) ->
  preserves (keeps (fun s : Messenger.mstate => p (snd s))) Messenger.close.
Proof.
  intros Hs Hl. unfold Messenger.close, Messenger.close_body.
  m_frame; apply m_io_keeps_world, handle_close_keeps; assumption.
Qed.

Lemma close_returns : returns Messenger.close.
Proof.
  unfold Messenger.close.
  apply (returns_try_except Messenger.close_body [] (mret tt));
    [constructor | apply returns_ret].
Qed.

End MessengerFacts.

Arguments wp : simpl never.

Lemma wp_dispatch_catch_all {S A} (hs : list ((exn -> bool) * Py S A)) (h : Py S A)
    (Q : outcome A -> S -> Prop) e s :
  Forall (fun c => wp (snd c) Q s) (hs ++ [(is_Exception, h)]) ->
  wp (dispatch (hs ++ [(is_Exception, h)]) e) Q s.
Proof.
  induction hs as [| [c k] hs IH]; simpl; intros Hall.
  - inversion Hall; subst. assumption.
  - inversion Hall; subst. destruct (c e); [assumption | apply IH; assumption].
Qed.

Lemma socket_connect_keeps {B} (p : world -> B) sock host port :
  (forall x w, p (set_script x w) = p w) ->
  (forall x w, p (set_connects x w) = p w) ->
  preserves (keeps p) (Net.socket_connect sock host port).
Proof.
  intros Hs Hc. unfold Net.socket_connect.
  apply preserves_bind; [typeclasses eauto | |].
  - apply preserves_modify. intros w. apply Hc.
  - intros _. apply preserves_bind; [typeclasses eauto | apply io_call_keeps, Hs |].
    intros _. apply preserves_ret; typeclasses eauto.
Qed.

Section ConnectFacts.
Context `{Runtime}.

(** [connect] never raises. *)
Lemma connect_returns : returns Messenger.connect.
Proof.
  unfold Messenger.connect.
  apply (returns_try_except Messenger.connect_body
           [ (is_ConnectionError, Messenger.close;; mret false);
             (is_OSError, Messenger.close;; mret false) ]
           (Messenger.close;; mret false)).
  - repeat constructor; simpl;
      (apply returns_bind; [apply close_returns | intros; apply returns_ret]).
  - apply returns_bind; [apply close_returns | intros; apply returns_ret].
Qed.

(** Neither the clock nor the sleeps are touched by [connect]. *)
Lemma connect_keeps_world {B} (p : world -> B) :
  (forall x w, p (set_script x w) = p w) ->
  (forall x w, p (set_live x w) = p w) ->
  (forall x w, p (set_next_handle x w) = p w) ->
  (forall x w, p (set_wire x w) = p w) ->
  (forall x w, p (set_connects x w) = p w) ->
  preserves (keeps (fun s : Messenger.mstate => p (snd s))) Messenger.connect.
Proof.
  intros Hs Hl Hn Hw Hc. unfold Messenger.connect, Messenger.connect_body.
  m_frame;
    first [ apply close_keeps_world; assumption
          | apply m_io_keeps_world;
            first [ apply fresh_handle_keeps; assumption
                  | apply socket_connect_keeps; assumption
                  | apply stream_write_keeps; assumption
                  | apply stream_flush_keeps; assumption
                  | apply stream_readline_keeps; assumption ] ].
Qed.

Lemma m_io_preserves {A} (Rw : relation world) (m : Py world A) :
  preserves Rw m ->
  preserves (fun s s' : Messenger.mstate => Rw (snd s) (snd s')) (Messenger.io m).
Proof.
  intros Hm [d w]. unfold Messenger.io. simpl.
  specialize (Hm w). destruct (m w) as [r w']. exact Hm.
Qed.

Lemma socket_connect_counts sock host port :
  preserves (fun w w' => connects w' = S (connects w))
            (Net.socket_connect sock host port).
Proof.
  intros w. unfold Net.socket_connect, Net.io_call, modify.
  repeat rewrite bind_run. simpl.
  destruct (script w) as [| [l | e] rest]; reflexivity.
Qed.

(** The rest of [connect] after [sock.connect] returned. *)
Ltac connect_tail_frame :=
  m_frame;
  first [ apply close_keeps_world; net_side
        | apply m_io_keeps_world;
          first [ apply fresh_handle_keeps; net_side
                | apply socket_connect_keeps; net_side
                | apply stream_write_keeps; net_side
                | apply stream_flush_keeps; net_side
                | apply stream_readline_keeps; net_side ] ].

(** [connect] calls [socket.connect] once, whatever comes of it. *)
Lemma connect_counts s :
  connects (snd (snd (Messenger.connect s))) = S (connects (snd s)).
Proof.
  destruct s as [d w].
  change (wp Messenger.connect
            (fun _ s' => connects (snd s') = S (connects w)) (d, w)).
  unfold Messenger.connect. apply wp_try_except. unfold Messenger.connect_body.
  apply wp_bind. unfold wp at 1. simpl.
  apply wp_bind. unfold wp at 1. simpl.
  apply wp_bind. unfold wp at 1. simpl.
  apply wp_bind. unfold wp at 1. simpl.
  apply wp_bind.
  apply (wp_frame (fun s s' : Messenger.mstate =>
                     connects (snd s') = S (connects (snd s)))).
  { apply (m_io_preserves (fun w w' => connects w' = S (connects w))).
    apply socket_connect_counts. }
  intros [[] | e] s' Hs'; simpl in Hs'.
  - apply (wp_frame (keeps (fun s : Messenger.mstate => connects (snd s)))).
    + connect_tail_frame.
    + intros [b | e] s'' Hk; unfold keeps in Hk.
      * congruence.
      * apply (wp_dispatch_catch_all
                 [ (is_ConnectionError, Messenger.close;; mret false);
                   (is_OSError, Messenger.close;; mret false) ]
                 (Messenger.close;; mret false)).
        repeat constructor; simpl;
          (apply (wp_frame (keeps (fun s : Messenger.mstate => connects (snd s))));
           [ connect_tail_frame | intros r t Ht; unfold keeps in Ht; congruence ]).
  - apply (wp_dispatch_catch_all
             [ (is_ConnectionError, Messenger.close;; mret false);
               (is_OSError, Messenger.close;; mret false) ]
             (Messenger.close;; mret false)).
    repeat constructor; simpl;
      (apply (wp_frame (keeps (fun s : Messenger.mstate => connects (snd s))));
       [ connect_tail_frame | intros r t Ht; unfold keeps in Ht; congruence ]).
Qed.


(** The three clauses of [connect] close and return [False]. *)
Lemma connect_handlers_wp (Q : outcome bool -> Messenger.mstate -> Prop) e s :
  wp (Messenger.close;; mret false) Q s ->
  wp (dispatch
        [ (is_ConnectionError, Messenger.close;; mret false);
          (is_OSError, Messenger.close;; mret false);
          (is_Exception, Messenger.close;; mret false) ] e) Q s.
Proof.
  intros Hh.
  apply (wp_dispatch_catch_all
           [ (is_ConnectionError, Messenger.close;; mret false);
             (is_OSError, Messenger.close;; mret false) ]
           (Messenger.close;; mret false)).
  repeat constructor; exact Hh.
Qed.





Lemma is_live_here h w : h ∈ live w -> Net.is_live h w = true.
Proof. intros Hh. unfold Net.is_live. apply bool_decide_eq_true_2, Hh. Qed.

Lemma is_live_gone h w : h ∉ live w -> Net.is_live h w = false.
Proof. intros Hh. unfold Net.is_live. apply bool_decide_eq_false_2, Hh. Qed.

(** Socket calls that meet success in the script. *)
Lemma run_socket_connect (d : Messenger.DirectMessenger) w sock host port l rest :
  script w = IoOk l :: rest ->
  Messenger.io (Net.socket_connect sock host port) (d, w) =
    (Ret tt, (d, set_script rest (set_connects (S (connects w)) w))).
Proof.
  intros Hs. unfold Messenger.io, Net.socket_connect, Net.io_call, modify.
  repeat (rewrite bind_run; simpl). rewrite Hs. reflexivity.
Qed.

Lemma run_stream_write (d : Messenger.DirectMessenger) w h text l rest :
  script w = IoOk l :: rest -> h ∈ live w ->
  Messenger.io (Net.stream_write h text) (d, w) =
    (Ret tt, (d, set_script rest (set_wire (wire w ++ [text]) w))).
Proof.
  intros Hs Hh. unfold Messenger.io, Net.stream_write, Net.io_call, modify, get_state.
  repeat (rewrite bind_run; simpl). rewrite (is_live_here h w Hh).
  repeat (rewrite bind_run; simpl). rewrite Hs. reflexivity.
Qed.

Lemma run_stream_flush (d : Messenger.DirectMessenger) w h l rest :
  script w = IoOk l :: rest -> h ∈ live w ->
  Messenger.io (Net.stream_flush h) (d, w) = (Ret tt, (d, set_script rest w)).
Proof.
  intros Hs Hh. unfold Messenger.io, Net.stream_flush, Net.io_call, get_state.
  repeat (rewrite bind_run; simpl). rewrite (is_live_here h w Hh).
  repeat (rewrite bind_run; simpl). rewrite Hs. reflexivity.
Qed.

Lemma run_stream_readline (d : Messenger.DirectMessenger) w h l rest :
  script w = IoOk l :: rest -> h ∈ live w ->
  Messenger.io (Net.stream_readline h) (d, w) = (Ret l, (d, set_script rest w)).
Proof.
  intros Hs Hh. unfold Messenger.io, Net.stream_readline, Net.io_call, get_state.
  repeat (rewrite bind_run; simpl). rewrite (is_live_here h w Hh).
  rewrite Hs. reflexivity.
Qed.

(** The same calls when the script has an exception for them. *)
Lemma run_socket_connect_err (d : Messenger.DirectMessenger) w sock host port e rest :
  script w = IoErr e :: rest ->
  Messenger.io (Net.socket_connect sock host port) (d, w) =
    (Raise e, (d, set_script rest (set_connects (S (connects w)) w))).
Proof.
  intros Hs. unfold Messenger.io, Net.socket_connect, Net.io_call, modify.
  repeat (rewrite bind_run; simpl). rewrite Hs. reflexivity.
Qed.

Lemma run_stream_write_err (d : Messenger.DirectMessenger) w h text e rest :
  script w = IoErr e :: rest -> h ∈ live w ->
  Messenger.io (Net.stream_write h text) (d, w) =
    (Raise e, (d, set_script rest (set_wire (wire w ++ [text]) w))).
Proof.
  intros Hs Hh. unfold Messenger.io, Net.stream_write, Net.io_call, modify, get_state.
  repeat (rewrite bind_run; simpl). rewrite (is_live_here h w Hh).
  repeat (rewrite bind_run; simpl). rewrite Hs. reflexivity.
Qed.

Lemma run_stream_flush_err (d : Messenger.DirectMessenger) w h e rest :
  script w = IoErr e :: rest -> h ∈ live w ->
  Messenger.io (Net.stream_flush h) (d, w) = (Raise e, (d, set_script rest w)).
Proof.
  intros Hs Hh. unfold Messenger.io, Net.stream_flush, Net.io_call, get_state.
  repeat (rewrite bind_run; simpl). rewrite (is_live_here h w Hh).
  repeat (rewrite bind_run; simpl). rewrite Hs. reflexivity.
Qed.

Lemma run_stream_readline_err (d : Messenger.DirectMessenger) w h e rest :
  script w = IoErr e :: rest -> h ∈ live w ->
  Messenger.io (Net.stream_readline h) (d, w) = (Raise e, (d, set_script rest w)).
Proof.
  intros Hs Hh. unfold Messenger.io, Net.stream_readline, Net.io_call, get_state.
  repeat (rewrite bind_run; simpl). rewrite (is_live_here h w Hh).
  rewrite Hs. reflexivity.
Qed.

(** The run of [connect] when every socket call succeeds and the reply to
    the join request is [line] but not an ['ok'] response: it returns
    [False] on the [return False] after the [if], where nothing is closed. *)
Lemma connect_rejected_run d w l0 l1 l2 line rest :
  script w = IoOk l0 :: IoOk l1 :: IoOk l2 :: IoOk line :: rest ->
  Messenger.str_truthy (Messenger.username d) = true ->
  Messenger.str_truthy (Messenger.password d) = true ->
  (forall r, Protocol.parse_response line = Ret (Some r) ->
             py_eq_str (Protocol.sr_type r) "ok" = false) ->
  let n := next_handle w in
  Messenger.connect (d, w) =
    (Ret false,
     (Messenger.set_recv_stream (Some (S (S n)))
        (Messenger.set_send_stream (Some (S n))
           (Messenger.set_socket (Some n) d)),
      {| script := rest;
         live := S (S n) :: S n :: n :: live w;
         next_handle := S (S (S n));
         wire := wire w ++
           [(Protocol.create_join (default EmptyString (Messenger.username d))
               (default EmptyString (Messenger.password d)) ++ CRLF)%string];
         connects := S (connects w);
         clock := clock w;
         sleeps := sleeps w |})).
Proof.
  intros Hscr Hu Hp Hline n.
  unfold Messenger.connect, Messenger.connect_body. rewrite try_except_run.
  repeat (rewrite bind_run; simpl).
  erewrite run_socket_connect by (simpl; exact Hscr).
  repeat (rewrite bind_run; simpl).
  rewrite Hu, Hp. simpl.
  repeat (rewrite bind_run; simpl).
  erewrite run_stream_write;
    [| simpl; reflexivity | simpl; set_solver].
  repeat (rewrite bind_run; simpl).
  erewrite run_stream_flush;
    [| simpl; reflexivity | simpl; set_solver].
  repeat (rewrite bind_run; simpl).
  erewrite run_stream_readline;
    [| simpl; reflexivity | simpl; set_solver].
  repeat (rewrite bind_run; simpl).
  destruct (parse_response_total line) as [[r |] Hr]; rewrite Hr; simpl.
  - rewrite (Hline r Hr). reflexivity.
  - reflexivity.
Qed.

(** Without credentials [connect] opens the socket and the streams and
    returns [False] with all of them open. *)
Lemma connect_no_credentials_run d w l0 rest :
  script w = IoOk l0 :: rest ->
  Messenger.str_truthy (Messenger.username d) &&
  Messenger.str_truthy (Messenger.password d) = false ->
  let n := next_handle w in
  Messenger.connect (d, w) =
    (Ret false,
     (Messenger.set_recv_stream (Some (S (S n)))
        (Messenger.set_send_stream (Some (S n))
           (Messenger.set_socket (Some n) d)),
      {| script := rest;
         live := S (S n) :: S n :: n :: live w;
         next_handle := S (S (S n));
         wire := wire w;
         connects := S (connects w);
         clock := clock w;
         sleeps := sleeps w |})).
Proof.
  intros Hscr Hc n.
  unfold Messenger.connect, Messenger.connect_body. rewrite try_except_run.
  repeat (rewrite bind_run; simpl).
  erewrite run_socket_connect by (simpl; exact Hscr).
  repeat (rewrite bind_run; simpl).
  rewrite Hc. reflexivity.
Qed.

(** Whatever is raised inside [connect] ends in [return False]. *)
Lemma connect_false_on_raise s e :
  fst (Messenger.connect_body s) = Raise e -> fst (Messenger.connect s) = Ret false.
Proof.
  intros Hb. unfold Messenger.connect. rewrite try_except_run.
  destruct (Messenger.connect_body s) as [r s']. simpl in Hb. subst r.
  assert (Hh : fst ((Messenger.close;; mret false) s') = Ret false).
  { rewrite bind_run. destruct (close_returns s') as [[] Hc].
    destruct (Messenger.close s') as [r t]. simpl in Hc. subst r. reflexivity. }
  simpl. destruct (is_ConnectionError e); [exact Hh |].
  destruct (is_OSError e); exact Hh.
Qed.

Lemma connect_refused_returns_false d w e rest :
  script w = IoErr e :: rest -> fst (Messenger.connect (d, w)) = Ret false.
Proof.
  intros Hscr. apply (connect_false_on_raise _ e).
  unfold Messenger.connect_body.
  repeat (rewrite bind_run; simpl).
  erewrite run_socket_connect_err by (simpl; exact Hscr). reflexivity.
Qed.

(** A refused connection on a new messenger: the [except] clause closes the
    socket, and the Transport is released. *)
Lemma connect_refused_releases d w e l rest :
  script w = IoErr e :: IoOk l :: rest ->
  Messenger.send_stream d = None -> Messenger.recv_stream d = None ->
  fst (Messenger.connect (d, w)) = Ret false /\
  Messenger.released (snd (Messenger.connect (d, w))).
Proof.
  intros Hscr Hout Hinp.
  split; [eapply connect_refused_returns_false; exact Hscr |].
  assert (Hrun : snd (Messenger.connect (d, w)) =
    (Messenger.set_socket (Some (next_handle w)) d,
     set_live (filter (fun x => x <> next_handle w) (next_handle w :: live w))
       (set_script rest
          (set_connects (S (connects w))
             (set_next_handle (S (next_handle w))
                (set_live (next_handle w :: live w) w)))))).
  { unfold Messenger.connect, Messenger.connect_body. rewrite try_except_run.
    repeat (rewrite bind_run; simpl).
    erewrite run_socket_connect_err by (simpl; exact Hscr). simpl.
    assert (Hclose : (Messenger.close;; mret false)
              (Messenger.set_socket (Some (next_handle w)) d,
               set_script (IoOk l :: rest)
                 (set_connects (S (connects w))
                    (set_next_handle (S (next_handle w))
                       (set_live (next_handle w :: live w) w)))) =
              (Ret false,
               (Messenger.set_socket (Some (next_handle w)) d,
                set_live (filter (fun x => x <> next_handle w)
                                 (next_handle w :: live w))
                  (set_script rest
                     (set_connects (S (connects w))
                        (set_next_handle (S (next_handle w))
                           (set_live (next_handle w :: live w) w))))))).
    { unfold Messenger.close, Messenger.close_body.
      rewrite bind_run, try_except_run.
      repeat (rewrite bind_run; simpl). rewrite Hout, Hinp. simpl.
      repeat (rewrite bind_run; simpl).
      unfold Messenger.io, Net.handle_close, Net.io_call, modify, get_state.
      repeat (rewrite bind_run; simpl).
      rewrite is_live_here by (simpl; set_solver).
      repeat (rewrite bind_run; simpl). reflexivity. }
    destruct (is_ConnectionError e); [rewrite Hclose; reflexivity |].
    destruct (is_OSError e); rewrite Hclose; reflexivity. }
  rewrite Hrun. unfold Messenger.released, Messenger.transport. simpl.
  rewrite Hout, Hinp. simpl. constructor; [| constructor].
  unfold Net.is_live. simpl. apply bool_decide_eq_false_2.
  intros Hin. apply list_elem_of_filter in Hin. destruct Hin as [Hne _].
  apply Hne. reflexivity.
Qed.

(** [connect] returns [True] only on an ['ok'] response, and then it holds
    the token of that response. *)
Lemma connect_true_has_token s :
  fst (Messenger.connect s) = Ret true ->
  exists line r,
    Protocol.parse_response line = Ret (Some r) /\
    py_eq_str (Protocol.sr_type r) "ok" = true /\
    Messenger.token (fst (snd (Messenger.connect s))) = Protocol.sr_token r.
Proof.
  destruct s as [d w].
  change (wp Messenger.connect
            (fun r s' => r = Ret true ->
               exists line r0,
                 Protocol.parse_response line = Ret (Some r0) /\
                 py_eq_str (Protocol.sr_type r0) "ok" = true /\
                 Messenger.token (fst s') = Protocol.sr_token r0) (d, w)).
  assert (Hh : forall e s',
            wp (dispatch
                  [ (is_ConnectionError, Messenger.close;; mret false);
                    (is_OSError, Messenger.close;; mret false);
                    (is_Exception, Messenger.close;; mret false) ] e)
               (fun r s' => r = Ret true ->
                  exists line r0,
                    Protocol.parse_response line = Ret (Some r0) /\
                    py_eq_str (Protocol.sr_type r0) "ok" = true /\
                    Messenger.token (fst s') = Protocol.sr_token r0) s').
  { intros e s'. apply connect_handlers_wp. unfold wp. rewrite bind_run.
    destruct (close_returns s') as [[] Hc].
    destruct (Messenger.close s') as [r t]. simpl in Hc. subst r. simpl.
    discriminate. }
  unfold Messenger.connect. apply wp_try_except. unfold Messenger.connect_body.
  repeat (apply wp_bind; unfold wp at 1; simpl).
  destruct (Messenger.io _ _) as [[[] | e] s1]; simpl; [| apply Hh].
  repeat (apply wp_bind; unfold wp at 1; simpl).
  destruct (_ && _); [| unfold wp; simpl; discriminate].
  repeat (apply wp_bind; unfold wp at 1; simpl).
  destruct (Messenger.io _ _) as [[[] | e] s3]; simpl; [| apply Hh].
  repeat (apply wp_bind; unfold wp at 1; simpl).
  destruct (Messenger.io _ _) as [[[] | e] s4]; simpl; [| apply Hh].
  repeat (apply wp_bind; unfold wp at 1; simpl).
  destruct (Messenger.io _ _) as [[line | e] s6]; simpl; [| apply Hh].
  repeat (apply wp_bind; unfold wp at 1; simpl).
  unfold pure_outcome. simpl.
  destruct (Protocol.parse_response line) as [[r |] | e] eqn:Hr; simpl;
    [| unfold wp; simpl; discriminate | apply Hh].
  destruct (py_eq_str (Protocol.sr_type r) "ok") eqn:Hok;
    [| unfold wp; simpl; discriminate].
  unfold wp. simpl. intros _. exists line, r. auto.
Qed.

(** C4 (the part the code misses). When the server answers the join request
    with a response that is not ['ok'] (or with a line that does not
    decode), [connect] returns [False] and the socket and both streams it
    opened are still open: the Transport is not released. *)
Theorem connect_rejected_keeps_transport_open d w l0 l1 l2 line rest :
  script w = IoOk l0 :: IoOk l1 :: IoOk l2 :: IoOk line :: rest ->
  Messenger.str_truthy (Messenger.username d) = true ->
  Messenger.str_truthy (Messenger.password d) = true ->
  (forall r, Protocol.parse_response line = Ret (Some r) ->
             py_eq_str (Protocol.sr_type r) "ok" = false) ->
  fst (Messenger.connect (d, w)) = Ret false /\
  Messenger.transport (fst (snd (Messenger.connect (d, w)))) =
    [next_handle w; S (next_handle w); S (S (next_handle w))] /\
  Forall (fun h => Net.is_live h (snd (snd (Messenger.connect (d, w)))) = true)
         (Messenger.transport (fst (snd (Messenger.connect (d, w))))) /\
  ~ Messenger.released (snd (Messenger.connect (d, w))).
Proof.
  intros Hscr Hu Hp Hline.
  rewrite (connect_rejected_run d w l0 l1 l2 line rest Hscr Hu Hp Hline). simpl.
  assert (Hlive : Forall (fun h => Net.is_live h
            {| script := rest;
               live := S (S (next_handle w)) :: S (next_handle w)
                         :: next_handle w :: live w;
               next_handle := S (S (S (next_handle w)));
               wire := (wire w ++
                 [(Protocol.create_join (default EmptyString (Messenger.username d))
                     (default EmptyString (Messenger.password d)) ++ CRLF)%string])%list;
               connects := S (connects w);
               clock := clock w;
               sleeps := sleeps w |} = true)
            [next_handle w; S (next_handle w); S (S (next_handle w))]).
  { repeat constructor; apply is_live_here; simpl; set_solver. }
  split; [reflexivity |]. split; [reflexivity |]. split; [exact Hlive |].
  unfold Messenger.released, Messenger.transport. simpl.
  intros Hrel. inversion Hrel as [| h t Hh _]; subst.
  inversion Hlive as [| h' t' Hh' _]; subst. congruence.
Qed.

End ConnectFacts.


Lemma connect_rejected_keeps_transport_open_witness :
  fst (@Messenger.connect sample_runtime
         (sample_messenger,
          world_with [IoOk EmptyString; IoOk EmptyString; IoOk EmptyString;
                      IoOk join_error_line])) = Ret false /\
  ~ Messenger.released
      (snd (@Messenger.connect sample_runtime
         (sample_messenger,
          world_with [IoOk EmptyString; IoOk EmptyString; IoOk EmptyString;
                      IoOk join_error_line]))).
Proof.
  pose proof (@connect_rejected_keeps_transport_open sample_runtime
                sample_messenger
                (world_with [IoOk EmptyString; IoOk EmptyString; IoOk EmptyString;
                             IoOk join_error_line])
                EmptyString EmptyString EmptyString join_error_line []
                eq_refl eq_refl eq_refl) as Hc.
  assert (Hline : forall r,
            @Protocol.parse_response sample_runtime join_error_line = Ret (Some r) ->
            py_eq_str (Protocol.sr_type r) "ok" = false).
  { intros r Hr. vm_compute in Hr. injection Hr as <-. reflexivity. }
  destruct (Hc Hline) as (Hfalse & _ & _ & Hopen).
  split; [exact Hfalse | exact Hopen].
Defined.

Section SendFacts.
Context `{Runtime}.

Lemma send_try_keeps_world {B} (p : world -> B) message recipient :
  (forall x w, p (set_script x w) = p w) ->
  (forall x w, p (set_wire x w) = p w) ->
  preserves (keeps (fun s : Messenger.mstate => p (snd s)))
            (Messenger.send_try message recipient).
Proof.
  intros Hs Hw. unfold Messenger.send_try, Messenger.send_body.
  m_frame;
    apply m_io_keeps_world;
    first [ apply time_time_keeps
          | apply stream_write_keeps; assumption
          | apply stream_flush_keeps; assumption
          | apply stream_readline_keeps; assumption ].
Qed.

Lemma send_try_keeps_self message recipient :
  preserves (keeps fst) (Messenger.send_try message recipient).
Proof.
  change (preserves (keeps (fun s : Messenger.mstate => id (fst s)))
                    (Messenger.send_try message recipient)).
  unfold Messenger.send_try, Messenger.send_body. m_frame.
Qed.


(** With a token [send] does not connect. *)
Lemma send_with_token_no_connect d w message recipient :
  truthy (Messenger.token d) = true ->
  Messenger.send message recipient (d, w) = Messenger.send_try message recipient (d, w).
Proof.
  intros Htok. unfold Messenger.send. rewrite bind_run. simpl. rewrite Htok.
  reflexivity.
Qed.

End SendFacts.



(** ** Retrieving messages *)
Section RetrieveFacts.
Context `{Runtime}.
Variable request : json -> string.
Variable convert : json -> outcome Messenger.DirectMessage.

Lemma retrieve_try_returns : returns (Messenger.retrieve_try request convert).
Proof.
  unfold Messenger.retrieve_try.
  apply (returns_try_except (Messenger.retrieve_body request convert)
           [ (is_ConnectionError, mret []); (is_OSError, mret []) ] (mret [])).
  - repeat constructor; apply returns_ret.
  - apply returns_ret.
Qed.

Lemma retrieve_returns : returns (Messenger.retrieve request convert).
Proof.
  intros [d w]. unfold Messenger.retrieve. rewrite bind_run. simpl.
  destruct (negb (truthy (Messenger.token d))).
  - rewrite bind_run. destruct (connect_returns (d, w)) as [b Hb].
    destruct (Messenger.connect (d, w)) as [r s']. simpl in Hb. subst r.
    destruct b; simpl.
    + apply retrieve_try_returns.
    + exists []. reflexivity.
  - apply retrieve_try_returns.
Qed.

(** A failed implicit [connect] ends the call with the empty list. *)
Lemma retrieve_connect_failed d w :
  truthy (Messenger.token d) = false ->
  fst (Messenger.connect (d, w)) = Ret false ->
  Messenger.retrieve request convert (d, w) = (Ret [], snd (Messenger.connect (d, w))).
Proof.
  intros Htok Hc. unfold Messenger.retrieve. rewrite bind_run. simpl.
  rewrite Htok. simpl. rewrite bind_run.
  destruct (Messenger.connect (d, w)) as [r s']. simpl in Hc. subst r. reflexivity.
Qed.

Lemma retrieve_with_token d w :
  truthy (Messenger.token d) = true ->
  Messenger.retrieve request convert (d, w) =
  Messenger.retrieve_try request convert (d, w).
Proof.
  intros Htok. unfold Messenger.retrieve. rewrite bind_run. simpl. rewrite Htok.
  reflexivity.
Qed.

(** Whatever is raised during the exchange ends in the empty list. *)
Lemma retrieve_try_raise s e :
  fst (Messenger.retrieve_body request convert s) = Raise e ->
  fst (Messenger.retrieve_try request convert s) = Ret [].
Proof.
  intros Hb. unfold Messenger.retrieve_try. rewrite try_except_run.
  destruct (Messenger.retrieve_body request convert s) as [r s'].
  simpl in Hb. subst r. simpl.
  destruct (is_ConnectionError e); [reflexivity |].
  destruct (is_OSError e); reflexivity.
Qed.


(** A transport error on the write ends in the empty list. *)
Lemma retrieve_try_write_error d w out e rest :
  Messenger.send_stream d = Some out -> out ∈ live w ->
  script w = IoErr e :: rest ->
  fst (Messenger.retrieve_try request convert (d, w)) = Ret [].
Proof.
  intros Hout Hlo Hscr. apply (retrieve_try_raise _ e).
  unfold Messenger.retrieve_body.
  repeat (rewrite bind_run; simpl). rewrite Hout. simpl. repeat (rewrite bind_run; simpl).
  erewrite run_stream_write_err by eassumption. reflexivity.
Qed.

(** A transport error on the read ends in the empty list. *)
Lemma retrieve_try_read_error d w out inp l0 l1 e rest :
  Messenger.send_stream d = Some out -> Messenger.recv_stream d = Some inp ->
  out ∈ live w -> inp ∈ live w ->
  script w = IoOk l0 :: IoOk l1 :: IoErr e :: rest ->
  fst (Messenger.retrieve_try request convert (d, w)) = Ret [].
Proof.
  intros Hout Hinp Hlo Hli Hscr. apply (retrieve_try_raise _ e).
  unfold Messenger.retrieve_body.
  repeat (rewrite bind_run; simpl). rewrite Hout. simpl. repeat (rewrite bind_run; simpl).
  erewrite run_stream_write by eassumption.
  repeat (rewrite bind_run; simpl).
  erewrite run_stream_flush; [| simpl; reflexivity | exact Hlo].
  repeat (rewrite bind_run; simpl). rewrite Hinp. simpl. repeat (rewrite bind_run; simpl).
  erewrite run_stream_readline_err; [| simpl; reflexivity | exact Hli].
  reflexivity.
Qed.

(** One I/O call on an open stream, whatever the script has for it: the
    call takes the next outcome, the handles stay as they are. *)
Lemma io_call_next w :
  exists w', Net.io_call w =
      (match fst (next_io (script w)) with IoOk l => Ret l | IoErr e => Raise e end, w') /\
    script w' = snd (next_io (script w)) /\ live w' = live w.
Proof.
  unfold Net.io_call. destruct (script w) as [| [l | e] rest] eqn:Hs; simpl.
  - exists w. rewrite Hs. repeat split.
  - exists (set_script rest w). repeat split.
  - exists (set_script rest w). repeat split.
Qed.

Lemma stream_write_next (d : Messenger.DirectMessenger) w h text :
  h ∈ live w ->
  exists w', Messenger.io (Net.stream_write h text) (d, w) =
      (match fst (next_io (script w)) with IoOk _ => Ret tt | IoErr e => Raise e end,
       (d, w')) /\
    script w' = snd (next_io (script w)) /\ live w' = live w.
Proof.
  intros Hh. unfold Messenger.io, Net.stream_write, modify, get_state.
  repeat (rewrite bind_run; simpl). rewrite (is_live_here h w Hh).
  repeat (rewrite bind_run; simpl).
  destruct (io_call_next (set_wire (wire w ++ [text]) w)) as (w' & Hrun & Hs & Hl).
  simpl in *. rewrite Hrun. exists w'.
  destruct (next_io (script w)) as [[l | e] rest]; simpl in *; repeat split; assumption.
Qed.

Lemma stream_flush_next (d : Messenger.DirectMessenger) w h :
  h ∈ live w ->
  exists w', Messenger.io (Net.stream_flush h) (d, w) =
      (match fst (next_io (script w)) with IoOk _ => Ret tt | IoErr e => Raise e end,
       (d, w')) /\
    script w' = snd (next_io (script w)) /\ live w' = live w.
Proof.
  intros Hh. unfold Messenger.io, Net.stream_flush, get_state.
  repeat (rewrite bind_run; simpl). rewrite (is_live_here h w Hh).
  repeat (rewrite bind_run; simpl).
  destruct (io_call_next w) as (w' & Hrun & Hs & Hl).
  rewrite Hrun. exists w'.
  destruct (next_io (script w)) as [[l | e] rest]; simpl in *; repeat split; assumption.
Qed.

Lemma stream_readline_next (d : Messenger.DirectMessenger) w h :
  h ∈ live w ->
  exists w', Messenger.io (Net.stream_readline h) (d, w) =
      (match fst (next_io (script w)) with IoOk l => Ret l | IoErr e => Raise e end,
       (d, w')) /\
    script w' = snd (next_io (script w)) /\ live w' = live w.
Proof.
  intros Hh. unfold Messenger.io, Net.stream_readline, get_state.
  repeat (rewrite bind_run; simpl). rewrite (is_live_here h w Hh).
  destruct (io_call_next w) as (w' & Hrun & Hs & Hl).
  rewrite Hrun. exists w'. repeat split; assumption.
Qed.

Lemma stream_flush_closed (d : Messenger.DirectMessenger) w h :
  h ∉ live w ->
  Messenger.io (Net.stream_flush h) (d, w) = (Raise ValueError, (d, w)).
Proof.
  intros Hh. unfold Messenger.io, Net.stream_flush, get_state.
  repeat (rewrite bind_run; simpl). rewrite (is_live_gone h w Hh). reflexivity.
Qed.

Lemma stream_write_closed (d : Messenger.DirectMessenger) w h text :
  h ∉ live w ->
  Messenger.io (Net.stream_write h text) (d, w) = (Raise ValueError, (d, w)).
Proof.
  intros Hh. unfold Messenger.io, Net.stream_write, get_state.
  repeat (rewrite bind_run; simpl). rewrite (is_live_gone h w Hh). reflexivity.
Qed.

Lemma stream_readline_closed (d : Messenger.DirectMessenger) w h :
  h ∉ live w ->
  Messenger.io (Net.stream_readline h) (d, w) = (Raise ValueError, (d, w)).
Proof.
  intros Hh. unfold Messenger.io, Net.stream_readline, get_state.
  repeat (rewrite bind_run; simpl). rewrite (is_live_gone h w Hh). reflexivity.
Qed.

Ltac exchange_steps :=
  unfold Messenger.retrieve_try, Messenger.retrieve_body;
  rewrite ?try_except_run;
  repeat first
    [ rewrite bind_run
    | progress simpl
    | match goal with
      | H : Messenger.io _ _ = _ |- _ => rewrite H
      | H : Messenger.send_stream _ = _ |- _ => rewrite H
      | H : Messenger.recv_stream _ = _ |- _ => rewrite H
      end ].

(** The result of the exchange, whatever the state: the batch of the
    answer's line when there is one, the empty list otherwise. *)
Lemma retrieve_try_reply d w :
  fst (Messenger.retrieve_try request convert (d, w)) =
    Ret match reply_line (d, w) with
        | Some line =>
            match Protocol.parse_messages line with
            | Ret (Some r) =>
                if py_eq_str (Protocol.mr_type r) "ok" then
                  match Messenger.py_iter (Protocol.mr_messages r) with
                  | Ret items =>
                      match Messenger.for_each convert items with
                      | Ret l => l
                      | Raise _ => []
                      end
                  | Raise _ => []
                  end
                else []
            | _ => []
            end
        | None => []
        end.
Proof.
  unfold reply_line. simpl.
  destruct (Messenger.send_stream d) as [out |] eqn:Hout.
  2: { apply (retrieve_try_raise _ AttributeError). unfold Messenger.retrieve_body.
       repeat (rewrite bind_run; simpl). rewrite Hout. reflexivity. }
  destruct (decide (out ∈ live w)) as [Hlo | Hlo].
  2: { rewrite (is_live_gone out w Hlo). simpl.
       replace (match Messenger.recv_stream d with Some _ | _ => None end)
         with (@None string) by (destruct (Messenger.recv_stream d); reflexivity).
       apply (retrieve_try_raise _ ValueError). unfold Messenger.retrieve_body.
       repeat (rewrite bind_run; simpl). rewrite Hout. simpl.
       repeat (rewrite bind_run; simpl).
       rewrite stream_write_closed by exact Hlo. reflexivity. }
  rewrite (is_live_here out w Hlo). simpl.
  destruct (stream_write_next d w out
              (request (Messenger.token d) ++ CRLF)%string Hlo) as (w1 & Hw & Hs1 & Hl1).
  destruct (next_io (script w)) as [[l0 | e0] r0]; simpl in Hw, Hs1 |- *.
  2: { replace (match Messenger.recv_stream d with
                | Some inp => if Net.is_live inp w then None else None
                | None => None
                end) with (@None string)
         by (destruct (Messenger.recv_stream d) as [inp |];
             [destruct (Net.is_live inp w) |]; reflexivity).
       apply (retrieve_try_raise _ e0). exchange_steps. reflexivity. }
  assert (Hlo1 : out ∈ live w1) by (rewrite Hl1; exact Hlo).
  destruct (stream_flush_next d w1 out Hlo1) as (w2 & Hf & Hs2 & Hl2).
  rewrite Hs1 in Hf, Hs2.
  destruct (next_io r0) as [[l1 | e1] r1]; simpl in Hf, Hs2 |- *.
  2: { replace (match Messenger.recv_stream d with
                | Some inp => if Net.is_live inp w then None else None
                | None => None
                end) with (@None string)
         by (destruct (Messenger.recv_stream d) as [inp |];
             [destruct (Net.is_live inp w) |]; reflexivity).
       apply (retrieve_try_raise _ e1). exchange_steps. reflexivity. }
  destruct (Messenger.recv_stream d) as [inp |] eqn:Hinp.
  2: { apply (retrieve_try_raise _ AttributeError). exchange_steps. reflexivity. }
  destruct (decide (inp ∈ live w)) as [Hli | Hli].
  2: { rewrite (is_live_gone inp w Hli).
       assert (Hli2 : inp ∉ live w2) by (rewrite Hl2, Hl1; exact Hli).
       pose proof (stream_readline_closed d w2 inp Hli2) as Hr.
       apply (retrieve_try_raise _ ValueError). exchange_steps. reflexivity. }
  rewrite (is_live_here inp w Hli).
  assert (Hli2 : inp ∈ live w2) by (rewrite Hl2, Hl1; exact Hli).
  destruct (stream_readline_next d w2 inp Hli2) as (w3 & Hr & Hs3 & Hl3).
  rewrite Hs2 in Hr.
  destruct (next_io r1) as [[line | e2] r2]; simpl in Hr |- *.
  2: { apply (retrieve_try_raise _ e2). exchange_steps. reflexivity. }
  exchange_steps. unfold pure_outcome.
  destruct (Protocol.parse_messages line) as [[r |] | e]; simpl; try reflexivity.
  - destruct (py_eq_str (Protocol.mr_type r) "ok"); simpl; [| reflexivity].
    repeat (rewrite bind_run; simpl).
    destruct (Messenger.py_iter (Protocol.mr_messages r)) as [items | e]; simpl.
    + destruct (Messenger.for_each convert items) as [l | e]; simpl; [reflexivity |].
      destruct (is_ConnectionError e); [reflexivity |].
      destruct (is_OSError e); reflexivity.
    + destruct (is_ConnectionError e); [reflexivity |].
      destruct (is_OSError e); reflexivity.
  - destruct (is_ConnectionError e); [reflexivity |].
    destruct (is_OSError e); reflexivity.
Qed.

End RetrieveFacts.

Section LoopFacts.
Context `{Runtime}.


(** A record that is not an object makes the loop raise: there is no
    partial result. *)
Lemma for_each_not_object (convert : json -> outcome Messenger.DirectMessage)
    (items : list json) :
  (forall v, (forall o, v <> JObj o) -> exists e, convert v = Raise e) ->
  Exists (fun v => forall o, v <> JObj o) items ->
  exists e, Messenger.for_each convert items = Raise e.
Proof.
  intros Hc Hex. induction Hex as [v items Hv | v items _ IH]; simpl.
  - destruct (Hc v Hv) as [e He]. rewrite He. exists e. reflexivity.
  - destruct (convert v) as [y | e]; simpl; [| exists e; reflexivity].
    destruct IH as [e He]. rewrite He. exists e. reflexivity.
Qed.


Lemma new_message_not_object v :
  (forall o, v <> JObj o) -> exists e, Messenger.new_message v = Raise e.
Proof.
  intros Hv. destruct v; try (exists AttributeError; reflexivity).
  exfalso. eapply Hv. reflexivity.
Qed.


Lemma all_message_not_object v :
  (forall o, v <> JObj o) -> exists e, Messenger.all_message v = Raise e.
Proof.
  intros Hv. destruct v; try (exists AttributeError; reflexivity).
  exfalso. eapply Hv. reflexivity.
Qed.

(** The records of a batch of objects, and of a batch with another item. *)
Lemma records_objects objs : records (JObj <$> objs) = Some objs.
Proof.
  induction objs as [| o objs IH]; [reflexivity |].
  rewrite fmap_cons. simpl. rewrite IH. reflexivity.
Qed.

Lemma records_not_object items :
  Exists (fun v => forall o, v <> JObj o) items -> records items = None.
Proof.
  intros Hex. induction Hex as [v items Hv | v items _ IH]; simpl.
  - destruct v; try reflexivity. exfalso. eapply Hv. reflexivity.
  - destruct v; try reflexivity. rewrite IH. reflexivity.
Qed.

(** The loop of [retrieve_new] on a list: one message per record, and an
    [AttributeError] when an item is no record. *)
Lemma for_each_new_message items :
  Messenger.for_each Messenger.new_message items =
    match records items with
    | Some objs => Ret (message_of_record <$> objs)
    | None => Raise AttributeError
    end.
Proof.
  induction items as [| v items IH]; [reflexivity |].
  destruct v; try reflexivity.
  simpl. rewrite IH. destruct (records items) as [objs |]; reflexivity.
Qed.

(** What the loop of [retrieve_new] makes of the value under ['messages']. *)
Lemma new_message_batch v :
  match Messenger.py_iter v with
  | Ret items =>
      match Messenger.for_each Messenger.new_message items with
      | Ret l => l
      | Raise _ => []
      end
  | Raise _ => []
  end =
  match v with
  | JArr items =>
      match records items with
      | Some objs => message_of_record <$> objs
      | None => []
      end
  | _ => []
  end.
Proof.
  destruct v as [| b | n | s | items | o]; simpl; try reflexivity.
  - destruct s; reflexivity.
  - rewrite for_each_new_message. destruct (records items); reflexivity.
  - destruct (map_to_list o) as [| [k x] l]; reflexivity.
Qed.

End LoopFacts.

Section RetrieveTheorems.
Context `{Runtime}.

(** The batch the code builds from a line is the decoded batch of the
    specification. *)
Lemma new_message_decoded line :
  match Protocol.parse_messages line with
  | Ret (Some r) =>
      if py_eq_str (Protocol.mr_type r) "ok" then
        match Messenger.py_iter (Protocol.mr_messages r) with
        | Ret items =>
            match Messenger.for_each Messenger.new_message items with
            | Ret l => l
            | Raise _ => []
            end
        | Raise _ => []
        end
      else []
  | _ => []
  end =
  match decoded_batch line with
  | Some objs => message_of_record <$> objs
  | None => []
  end.
Proof.
  unfold decoded_batch.
  destruct (Protocol.parse_messages line) as [[r |] | e]; try reflexivity.
  destruct (py_eq_str (Protocol.mr_type r) "ok"); [| reflexivity].
  rewrite new_message_batch. destruct (Protocol.mr_messages r); reflexivity.
Qed.

(** [retrieve_new] returns, in every state, what it is specified to return. *)
Lemma retrieve_new_as_specified s :
  fst (Messenger.retrieve_new s) = Ret (retrieve_new_spec s).
Proof.
  destruct s as [d w]. unfold retrieve_new_spec, exchange_state. simpl.
  unfold Messenger.retrieve_new.
  destruct (truthy (Messenger.token d)) eqn:Htok.
  - rewrite retrieve_with_token by exact Htok. rewrite retrieve_try_reply.
    destruct (reply_line (d, w)) as [line |]; [| reflexivity].
    rewrite new_message_decoded. reflexivity.
  - unfold Messenger.retrieve. rewrite bind_run. simpl. rewrite Htok. simpl.
    rewrite bind_run. destruct (connect_returns (d, w)) as [b Hb].
    destruct (Messenger.connect (d, w)) as [r [d1 w1]]. simpl in Hb. subst r.
    destruct b; simpl; [| reflexivity].
    rewrite retrieve_try_reply.
    destruct (reply_line (d1, w1)) as [line |]; [| reflexivity].
    rewrite new_message_decoded. reflexivity.
Qed.

(** When there is no line of an answer. *)
Lemma reply_line_no_stream d w :
  Messenger.send_stream d = None \/ Messenger.recv_stream d = None ->
  reply_line (d, w) = None.
Proof.
  unfold reply_line. simpl. intros [Hn | Hn]; rewrite Hn; [reflexivity |].
  destruct (Messenger.send_stream d); reflexivity.
Qed.

Lemma reply_line_closed d w h :
  Messenger.send_stream d = Some h \/ Messenger.recv_stream d = Some h ->
  h ∉ live w -> reply_line (d, w) = None.
Proof.
  unfold reply_line. simpl. intros [Hs | Hs] Hh; rewrite Hs.
  - destruct (Messenger.recv_stream d); [| reflexivity].
    rewrite (is_live_gone h w Hh). reflexivity.
  - destruct (Messenger.send_stream d) as [out |]; [| reflexivity].
    rewrite (is_live_gone h w Hh), andb_false_r. reflexivity.
Qed.

Lemma reply_line_error d w (pre : list string) e rest :
  (length pre <= 2)%nat ->
  script w = ((IoOk <$> pre) ++ IoErr e :: rest)%list ->
  reply_line (d, w) = None.
Proof.
  unfold reply_line. simpl. intros Hlen Hscr. rewrite Hscr.
  destruct (Messenger.send_stream d) as [out |]; [| reflexivity].
  destruct (Messenger.recv_stream d) as [inp |]; [| reflexivity].
  destruct (Net.is_live out w && Net.is_live inp w); [| reflexivity].
  destruct pre as [| l0 [| l1 [| l2 pre]]]; try reflexivity.
  simpl in Hlen. lia.
Qed.

Lemma reply_line_read d w out inp l0 l1 line rest :
  Messenger.send_stream d = Some out -> Messenger.recv_stream d = Some inp ->
  out ∈ live w -> inp ∈ live w ->
  script w = IoOk l0 :: IoOk l1 :: IoOk line :: rest ->
  reply_line (d, w) = Some line.
Proof.
  unfold reply_line. simpl. intros Hout Hinp Hlo Hli Hscr.
  rewrite Hout, Hinp, Hscr, (is_live_here out w Hlo), (is_live_here inp w Hli).
  reflexivity.
Qed.

(** C8. In every state [retrieve_new] returns what the specification
    words: one message per record of the decoded batch when the exchange is
    answered and the answer decodes to a batch of records, the empty list
    otherwise; it never raises.  A message is therefore returned only from
    the decoded batch of an answered exchange.  The exchange takes place
    in the state of the call when the object holds a token and in the state
    a successful implicit [connect] leaves when it holds none.  The result
    is the empty list when the implicit [connect] fails; when a stream is
    missing or closed; when the write, the flush or the read meets a
    transport error; when the line of the answer does not decode; when the
    response is not of type ['ok']; when its messages are no list; and when
    one item of the list is not an object (no partial list).  When the
    batch decodes to records, the result has one message per record, in
    order. *)
Theorem retrieve_new_empty_on_failure d w :
  fst (Messenger.retrieve_new (d, w)) = Ret (retrieve_new_spec (d, w)) /\
  (forall l, fst (Messenger.retrieve_new (d, w)) = Ret l -> l <> [] ->
     exists s1 line objs,
       exchange_state (d, w) = Some s1 /\ reply_line s1 = Some line /\
       decoded_batch line = Some objs /\
       l = message_of_record <$> objs /\ length l = length objs) /\
  (truthy (Messenger.token d) = false ->
   fst (Messenger.connect (d, w)) = Ret false ->
   fst (Messenger.retrieve_new (d, w)) = Ret []) /\
  (truthy (Messenger.token d) = true -> exchange_state (d, w) = Some (d, w)) /\
  (forall s1, truthy (Messenger.token d) = false ->
     Messenger.connect (d, w) = (Ret true, s1) -> exchange_state (d, w) = Some s1) /\
  (forall d1 w1, exchange_state (d, w) = Some (d1, w1) ->
     (Messenger.send_stream d1 = None \/ Messenger.recv_stream d1 = None ->
      fst (Messenger.retrieve_new (d, w)) = Ret []) /\
     (forall h, Messenger.send_stream d1 = Some h \/ Messenger.recv_stream d1 = Some h ->
        h ∉ live w1 -> fst (Messenger.retrieve_new (d, w)) = Ret []) /\
     (forall e rest, script w1 = IoErr e :: rest ->
        fst (Messenger.retrieve_new (d, w)) = Ret []) /\
     (forall l0 e rest, script w1 = IoOk l0 :: IoErr e :: rest ->
        fst (Messenger.retrieve_new (d, w)) = Ret []) /\
     (forall l0 l1 e rest, script w1 = IoOk l0 :: IoOk l1 :: IoErr e :: rest ->
        fst (Messenger.retrieve_new (d, w)) = Ret []) /\
     (forall out inp l0 l1 line rest,
        Messenger.send_stream d1 = Some out -> Messenger.recv_stream d1 = Some inp ->
        out ∈ live w1 -> inp ∈ live w1 ->
        script w1 = IoOk l0 :: IoOk l1 :: IoOk line :: rest ->
        reply_line (d1, w1) = Some line) /\
     (forall line, reply_line (d1, w1) = Some line ->
        (Protocol.parse_messages line = Ret None ->
         fst (Messenger.retrieve_new (d, w)) = Ret []) /\
        (forall r, Protocol.parse_messages line = Ret (Some r) ->
           py_eq_str (Protocol.mr_type r) "ok" = false ->
           fst (Messenger.retrieve_new (d, w)) = Ret []) /\
        (forall r, Protocol.parse_messages line = Ret (Some r) ->
           py_eq_str (Protocol.mr_type r) "ok" = true ->
           (forall items, Protocol.mr_messages r <> JArr items) ->
           fst (Messenger.retrieve_new (d, w)) = Ret []) /\
        (forall r items, Protocol.parse_messages line = Ret (Some r) ->
           py_eq_str (Protocol.mr_type r) "ok" = true ->
           Protocol.mr_messages r = JArr items ->
           Exists (fun v => forall o, v <> JObj o) items ->
           fst (Messenger.retrieve_new (d, w)) = Ret []) /\
        (forall r objs, Protocol.parse_messages line = Ret (Some r) ->
           py_eq_str (Protocol.mr_type r) "ok" = true ->
           Protocol.mr_messages r = JArr (JObj <$> objs) ->
           fst (Messenger.retrieve_new (d, w)) =
             Ret ((fun o => {| Messenger.recipient := default JNull (o !! "from");
                               Messenger.message := default JNull (o !! "message");
                               Messenger.timestamp :=
                                 default JNull (o !! "timestamp") |}) <$> objs) /\
           forall l, fst (Messenger.retrieve_new (d, w)) = Ret l ->
                     length l = length objs))).
Proof.
  pose proof (retrieve_new_as_specified (d, w)) as Hspec.
  split; [exact Hspec |]. split.
  { intros l Hl Hne. rewrite Hspec in Hl. injection Hl as Hl.
    unfold retrieve_new_spec in Hl.
    destruct (exchange_state (d, w)) as [s1 |]; [| congruence].
    destruct (reply_line s1) as [line |] eqn:Hline; [| congruence].
    destruct (decoded_batch line) as [objs |] eqn:Hb; [| congruence].
    exists s1, line, objs. repeat split; try congruence.
    rewrite <- Hl. apply length_fmap. }
  split.
  { intros Htok Hc. unfold Messenger.retrieve_new.
    rewrite retrieve_connect_failed by assumption. reflexivity. }
  split.
  { intros Htok. unfold exchange_state. simpl. rewrite Htok. reflexivity. }
  split.
  { intros s1 Htok Hc. unfold exchange_state. simpl. rewrite Htok, Hc. reflexivity. }
  intros d1 w1 Hx. rewrite Hspec. unfold retrieve_new_spec. rewrite Hx.
  split; [| split; [| split; [| split; [| split; [| split]]]]].
  - intros Hn. rewrite (reply_line_no_stream d1 w1 Hn). reflexivity.
  - intros h Hs Hh. rewrite (reply_line_closed d1 w1 h Hs Hh). reflexivity.
  - intros e rest Hscr.
    rewrite (reply_line_error d1 w1 [] e rest); [reflexivity | simpl; lia | exact Hscr].
  - intros l0 e rest Hscr.
    rewrite (reply_line_error d1 w1 [l0] e rest); [reflexivity | simpl; lia | exact Hscr].
  - intros l0 l1 e rest Hscr.
    rewrite (reply_line_error d1 w1 [l0; l1] e rest);
      [reflexivity | simpl; lia | exact Hscr].
  - intros out inp l0 l1 line rest. apply reply_line_read.
  - intros line Hline. rewrite Hline. unfold decoded_batch.
    split; [| split; [| split; [| split]]].
    + intros Hp. rewrite Hp. reflexivity.
    + intros r Hp Hty. rewrite Hp, Hty. reflexivity.
    + intros r Hp Hty Hm. rewrite Hp, Hty.
      destruct (Protocol.mr_messages r) as [| | | | items |]; try reflexivity.
      exfalso. eapply Hm. reflexivity.
    + intros r items Hp Hty Hm Hex. rewrite Hp, Hty, Hm.
      rewrite (records_not_object items Hex). reflexivity.
    + intros r objs Hp Hty Hm. rewrite Hp, Hty, Hm, records_objects.
      split; [reflexivity |].
      intros l Hl. injection Hl as <-. apply length_fmap.
Qed.


End RetrieveTheorems.



Lemma retrieve_new_empty_on_failure_witness :
  fst (@Messenger.retrieve_new sample_runtime
         (sample_messenger, world_with [IoErr ConnectionError])) = Ret [] /\
  fst (@Messenger.retrieve_new sample_runtime
         (sample_messenger, world_with join_then_lost)) = Ret [] /\
  fst (@Messenger.retrieve_new sample_runtime closed) = Ret [] /\
  fst (@Messenger.retrieve_new sample_runtime (joined_with join_error_line)) = Ret [] /\
  fst (@Messenger.retrieve_new sample_runtime (joined_with "not json")) = Ret [] /\
  fst (@Messenger.retrieve_new inbox_runtime
         (fst joined,
          joined_world [IoOk EmptyString; IoOk EmptyString; IoOk inbox_line])) =
    Ret [ received (JStr "alice") (JStr "one") (JStr "1");
          received (JStr "bob") (JStr "two") (JStr "2") ].
Proof.
  split; [| split; [| split; [| split; [| split]]]].
  - destruct (@retrieve_new_empty_on_failure sample_runtime sample_messenger
                (world_with [IoErr ConnectionError])) as (_ & _ & Hc & _).
    apply Hc; reflexivity.
  - destruct (@retrieve_new_empty_on_failure sample_runtime sample_messenger
                (world_with join_then_lost)) as (_ & _ & _ & _ & Hx & Hcases).
    assert (Hc : @Messenger.connect sample_runtime
                   (sample_messenger, world_with join_then_lost) =
                 (Ret true, rejoined)) by (vm_compute; reflexivity).
    destruct (Hcases (fst rejoined) (snd rejoined) (Hx rejoined eq_refl Hc))
      as (_ & _ & _ & _ & Hread & _).
    exact (Hread EmptyString EmptyString ConnectionError [] eq_refl).
  - destruct (@retrieve_new_empty_on_failure sample_runtime (fst closed) (snd closed))
      as (_ & _ & _ & Hx & _ & Hcases).
    destruct (Hcases (fst closed) (snd closed) (Hx eq_refl)) as (_ & Hgone & _).
    apply (Hgone 1%nat); [left; reflexivity |].
    intros Hin. vm_compute in Hin. inversion Hin.
  - destruct (@retrieve_new_empty_on_failure sample_runtime
                (fst (joined_with join_error_line))
                (snd (joined_with join_error_line))) as (_ & _ & _ & Hx & _ & Hcases).
    destruct (Hcases _ _ (Hx eq_refl)) as (_ & _ & _ & _ & _ & Hline & Hdec).
    assert (H1 : (1%nat : nat) ∈ live (snd (joined_with join_error_line)))
      by (vm_compute; repeat constructor).
    assert (H2 : (2%nat : nat) ∈ live (snd (joined_with join_error_line)))
      by (vm_compute; repeat constructor).
    destruct (Hdec join_error_line
                (Hline 1%nat 2%nat EmptyString EmptyString join_error_line []
                   eq_refl eq_refl H1 H2 eq_refl)) as (_ & Herr & _).
    apply (Herr {| Protocol.mr_type := JStr "error";
                   Protocol.mr_messages := JArr [] |}); reflexivity.
  - destruct (@retrieve_new_empty_on_failure sample_runtime
                (fst (joined_with "not json"))
                (snd (joined_with "not json"))) as (_ & _ & _ & Hx & _ & Hcases).
    destruct (Hcases _ _ (Hx eq_refl)) as (_ & _ & _ & _ & _ & Hline & Hdec).
    assert (H1 : (1%nat : nat) ∈ live (snd (joined_with "not json")))
      by (vm_compute; repeat constructor).
    assert (H2 : (2%nat : nat) ∈ live (snd (joined_with "not json")))
      by (vm_compute; repeat constructor).
    destruct (Hdec "not json"
                (Hline 1%nat 2%nat EmptyString EmptyString "not json" []
                   eq_refl eq_refl H1 H2 eq_refl)) as (Hnone & _).
    apply Hnone. reflexivity.
  - destruct (@retrieve_new_empty_on_failure inbox_runtime (fst joined)
                (joined_world [IoOk EmptyString; IoOk EmptyString; IoOk inbox_line]))
      as (Hspec & _).
    rewrite Hspec. vm_compute. reflexivity.
Defined.

(** ** The coordinator: frames *)
Section AppFrames.
Context `{Runtime}.

Lemma a_self_preserves (R : relation App.astate) `{!PreOrder R} :
  preserves R App.self.
Proof. intros s. reflexivity. Qed.

(** The part [q] of the application object. *)
Lemma a_set_self_keeps_app {B} (q : App.MessengerApp -> B) f :
  (forall a, q (f a) = q a) ->
  preserves (keeps (fun s : App.astate => q (fst s))) (App.set_self f).
Proof. intros Hq [a w]. unfold keeps. simpl. apply Hq. Qed.

Lemma a_io_keeps_app {A B} (q : App.MessengerApp -> B) (m : Py world A) :
  preserves (keeps (fun s : App.astate => q (fst s))) (App.io m).
Proof.
  intros [a w]. unfold keeps, App.io. simpl. destruct (m w). reflexivity.
Qed.

Lemma a_on_db_keeps_app {A B} (q : App.MessengerApp -> B)
    (m : Py Database.MessageDatabase A) :
  (forall x a, q (App.set_db x a) = q a) ->
  preserves (keeps (fun s : App.astate => q (fst s))) (App.on_db m).
Proof.
  intros Hq [a w]. unfold keeps, App.on_db. simpl.
  destruct (m (App.db a)). simpl. apply Hq.
Qed.

Lemma a_on_messenger_keeps_app {A B} (q : App.MessengerApp -> B)
    (m : Py Messenger.mstate A) :
  (forall x a, q (App.set_messenger x a) = q a) ->
  preserves (keeps (fun s : App.astate => q (fst s))) (App.on_messenger m).
Proof.
  intros Hq [a w]. unfold keeps, App.on_messenger. simpl.
  destruct (App.messenger a) as [d |]; [| reflexivity].
  destruct (m (d, w)) as [r [d' w']]. simpl. apply Hq.
Qed.

(** The part [p] of the world. *)
Lemma a_set_self_keeps_world {B} (p : world -> B) f :
  preserves (keeps (fun s : App.astate => p (snd s))) (App.set_self f).
Proof. intros [a w]. reflexivity. Qed.


Lemma a_on_db_keeps_world {A B} (p : world -> B)
    (m : Py Database.MessageDatabase A) :
  preserves (keeps (fun s : App.astate => p (snd s))) (App.on_db m).
Proof.
  intros [a w]. unfold keeps, App.on_db. simpl.
  destruct (m (App.db a)). reflexivity.
Qed.

Lemma a_on_messenger_keeps_world {A B} (p : world -> B)
    (m : Py Messenger.mstate A) :
  preserves (keeps (fun s : Messenger.mstate => p (snd s))) m ->
  preserves (keeps (fun s : App.astate => p (snd s))) (App.on_messenger m).
Proof.
  intros Hm [a w]. unfold keeps, App.on_messenger. simpl.
  destruct (App.messenger a) as [d |]; [| reflexivity].
  specialize (Hm (d, w)). destruct (m (d, w)) as [r [d' w']]. exact Hm.
Qed.

(** A property [P] of the database. *)
Lemma a_set_self_maintains_db (P : Database.MessageDatabase -> Prop) f :
  (forall a, App.db (f a) = App.db a) ->
  preserves (maintains (fun s : App.astate => P (App.db (fst s)))) (App.set_self f).
Proof. intros Hf [a w] HP. simpl in *. rewrite Hf. exact HP. Qed.

Lemma a_io_maintains_db {A} (P : Database.MessageDatabase -> Prop) (m : Py world A) :
  preserves (maintains (fun s : App.astate => P (App.db (fst s)))) (App.io m).
Proof.
  intros [a w] HP. unfold App.io. simpl in *. destruct (m w). exact HP.
Qed.

Lemma a_on_db_maintains_db {A} (P : Database.MessageDatabase -> Prop)
    (m : Py Database.MessageDatabase A) :
  preserves (maintains P) m ->
  preserves (maintains (fun s : App.astate => P (App.db (fst s)))) (App.on_db m).
Proof.
  intros Hm [a w] HP. unfold App.on_db. simpl in *.
  specialize (Hm (App.db a) HP). destruct (m (App.db a)). exact Hm.
Qed.

Lemma a_on_messenger_maintains_db {A} (P : Database.MessageDatabase -> Prop)
    (m : Py Messenger.mstate A) :
  preserves (maintains (fun s : App.astate => P (App.db (fst s)))) (App.on_messenger m).
Proof.
  intros [a w] HP. unfold App.on_messenger. simpl in *.
  destruct (App.messenger a) as [d |]; [| exact HP].
  destruct (m (d, w)) as [r [d' w']]. exact HP.
Qed.

Lemma for_loop_preserves {S A} (R : relation S) `{!PreOrder R}
    (body : A -> Py S unit) (l : list A) :
  (forall x, preserves R (body x)) -> preserves R (App.for_loop body l).
Proof.
  intros Hb. induction l as [| x l IH]; simpl.
  - apply preserves_ret. typeclasses eauto.
  - apply preserves_bind; [typeclasses eauto | apply Hb | intros _; exact IH].
Qed.

End AppFrames.

Ltac a_frame_with tac :=
  repeat first
    [ frame_step
    | apply a_self_preserves; typeclasses eauto
    | apply attr_preserves; typeclasses eauto
    | apply for_loop_preserves; [typeclasses eauto | intros ?]
    | progress unfold App._update_connection_state
    | apply a_set_self_keeps_world
    | apply a_on_db_keeps_world
    | apply a_io_keeps_app
    | apply a_io_maintains_db
    | apply a_on_messenger_maintains_db
    | apply a_set_self_keeps_app; net_side
    | apply a_on_db_keeps_app; net_side
    | apply a_on_messenger_keeps_app; net_side
    | apply a_set_self_maintains_db; net_side
    | tac ].

Ltac a_frame := a_frame_with fail.

(** ** The coordinator: connecting and reconnecting *)
Section ConnectionFacts.
Context `{Runtime}.

Lemma _connect_keeps_app {B} (q : App.MessengerApp -> B) :
  (forall x a, q (App.set_messenger x a) = q a) ->
  (forall x u a, q (App.set_connection_state x u a) = q a) ->
  (forall x a, q (App.set_retry_count x a) = q a) ->
  preserves (keeps (fun s : App.astate => q (fst s))) App._connect.
Proof.
  intros Hm Hc Hr. unfold App._connect. a_frame.
Qed.

Lemma _connect_keeps_world {B} (p : world -> B) :
  (forall x w, p (set_script x w) = p w) ->
  (forall x w, p (set_live x w) = p w) ->
  (forall x w, p (set_next_handle x w) = p w) ->
  (forall x w, p (set_wire x w) = p w) ->
  (forall x w, p (set_connects x w) = p w) ->
  preserves (keeps (fun s : App.astate => p (snd s))) App._connect.
Proof.
  intros Hs Hl Hn Hw Hc. unfold App._connect.
  a_frame_with ltac:(apply a_on_messenger_keeps_world, connect_keeps_world; assumption).
Qed.

(** [_connect] returns [True] in state CONNECTED with the retry counter at
    0, or [False] in state DISCONNECTED with the counter as it was. *)
Lemma _connect_outcome s :
  (fst (App._connect s) = Ret true /\
   App.connection_state (fst (snd (App._connect s))) = App.CONNECTED /\
   App.retry_count (fst (snd (App._connect s))) = 0%N) \/
  (fst (App._connect s) = Ret false /\
   App.connection_state (fst (snd (App._connect s))) = App.DISCONNECTED /\
   App.retry_count (fst (snd (App._connect s))) = App.retry_count (fst s)).
Proof.
  destruct s as [a w]. unfold App._connect. rewrite try_except_run.
  repeat (rewrite bind_run; simpl). unfold App.on_messenger. simpl.
  destruct (Messenger.connect _) as [[[] | e] [d' w']]; simpl.
  - left. repeat split.
  - right. repeat split.
  - right. repeat split.
Qed.

Lemma _connect_returns : returns App._connect.
Proof.
  intros s. destruct (_connect_outcome s) as [(Hr & _) | (Hr & _)]; eauto.
Qed.

Lemma get_pending_messages_run uid db :
  Database.get_pending_messages uid db =
    (Ret (merge_sort Database.by_timestamp
            (List.filter (Database.pending_selected uid)
                         (Database.pending_messages db))), db).
Proof. reflexivity. Qed.

(** [_flush_pending_messages] appends the selected rows, oldest first, as
    retries, and changes nothing else. *)
Lemma _flush_pending_messages_run a w :
  App._flush_pending_messages (a, w) =
    (Ret tt,
     (App.set_outgoing_queue
        (App.outgoing_queue a ++
         (App.retry_of <$>
            merge_sort Database.by_timestamp
              (List.filter (Database.pending_selected (App.user_id a))
                           (Database.pending_messages (App.db a)))))
        (App.set_db (App.db a) a), w)).
Proof. reflexivity. Qed.

(** [_try_reconnect] below the retry cap. *)
Lemma _try_reconnect_run a w :
  Z.of_N (App.retry_count a) < App.max_retries a ->
  App._try_reconnect (a, w) =
    match App._connect
            (App.set_retry_count (App.retry_count a + 1)%N
               (App.set_connection_state App.RECONNECTING
                  (App.status_updates a ++ [App.RECONNECTING]) a),
             set_sleeps
               (sleeps w ++ [inject_Z (App.backoff (App.backoff_time a)
                                                   (App.retry_count a))]) w) with
    | (Ret true, s') => App._flush_pending_messages s'
    | (Ret false, s') => (Ret tt, s')
    | (Raise e, s') => (Raise e, s')
    end.
Proof.
  intros Hlt. unfold App._try_reconnect. rewrite bind_run. simpl.
  destruct (Z.leb_spec (App.max_retries a) (Z.of_N (App.retry_count a))) as [Hle | _];
    [lia |].
  repeat (rewrite bind_run; simpl).
  destruct (App._connect _) as [[[] | e] s']; reflexivity.
Qed.

(** [_try_reconnect] at the retry cap. *)
Lemma _try_reconnect_offline a w :
  App.max_retries a <= Z.of_N (App.retry_count a) ->
  App._try_reconnect (a, w) =
    (Ret tt,
     (App.set_connection_state App.OFFLINE
        (App.status_updates a ++ [App.OFFLINE]) a, w)).
Proof.
  intros Hle. unfold App._try_reconnect. rewrite bind_run. simpl.
  destruct (Z.leb_spec (App.max_retries a) (Z.of_N (App.retry_count a))) as [_ | Hlt];
    [reflexivity | lia].
Qed.

End ConnectionFacts.

Section FlushFacts.
Context `{Runtime}.

Lemma pending_selected_spec uid r :
  Database.pending_selected uid r = true <->
  uid = Some (Database.user_id r) /\ Database.attempts r < 3.
Proof.
  unfold Database.pending_selected. destruct uid as [u |].
  - rewrite andb_true_iff, Z.eqb_eq, Z.ltb_lt. split.
    + intros [Hu Ha]. split; [congruence | exact Ha].
    + intros [Hu Ha]. split; [congruence | exact Ha].
  - split; [discriminate | intros [Hu _]; discriminate].
Qed.

(** What [get_pending_messages] selects. *)
Lemma flushed_rows_spec uid db r :
  In r (merge_sort Database.by_timestamp
          (List.filter (Database.pending_selected uid)
                       (Database.pending_messages db))) <->
  In r (Database.pending_messages db) /\
  uid = Some (Database.user_id r) /\ Database.attempts r < 3.
Proof.
  rewrite <- !list_elem_of_In.
  rewrite (merge_sort_Permutation Database.by_timestamp).
  rewrite !list_elem_of_In, filter_In, pending_selected_spec. reflexivity.
Qed.

(** C1. When [_try_reconnect] ends in state CONNECTED (its [connect]
    succeeded), the outgoing queue has grown by exactly the rows of
    [pending_messages] of the active user with [attempts < 3], each once,
    each as a retry that carries the row's id, recipient, content and
    timestamp; no row with [attempts >= 3] is among them, and the table is
    as it was. *)
Theorem flush_on_reconnect a w :
  App.connection_state (fst (snd (App._try_reconnect (a, w)))) = App.CONNECTED ->
  exists flushed,
    App.outgoing_queue (fst (snd (App._try_reconnect (a, w)))) =
      (App.outgoing_queue a ++ (App.retry_of <$> flushed))%list /\
    flushed ≡ₚ List.filter (Database.pending_selected (App.user_id a))
                           (Database.pending_messages (App.db a)) /\
    (forall r, In r flushed <->
       In r (Database.pending_messages (App.db a)) /\
       App.user_id a = Some (Database.user_id r) /\ Database.attempts r < 3) /\
    (forall m, In m (App.retry_of <$> flushed) ->
       App.is_retry m = true /\
       exists r, In r (Database.pending_messages (App.db a)) /\
         Database.attempts r < 3 /\
         App.pending_id m = Some (Database.pending_id r) /\
         App.recipient m = Database.recipient r /\
         App.content m = Database.content r /\
         App.timestamp m = Database.timestamp r) /\
    Database.pending_messages
      (App.db (fst (snd (App._try_reconnect (a, w))))) =
    Database.pending_messages (App.db a).
Proof.
  intros Hconn.
  destruct (Z.lt_ge_cases (Z.of_N (App.retry_count a)) (App.max_retries a)) as [Hlt | Hge].
  2:{ rewrite _try_reconnect_offline in Hconn by lia. discriminate. }
  rewrite (_try_reconnect_run a w Hlt) in Hconn |- *.
  set (s1 := (App.set_retry_count _ _, set_sleeps _ w)) in *.
  pose proof (_connect_keeps_app
                (fun a => (App.db a, App.user_id a, App.outgoing_queue a))
                ltac:(reflexivity) ltac:(reflexivity) ltac:(reflexivity) s1) as Hk.
  unfold keeps in Hk. simpl in Hk.
  destruct (_connect_outcome s1) as [(Hr & _) | (Hr & Hst & _)].
  - destruct (App._connect s1) as [r [a' w']]. simpl in Hr, Hk. subst r.
    injection Hk as Hdb Huid Hq.
    rewrite _flush_pending_messages_run. simpl. rewrite Hdb, Huid, Hq.
    exists (merge_sort Database.by_timestamp
              (List.filter (Database.pending_selected (App.user_id a))
                           (Database.pending_messages (App.db a)))).
    split; [reflexivity |].
    split; [apply merge_sort_Permutation |].
    split; [intros r; apply flushed_rows_spec |].
    split; [| reflexivity].
    intros m Hm. apply list_elem_of_In, list_elem_of_fmap in Hm.
    destruct Hm as (r & -> & Hr). apply list_elem_of_In, flushed_rows_spec in Hr.
    destruct Hr as (Hin & _ & Hatt).
    split; [reflexivity |]. exists r. repeat split; assumption.
  - destruct (App._connect s1) as [r [a' w']]. simpl in Hr, Hst. subst r.
    simpl in Hconn. congruence.
Qed.

End FlushFacts.

Section OfflineFacts.
Context `{Runtime}.

Lemma is_connected_false st : st <> App.CONNECTED -> App.is_connected st = false.
Proof. destruct st; [congruence | reflexivity ..]. Qed.

(** C2. When the send worker takes an original (not a retry) message from
    the queue while the state is not CONNECTED, one row is added to
    [pending_messages] for it (with the message's recipient, content and
    timestamp and [attempts] 0), nothing else in the database changes, and
    the world is untouched: no socket call, nothing written, so
    [DirectMessenger.send] was not invoked. *)
Theorem offline_message_is_queued a w msg rest uid :
  App.outgoing_queue a = msg :: rest ->
  App.connection_state a <> App.CONNECTED ->
  App.is_retry msg = false ->
  App.user_id a = Some uid ->
  let s' := snd (App._network_worker_step (a, w)) in
  fst (App._network_worker_step (a, w)) = Ret tt /\
  Database.pending_messages (App.db (fst s')) =
    (Database.pending_messages (App.db a) ++
      [ {| Database.pending_id := Database.next_pending_id (App.db a);
           Database.user_id := uid;
           Database.recipient := App.recipient msg;
           Database.content := App.content msg;
           Database.timestamp := App.timestamp msg;
           Database.attempts := 0 |} ])%list /\
  length (Database.pending_messages (App.db (fst s'))) =
    S (length (Database.pending_messages (App.db a))) /\
  Database.messages (App.db (fst s')) = Database.messages (App.db a) /\
  snd s' = w /\
  wire (snd s') = wire w /\
  connects (snd s') = connects w /\
  App.messenger (fst s') = App.messenger a /\
  App.outgoing_queue (fst s') = rest.
Proof.
  intros Hq Hst Hretry Huid s'.
  assert (Hrun : App._network_worker_step (a, w) =
    (Ret tt,
     (App.set_db
        (Database.set_next_pending_id (Database.next_pending_id (App.db a) + 1)
           (Database.set_pending
              (Database.pending_messages (App.db a) ++
                [ {| Database.pending_id := Database.next_pending_id (App.db a);
                     Database.user_id := uid;
                     Database.recipient := App.recipient msg;
                     Database.content := App.content msg;
                     Database.timestamp := App.timestamp msg;
                     Database.attempts := 0 |} ]) (App.db a)))
        (App.set_outgoing_queue rest a), w))).
  { unfold App._network_worker_step, App._network_worker_body.
    rewrite try_except_run. rewrite bind_run. simpl. rewrite Hq.
    repeat (rewrite bind_run; simpl).
    rewrite (is_connected_false _ Hst), Hretry. simpl.
    repeat (rewrite bind_run; simpl). unfold App.on_db. simpl. rewrite Huid.
    reflexivity. }
  subst s'. rewrite Hrun. simpl. repeat split.
  rewrite length_app. simpl. lia.
Qed.



End OfflineFacts.

(** ** The pending table *)
Section DatabaseFacts.
Context `{Runtime}.

Lemma get_connection_preserves {A} (R : relation Database.MessageDatabase)
    `{!PreOrder R} (body : Py Database.MessageDatabase A) :
  preserves R body -> preserves R (Database.get_connection body).
Proof.
  intros Hb db. unfold Database.get_connection.
  specialize (Hb db). destruct (body db) as [[a | e] db']; simpl in *.
  - exact Hb.
  - reflexivity.
Qed.

Lemma attempts_untouched_init : attempts_untouched Database.init.
Proof. constructor. Qed.

Lemma add_pending_message_untouched uid recipient content timestamp :
  preserves (maintains attempts_untouched)
            (Database.add_pending_message uid recipient content timestamp).
Proof.
  unfold Database.add_pending_message.
  apply get_connection_preserves; [typeclasses eauto |].
  repeat frame_step.
  apply preserves_modify. intros db Hdb. unfold attempts_untouched in *. simpl.
  apply Forall_app. split; [exact Hdb |]. repeat constructor.
Qed.

Lemma insert_or_ignore_contact_keeps {B} (p : Database.MessageDatabase -> B)
    uid friend db :
  (forall x db, p (Database.set_contacts x db) = p db) ->
  p (Database.insert_or_ignore_contact uid friend db) = p db.
Proof.
  intros Hp. unfold Database.insert_or_ignore_contact.
  destruct uid as [u |]; [| reflexivity].
  destruct friend; try reflexivity;
    destruct (existsb _ _); first [reflexivity | apply Hp].
Qed.

Lemma add_contact_on_keeps {B} (p : Database.MessageDatabase -> B)
    locked uid friend :
  (forall x db, p (Database.set_contacts x db) = p db) ->
  preserves (keeps p) (Database.add_contact_on locked uid friend).
Proof.
  intros Hp. unfold Database.add_contact_on.
  apply get_connection_preserves; [typeclasses eauto |].
  repeat frame_step.
  apply preserves_modify. intros db. unfold keeps.
  apply insert_or_ignore_contact_keeps, Hp.
Qed.

Lemma add_contact_keeps_pending uid friend :
  preserves (keeps Database.pending_messages) (Database.add_contact uid friend).
Proof. apply add_contact_on_keeps. reflexivity. Qed.

Lemma add_message_keeps_pending uid sender recipient content timestamp :
  preserves (keeps Database.pending_messages)
            (Database.add_message uid sender recipient content timestamp).
Proof.
  unfold Database.add_message.
  apply get_connection_preserves; [typeclasses eauto |].
  repeat frame_step;
    first [ apply preserves_modify; intros db; reflexivity
          | apply add_contact_on_keeps; reflexivity ].
Qed.

Lemma get_or_create_user_keeps_pending username :
  preserves (keeps Database.pending_messages) (Database.get_or_create_user username).
Proof.
  unfold Database.get_or_create_user.
  apply get_connection_preserves; [typeclasses eauto |].
  intros db. unfold keeps. destruct (List.find _ _); reflexivity.
Qed.

Lemma get_pending_messages_keeps uid :
  preserves (keeps id) (Database.get_pending_messages uid).
Proof. intros db. reflexivity. Qed.

Lemma mark_pending_sent_untouched pid :
  preserves (maintains attempts_untouched) (Database.mark_pending_sent pid).
Proof.
  unfold Database.mark_pending_sent.
  apply get_connection_preserves; [typeclasses eauto |].
  apply preserves_modify. intros db Hdb. unfold attempts_untouched in *. simpl.
  apply Forall_forall. intros r Hr. apply list_elem_of_In, filter_In in Hr.
  rewrite Forall_forall in Hdb. apply Hdb, list_elem_of_In, Hr.
Qed.

(** Keeping the table keeps the property. *)
Lemma keeps_pending_untouched {A} (m : Py Database.MessageDatabase A) :
  preserves (keeps Database.pending_messages) m ->
  preserves (maintains attempts_untouched) m.
Proof.
  intros Hm db Hdb. specialize (Hm db). unfold keeps, attempts_untouched in *.
  rewrite Hm. exact Hdb.
Qed.

(** [increment_pending_attempts] is what would change the column. *)
Lemma increment_pending_attempts_changes r db :
  Database.pending_messages db = [r] ->
  Database.pending_messages
    (snd (Database.increment_pending_attempts (Database.pending_id r) db)) =
  [ {| Database.pending_id := Database.pending_id r;
       Database.user_id := Database.user_id r;
       Database.recipient := Database.recipient r;
       Database.content := Database.content r;
       Database.timestamp := Database.timestamp r;
       Database.attempts := Database.attempts r + 1 |} ].
Proof.
  intros Hdb. unfold Database.increment_pending_attempts, Database.get_connection,
    modify. simpl. rewrite Hdb. simpl. rewrite Z.eqb_refl. reflexivity.
Qed.

End DatabaseFacts.

Ltac db_untouched :=
  first
    [ apply add_pending_message_untouched
    | apply mark_pending_sent_untouched
    | apply keeps_pending_untouched;
      first [ apply add_message_keeps_pending
            | apply add_contact_keeps_pending
            | apply get_or_create_user_keeps_pending ]
    | apply keeps_pending_untouched; intros db; reflexivity ].

(** ** The invariant of the running program *)
Section Invariant.
Context `{Runtime}.


Ltac inv_frame tac :=
  unfold untouched_rel;
  a_frame_with ltac:(first [ apply a_on_db_maintains_db; db_untouched | tac ]).

Lemma _connect_untouched : preserves untouched_rel App._connect.
Proof. unfold App._connect. inv_frame fail. Qed.

Lemma _flush_untouched : preserves untouched_rel App._flush_pending_messages.
Proof. unfold App._flush_pending_messages. inv_frame fail. Qed.

Lemma _try_reconnect_untouched : preserves untouched_rel App._try_reconnect.
Proof.
  unfold App._try_reconnect.
  inv_frame ltac:(first [ apply _connect_untouched | apply _flush_untouched ]).
Qed.

Lemma _handle_send_failure_untouched msg :
  preserves untouched_rel (App._handle_send_failure msg).
Proof.
  unfold App._handle_send_failure. inv_frame ltac:(apply _try_reconnect_untouched).
Qed.

Lemma _network_worker_step_untouched :
  preserves untouched_rel App._network_worker_step.
Proof.
  unfold App._network_worker_step, App._network_worker_body.
  inv_frame ltac:(apply _handle_send_failure_untouched).
Qed.

Lemma _poll_messages_step_untouched :
  preserves untouched_rel App._poll_messages_step.
Proof.
  unfold App._poll_messages_step, App._poll_messages_body, App._poll_one.
  inv_frame ltac:(apply _try_reconnect_untouched).
Qed.

Lemma _send_message_untouched text :
  preserves untouched_rel (App._send_message text).
Proof. unfold App._send_message. inv_frame fail. Qed.

Lemma on_connect_untouched server username password :
  preserves untouched_rel (App.on_connect server username password).
Proof.
  unfold App.on_connect, App._start_threads.
  inv_frame ltac:(apply _connect_untouched).
Qed.

Lemma _add_contact_untouched name : preserves untouched_rel (App._add_contact name).
Proof. unfold App._add_contact. inv_frame fail. Qed.

Lemma shutdown_untouched : preserves untouched_rel App.shutdown.
Proof. unfold App.shutdown. inv_frame fail. Qed.

Lemma step_untouched s s' :
  step s s' ->
  attempts_untouched (App.db (fst s)) -> attempts_untouched (App.db (fst s')).
Proof.
  intros Hstep. destruct Hstep.
  - apply _network_worker_step_untouched.
  - apply _poll_messages_step_untouched.
  - apply _send_message_untouched.
  - apply on_connect_untouched.
  - intros Hs. exact Hs.
  - apply _add_contact_untouched.
  - intros Hs. exact Hs.
  - apply shutdown_untouched.
  - intros Hs. exact Hs.
Qed.

(** With [attempts] at 0 the filter [attempts < 3] selects by user alone. *)
Lemma selected_when_untouched uid db :
  attempts_untouched db ->
  List.filter (Database.pending_selected uid) (Database.pending_messages db) =
  List.filter (fun r => match uid with
                        | Some u => Z.eqb (Database.user_id r) u
                        | None => false
                        end) (Database.pending_messages db).
Proof.
  unfold attempts_untouched. intros Hdb.
  induction Hdb as [| r l Hr _ IH]; simpl; [reflexivity |].
  rewrite IH. unfold Database.pending_selected. destruct uid as [u |];
    [| reflexivity].
  rewrite Hr. simpl. rewrite andb_true_r. reflexivity.
Qed.

(** C10. No turn of the program changes the [attempts] column: started on
    a database whose pending rows have [attempts] 0 (a new database has no
    row), every state the program reaches has [attempts] 0 in every pending
    row, and there [get_pending_messages] returns every row of the user:
    the test [attempts < 3] excludes none. *)
Theorem attempts_stay_zero server max_retries poll_interval db0 w0 s :
  attempts_untouched db0 ->
  reachable server max_retries poll_interval db0 w0 s ->
  (forall r, In r (Database.pending_messages (App.db (fst s))) ->
             Database.attempts r = 0) /\
  (forall uid,
     List.filter (Database.pending_selected uid)
                 (Database.pending_messages (App.db (fst s))) =
     List.filter (fun r => match uid with
                           | Some u => Z.eqb (Database.user_id r) u
                           | None => false
                           end)
                 (Database.pending_messages (App.db (fst s)))) /\
  (forall uid r, In r (Database.pending_messages (App.db (fst s))) ->
     uid = Some (Database.user_id r) ->
     exists rows,
       fst (Database.get_pending_messages uid (App.db (fst s))) = Ret rows /\
       In r rows).
Proof.
  intros Hdb0 Hreach.
  assert (Hinv : attempts_untouched (App.db (fst s))).
  { induction Hreach as [| s s' _ IH Hstep]; [exact Hdb0 |].
    eapply step_untouched; eassumption. }
  split; [| split].
  - intros r Hr. unfold attempts_untouched in Hinv.
    rewrite Forall_forall in Hinv. apply Hinv, list_elem_of_In, Hr.
  - intros uid. apply selected_when_untouched, Hinv.
  - intros uid r Hr Huid. eexists. split; [reflexivity |].
    apply flushed_rows_spec. split; [exact Hr |]. split; [exact Huid |].
    unfold attempts_untouched in Hinv. rewrite Forall_forall in Hinv.
    rewrite (Hinv r) by (apply list_elem_of_In, Hr). lia.
Qed.

End Invariant.

(** ** Backoff and the retry cap *)
Section BackoffFacts.
Context `{Runtime}.

Lemma backoff_monotone (b n m : N) :
  (n <= m)%N -> App.backoff b n <= App.backoff b m.
Proof.
  intros Hnm. unfold App.backoff.
  apply Z.min_le_compat_r. apply Z.mul_le_mono_nonneg_l; [lia |].
  apply Z.pow_le_mono_r; lia.
Qed.


Lemma backoff_at_cap (b n m : N) :
  (n <= m)%N -> App.backoff b n = 60 -> App.backoff b m = 60.
Proof.
  intros Hnm Hcap.
  pose proof (backoff_monotone b n m Hnm) as Hmono.
  unfold App.backoff in *. lia.
Qed.

(** [_connect] calls [socket.connect] once. *)
Lemma _connect_counts s :
  connects (snd (snd (App._connect s))) = S (connects (snd s)).
Proof.
  destruct s as [a w]. unfold App._connect. rewrite try_except_run.
  repeat (rewrite bind_run; simpl). unfold App.on_messenger. simpl.
  pose proof (connect_counts
    (Messenger.init (Some (App.server a)) (App.username a) (App.password a), w))
    as Hc. simpl in Hc.
  destruct (Messenger.connect _) as [[[] | e] [d' w']]; simpl in *; exact Hc.
Qed.

Lemma _flush_keeps_world s :
  snd (snd (App._flush_pending_messages s)) = snd s.
Proof. destruct s as [a w]. reflexivity. Qed.

(** Below the cap [_try_reconnect] sleeps for the backoff delay, counts
    the attempt and connects once. *)
Lemma _try_reconnect_attempt a w :
  Z.of_N (App.retry_count a) < App.max_retries a ->
  let s' := snd (App._try_reconnect (a, w)) in
  sleeps (snd s') =
    (sleeps w ++ [inject_Z (App.backoff (App.backoff_time a) (App.retry_count a))])%list /\
  connects (snd s') = S (connects w) /\
  (App.connection_state (fst s') = App.CONNECTED /\ App.retry_count (fst s') = 0%N \/
   App.connection_state (fst s') = App.DISCONNECTED /\
   App.retry_count (fst s') = (App.retry_count a + 1)%N).
Proof.
  intros Hlt s'. subst s'. rewrite (_try_reconnect_run a w Hlt).
  set (s1 := (App.set_retry_count _ _, set_sleeps _ w)).
  pose proof (_connect_keeps_world sleeps ltac:(reflexivity) ltac:(reflexivity)
                ltac:(reflexivity) ltac:(reflexivity) ltac:(reflexivity) s1) as Hsl.
  pose proof (_connect_counts s1) as Hcn.
  unfold keeps in Hsl. simpl in Hsl, Hcn.
  destruct (_connect_outcome s1) as [(Hr & Hst & Hrc) | (Hr & Hst & Hrc)];
    destruct (App._connect s1) as [r [a' w']]; simpl in *; subst r.
  - rewrite _flush_pending_messages_run. simpl. auto.
  - simpl. auto.
Qed.



End BackoffFacts.

(** ** What the turns leave alone *)
Section AppKeeps.
Context `{Runtime} {B : Type} (q : App.MessengerApp -> B).
Hypothesis q_db : forall x a, q (App.set_db x a) = q a.
Hypothesis q_messenger : forall x a, q (App.set_messenger x a) = q a.
Hypothesis q_state : forall x u a, q (App.set_connection_state x u a) = q a.
Hypothesis q_retry : forall x a, q (App.set_retry_count x a) = q a.
Hypothesis q_outgoing : forall x a, q (App.set_outgoing_queue x a) = q a.
Hypothesis q_incoming : forall x a, q (App.set_incoming_queue x a) = q a.
Hypothesis q_stop : forall x a, q (App.set_stop_event x a) = q a.
Hypothesis q_recipient : forall x a, q (App.set_current_recipient x a) = q a.

Lemma _connect_keeps : preserves (keeps_app q) App._connect.
Proof. apply _connect_keeps_app; assumption. Qed.

Lemma _flush_keeps : preserves (keeps_app q) App._flush_pending_messages.
Proof. unfold keeps_app, App._flush_pending_messages. a_frame. Qed.

Lemma _try_reconnect_keeps : preserves (keeps_app q) App._try_reconnect.
Proof.
  unfold keeps_app, App._try_reconnect.
  a_frame_with ltac:(first [ apply _connect_keeps | apply _flush_keeps ]).
Qed.

Lemma _handle_send_failure_keeps msg :
  preserves (keeps_app q) (App._handle_send_failure msg).
Proof.
  unfold keeps_app, App._handle_send_failure.
  a_frame_with ltac:(apply _try_reconnect_keeps).
Qed.

Lemma _network_worker_step_keeps : preserves (keeps_app q) App._network_worker_step.
Proof.
  unfold keeps_app, App._network_worker_step, App._network_worker_body.
  a_frame_with ltac:(apply _handle_send_failure_keeps).
Qed.

Lemma _poll_messages_step_keeps : preserves (keeps_app q) App._poll_messages_step.
Proof.
  unfold keeps_app, App._poll_messages_step, App._poll_messages_body, App._poll_one.
  a_frame_with ltac:(apply _try_reconnect_keeps).
Qed.

Lemma _send_message_keeps text : preserves (keeps_app q) (App._send_message text).
Proof. unfold keeps_app, App._send_message. a_frame. Qed.

Lemma _on_contact_select_keeps name :
  preserves (keeps_app q) (App._on_contact_select name).
Proof. unfold keeps_app, App._on_contact_select. a_frame. Qed.

Lemma _add_contact_keeps name : preserves (keeps_app q) (App._add_contact name).
Proof. unfold keeps_app, App._add_contact. a_frame. Qed.

Lemma _process_incoming_queue_keeps : preserves (keeps_app q) App._process_incoming_queue.
Proof. unfold keeps_app, App._process_incoming_queue. a_frame. Qed.

Lemma shutdown_keeps : preserves (keeps_app q) App.shutdown.
Proof. unfold keeps_app, App.shutdown. a_frame. Qed.

End AppKeeps.

Section WorkerFacts.
Context `{Runtime}.

(** [on_connect] starts the workers only after it has set the user. *)
Lemma on_connect_has_user server username password s :
  (App.threads_started (fst s) = true -> is_Some (App.user_id (fst s))) ->
  App.threads_started (fst (snd (App.on_connect server username password s))) = true ->
  is_Some (App.user_id (fst (snd (App.on_connect server username password s)))).
Proof.
  destruct s as [a w]. intros Hs. unfold App.on_connect.
  destruct (_ || _); [exact Hs |].
  repeat (rewrite bind_run; simpl). unfold App.on_db. simpl.
  destruct (Database.get_or_create_user username (App.db a)) as [[uid | e] db'];
    simpl; [| exact Hs].
  repeat (rewrite bind_run; simpl).
  set (s1 := (App.set_user _ _ _ _, w)).
  pose proof (_connect_keeps App.user_id ltac:(reflexivity) ltac:(reflexivity)
                ltac:(reflexivity) s1) as Hk.
  unfold keeps_app, keeps in Hk. simpl in Hk.
  destruct (App._connect s1) as [[[] | e] [a' w']]; simpl in *;
    intros _; rewrite Hk; eauto.
Qed.

(** Where a worker runs, the user is set. *)
Lemma worker_has_user server max_retries poll_interval db0 w0 s :
  reachable server max_retries poll_interval db0 w0 s ->
  App.threads_started (fst s) = true -> is_Some (App.user_id (fst s)).
Proof.
  induction 1 as [| s s' _ IH Hstep]; [discriminate |].
  set (q := fun a => (App.threads_started a, App.user_id a)).
  assert (Hkeep : forall m : Py App.astate unit,
            preserves (keeps_app q) m ->
            App.threads_started (fst (snd (m s))) = true ->
            is_Some (App.user_id (fst (snd (m s))))).
  { intros m Hm. specialize (Hm s). unfold keeps_app, keeps, q in Hm.
    injection Hm as Ht Hu. rewrite Ht, Hu. exact IH. }
  destruct Hstep.
  - apply Hkeep, _network_worker_step_keeps; reflexivity.
  - apply Hkeep, _poll_messages_step_keeps; reflexivity.
  - apply Hkeep, _send_message_keeps; reflexivity.
  - apply on_connect_has_user. exact IH.
  - apply Hkeep, _on_contact_select_keeps; reflexivity.
  - apply Hkeep, _add_contact_keeps; reflexivity.
  - apply Hkeep, _process_incoming_queue_keeps; reflexivity.
  - apply Hkeep, shutdown_keeps; reflexivity.
  - exact IH.
Qed.

End WorkerFacts.

(** ** The counter and the base of the backoff *)
Section CounterFacts.
Context `{Runtime}.















End CounterFacts.

(** ** The samples run *)

Lemma flush_on_reconnect_witness :
  App.connection_state
    (fst (snd (@App._try_reconnect sample_runtime
                 (sample_app sample_db [], friendly_world)))) = App.CONNECTED /\
  exists flushed,
    App.outgoing_queue
      (fst (snd (@App._try_reconnect sample_runtime
                   (sample_app sample_db [], friendly_world)))) =
      App.retry_of <$> flushed /\
    flushed ≡ₚ [row 1 1 "bob" "hi" 10%Q 0].
Proof.
  assert (Hconn : App.connection_state
            (fst (snd (@App._try_reconnect sample_runtime
                         (sample_app sample_db [], friendly_world)))) =
          App.CONNECTED) by (vm_compute; reflexivity).
  split; [exact Hconn |].
  destruct (@flush_on_reconnect sample_runtime (sample_app sample_db [])
              friendly_world Hconn) as (flushed & Hq & Hperm & _).
  exists flushed. split; [exact Hq | exact Hperm].
Defined.

Lemma offline_message_is_queued_witness :
  Database.pending_messages
    (App.db (fst (snd (@App._network_worker_step sample_runtime
                         (sample_app Database.init [hello], friendly_world))))) =
    [row 1 1 "bob" "hello" 12%Q 0] /\
  snd (snd (@App._network_worker_step sample_runtime
              (sample_app Database.init [hello], friendly_world))) = friendly_world.
Proof.
  destruct (@offline_message_is_queued sample_runtime
              (sample_app Database.init [hello]) friendly_world hello [] 1
              eq_refl ltac:(discriminate) eq_refl eq_refl)
    as (_ & Hrow & _ & _ & Hworld & _).
  split; [exact Hrow | exact Hworld].
Defined.

Lemma attempts_stay_zero_witness :
  Forall (fun r => Database.attempts r = 0)
    (Database.pending_messages
       (App.db (fst (snd (@App._network_worker_step sample_runtime
          (snd (App._send_message "hello"
             (snd (App._on_contact_select "bob"
                (snd (@App.on_connect sample_runtime
                        "127.0.0.1" "testuser" "testpass"
                        (App.init "127.0.0.1" 5 2%Q Database.init,
                         friendly_world)))))))))))).
Proof.
  apply Forall_forall. intros r Hr. apply list_elem_of_In in Hr. revert r Hr.
  refine (proj1 (@attempts_stay_zero sample_runtime "127.0.0.1" 5 2%Q
                   Database.init friendly_world _
                   attempts_untouched_init _)).
  eapply reachable_step; [| apply step_network].
  - eapply reachable_step; [| apply step_send_message ].
    eapply reachable_step; [| apply step_contact_select ].
    eapply reachable_step; [| apply step_on_connect ].
    apply reachable_init.
  - vm_compute. reflexivity.
Defined.

(** * Further properties of the client *)
Section SendRuns.
Context `{Runtime}.

Lemma send_try_returns message recipient :
  returns (Messenger.send_try message recipient).
Proof.
  unfold Messenger.send_try.
  apply (returns_try_except (Messenger.send_body message recipient)
           [ (is_ConnectionError, mret (JBool false));
             (is_OSError, mret (JBool false)) ] (mret (JBool false))).
  - repeat constructor; apply returns_ret.
  - apply returns_ret.
Qed.

Lemma send_returns message recipient : returns (Messenger.send message recipient).
Proof.
  intros [d w]. unfold Messenger.send. rewrite bind_run. simpl.
  destruct (negb (truthy (Messenger.token d))).
  - rewrite bind_run. destruct (connect_returns (d, w)) as [b Hb].
    destruct (Messenger.connect (d, w)) as [r s']. simpl in Hb. subst r.
    destruct b; simpl.
    + apply send_try_returns.
    + exists (JBool false). reflexivity.
  - apply send_try_returns.
Qed.

(** Whatever is raised during the exchange of [send] ends in [False]. *)
Lemma send_try_raise message recipient s e :
  fst (Messenger.send_body message recipient s) = Raise e ->
  fst (Messenger.send_try message recipient s) = Ret (JBool false).
Proof.
  intros Hb. unfold Messenger.send_try. rewrite try_except_run.
  destruct (Messenger.send_body message recipient s) as [r s'].
  simpl in Hb. subst r. simpl.
  destruct (is_ConnectionError e); [reflexivity |].
  destruct (is_OSError e); reflexivity.
Qed.

(** The exchange of [send] when the request is written and [line] is read. *)
Lemma send_try_run d w out inp l0 l1 line rest message recipient :
  Messenger.send_stream d = Some out -> Messenger.recv_stream d = Some inp ->
  out ∈ live w -> inp ∈ live w ->
  script w = IoOk l0 :: IoOk l1 :: IoOk line :: rest ->
  Messenger.send_try message recipient (d, w) =
    (Ret match Protocol.parse_response line with
         | Ret (Some r) => JBool (py_eq_str (Protocol.sr_type r) "ok")
         | Ret None => JNull
         | Raise _ => JBool false
         end,
     (d, set_script rest
           (set_wire (wire w ++
              [(Protocol.create_direct_message (Messenger.token d) message
                  recipient (clock w) ++ CRLF)%string]) w))).
Proof.
  intros Hout Hinp Hlo Hli Hscr.
  unfold Messenger.send_try, Messenger.send_body. rewrite try_except_run.
  repeat (rewrite bind_run; simpl). rewrite Hout. simpl.
  repeat (rewrite bind_run; simpl).
  erewrite run_stream_write by eassumption.
  repeat (rewrite bind_run; simpl).
  erewrite run_stream_flush; [| simpl; reflexivity | exact Hlo].
  repeat (rewrite bind_run; simpl). rewrite Hinp. simpl.
  repeat (rewrite bind_run; simpl).
  erewrite run_stream_readline; [| simpl; reflexivity | exact Hli].
  repeat (rewrite bind_run; simpl). unfold pure_outcome.
  destruct (Protocol.parse_response line) as [[r |] | e]; simpl; try reflexivity.
  destruct (is_ConnectionError e); [reflexivity |].
  destruct (is_OSError e); reflexivity.
Qed.

(** X1. With a token and open streams, when the request is written and the
    line [line] comes back, [send] writes exactly one direct-message request
    (with the token, the message, the recipient and the clock's time), leaves
    the messenger as it is, and its result is true exactly when [line]
    decodes to a response of type ['ok']. *)
Theorem send_reports_server_answer d w out inp l0 l1 line rest message recipient :
  truthy (Messenger.token d) = true ->
  Messenger.send_stream d = Some out -> Messenger.recv_stream d = Some inp ->
  out ∈ live w -> inp ∈ live w ->
  script w = IoOk l0 :: IoOk l1 :: IoOk line :: rest ->
  snd (Messenger.send message recipient (d, w)) =
    (d, set_script rest
          (set_wire (wire w ++
             [(Protocol.create_direct_message (Messenger.token d) message
                 recipient (clock w) ++ CRLF)%string]) w)) /\
  (exists v, fst (Messenger.send message recipient (d, w)) = Ret v /\
     (truthy v = true <->
      exists r, Protocol.parse_response line = Ret (Some r) /\
                py_eq_str (Protocol.sr_type r) "ok" = true)).
Proof.
  intros Htok Hout Hinp Hlo Hli Hscr.
  rewrite send_with_token_no_connect by exact Htok.
  rewrite (send_try_run d w out inp l0 l1 line rest message recipient
             Hout Hinp Hlo Hli Hscr). simpl.
  split; [reflexivity |]. eexists. split; [reflexivity |].
  destruct (parse_response_total line) as [[r |] Hr]; rewrite Hr; simpl.
  - split.
    + intros Hok. exists r. split; [reflexivity | exact Hok].
    + intros (r' & Hr' & Hok). injection Hr' as <-. exact Hok.
  - split; [discriminate | intros (r' & Hr' & _); discriminate].
Qed.

(** X2. [send] never raises.  It returns [False] when the messenger has a
    token but no stream, when its stream is closed, and when the write or
    the read meets a transport error. *)
Theorem send_never_raises d w message recipient :
  (exists v, fst (Messenger.send message recipient (d, w)) = Ret v) /\
  (truthy (Messenger.token d) = true ->
   (Messenger.send_stream d = None ->
    fst (Messenger.send message recipient (d, w)) = Ret (JBool false)) /\
   (forall out, Messenger.send_stream d = Some out -> out ∉ live w ->
      fst (Messenger.send message recipient (d, w)) = Ret (JBool false)) /\
   (forall out e rest, Messenger.send_stream d = Some out -> out ∈ live w ->
      script w = IoErr e :: rest ->
      fst (Messenger.send message recipient (d, w)) = Ret (JBool false)) /\
   (forall out inp l0 l1 e rest,
      Messenger.send_stream d = Some out -> Messenger.recv_stream d = Some inp ->
      out ∈ live w -> inp ∈ live w ->
      script w = IoOk l0 :: IoOk l1 :: IoErr e :: rest ->
      fst (Messenger.send message recipient (d, w)) = Ret (JBool false))).
Proof.
  split; [exact (send_returns message recipient (d, w)) |].
  intros Htok. rewrite send_with_token_no_connect by exact Htok.
  split; [| split; [| split]].
  - intros Hout. apply (send_try_raise _ _ _ AttributeError).
    unfold Messenger.send_body. repeat (rewrite bind_run; simpl).
    rewrite Hout. reflexivity.
  - intros out Hout Hgone. apply (send_try_raise _ _ _ ValueError).
    unfold Messenger.send_body. repeat (rewrite bind_run; simpl).
    rewrite Hout. simpl. repeat (rewrite bind_run; simpl).
    rewrite stream_write_closed by exact Hgone. reflexivity.
  - intros out e rest Hout Hlo Hscr. apply (send_try_raise _ _ _ e).
    unfold Messenger.send_body. repeat (rewrite bind_run; simpl).
    rewrite Hout. simpl. repeat (rewrite bind_run; simpl).
    erewrite run_stream_write_err by eassumption. reflexivity.
  - intros out inp l0 l1 e rest Hout Hinp Hlo Hli Hscr.
    apply (send_try_raise _ _ _ e).
    unfold Messenger.send_body. repeat (rewrite bind_run; simpl).
    rewrite Hout. simpl. repeat (rewrite bind_run; simpl).
    erewrite run_stream_write by eassumption.
    repeat (rewrite bind_run; simpl).
    erewrite run_stream_flush; [| simpl; reflexivity | exact Hlo].
    repeat (rewrite bind_run; simpl). rewrite Hinp. simpl.
    repeat (rewrite bind_run; simpl).
    erewrite run_stream_readline_err; [| simpl; reflexivity | exact Hli].
    reflexivity.
Qed.

End SendRuns.

Section ConnectRuns.
Context `{Runtime}.

(** The run of [connect] when every socket call succeeds and the reply to
    the join request decodes to an ['ok'] response. *)
Lemma connect_accepted_run d w l0 l1 l2 line rest r :
  script w = IoOk l0 :: IoOk l1 :: IoOk l2 :: IoOk line :: rest ->
  Messenger.str_truthy (Messenger.username d) = true ->
  Messenger.str_truthy (Messenger.password d) = true ->
  Protocol.parse_response line = Ret (Some r) ->
  py_eq_str (Protocol.sr_type r) "ok" = true ->
  let n := next_handle w in
  Messenger.connect (d, w) =
    (Ret true,
     (Messenger.set_token (Protocol.sr_token r)
        (Messenger.set_recv_stream (Some (S (S n)))
           (Messenger.set_send_stream (Some (S n))
              (Messenger.set_socket (Some n) d))),
      {| script := rest;
         live := S (S n) :: S n :: n :: live w;
         next_handle := S (S (S n));
         wire := wire w ++
           [(Protocol.create_join (default EmptyString (Messenger.username d))
               (default EmptyString (Messenger.password d)) ++ CRLF)%string];
         connects := S (connects w);
         clock := clock w;
         sleeps := sleeps w |})).
Proof.
  intros Hscr Hu Hp Hline Hok n.
  unfold Messenger.connect, Messenger.connect_body. rewrite try_except_run.
  repeat (rewrite bind_run; simpl).
  erewrite run_socket_connect by (simpl; exact Hscr).
  repeat (rewrite bind_run; simpl).
  rewrite Hu, Hp. simpl.
  repeat (rewrite bind_run; simpl).
  erewrite run_stream_write;
    [| simpl; reflexivity | simpl; set_solver].
  repeat (rewrite bind_run; simpl).
  erewrite run_stream_flush;
    [| simpl; reflexivity | simpl; set_solver].
  repeat (rewrite bind_run; simpl).
  erewrite run_stream_readline;
    [| simpl; reflexivity | simpl; set_solver].
  repeat (rewrite bind_run; simpl).
  rewrite Hline. simpl. rewrite Hok. reflexivity.
Qed.

(** A [send] without a token calls [socket.connect] once. *)
Lemma send_connects_without_token d w message recipient :
  truthy (Messenger.token d) = false ->
  connects (snd (snd (Messenger.send message recipient (d, w)))) = S (connects w).
Proof.
  intros Htok. unfold Messenger.send. rewrite bind_run. simpl. rewrite Htok. simpl.
  rewrite bind_run. pose proof (connect_counts (d, w)) as Hc. simpl in Hc.
  destruct (Messenger.connect (d, w)) as [[[] | e] [d' w']]; simpl in *;
    try exact Hc.
  pose proof (send_try_keeps_world connects message recipient
                ltac:(reflexivity) ltac:(reflexivity) (d', w')) as Hk.
  unfold keeps in Hk. simpl in Hk. rewrite Hk. exact Hc.
Qed.


(** X4. A join that the server accepts without a usable token (none, or an
    empty one) leaves the messenger unauthenticated although [connect]
    returned [True]: the next [send] connects again. *)
Theorem join_without_token_reconnects d w l0 l1 l2 line rest r message recipient :
  script w = IoOk l0 :: IoOk l1 :: IoOk l2 :: IoOk line :: rest ->
  Messenger.str_truthy (Messenger.username d) = true ->
  Messenger.str_truthy (Messenger.password d) = true ->
  Protocol.parse_response line = Ret (Some r) ->
  py_eq_str (Protocol.sr_type r) "ok" = true ->
  truthy (Protocol.sr_token r) = false ->
  fst (Messenger.connect (d, w)) = Ret true /\
  truthy (Messenger.token (fst (snd (Messenger.connect (d, w))))) = false /\
  connects (snd (snd (Messenger.send message recipient
                        (snd (Messenger.connect (d, w)))))) = S (S (connects w)).
Proof.
  intros Hscr Hu Hp Hparse Hok Htok.
  rewrite (connect_accepted_run d w l0 l1 l2 line rest r Hscr Hu Hp Hparse Hok).
  simpl. split; [reflexivity |]. split; [exact Htok |].
  rewrite send_connects_without_token by (simpl; exact Htok). reflexivity.
Qed.

End ConnectRuns.

Section CloseFacts.
Context `{Runtime}.

Lemma filter_absent (h : nat) (l : list nat) :
  h ∉ l -> filter (fun x => x ≠ h) l = l.
Proof.
  intros Hh. induction l as [| x l IH]; [reflexivity |].
  rewrite not_elem_of_cons in Hh. destruct Hh as [Hne Hl].
  rewrite filter_cons_True by congruence. rewrite IH by exact Hl. reflexivity.
Qed.

(** One release that meets no failure. *)
Lemma close_handle_ok (o : option nat) (d : Messenger.DirectMessenger) w :
  no_failure (script w) ->
  exists w',
    match o with
    | Some h => Messenger.io (Net.handle_close h)
    | None => mret tt
    end (d, w) = (Ret tt, (d, w')) /\
    no_failure (script w') /\
    (forall x, x ∈ live w' <-> x ∈ live w /\ Some x <> o).
Proof.
  intros Hscr. destruct o as [h |].
  - unfold Messenger.io, Net.handle_close, Net.io_call, modify, get_state.
    repeat (rewrite bind_run; simpl).
    destruct (Net.is_live h w) eqn:Hlive.
    + repeat (rewrite bind_run; simpl).
      destruct (script w) as [| [l | e] rest] eqn:Hs; simpl.
      * eexists. split; [reflexivity |]. simpl. rewrite Hs.
        split; [constructor |].
        intros x. rewrite list_elem_of_filter. split.
        -- intros [Hne Hin]. split; [exact Hin | congruence].
        -- intros [Hin Hne]. split; [congruence | exact Hin].
      * eexists. split; [reflexivity |]. simpl.
        split; [inversion Hscr; assumption |].
        intros x. rewrite list_elem_of_filter. split.
        -- intros [Hne Hin]. split; [exact Hin | congruence].
        -- intros [Hin Hne]. split; [congruence | exact Hin].
      * inversion Hscr as [| ? ? Hbad _]. destruct Hbad.
    + exists w. split; [reflexivity |]. split; [exact Hscr |].
      unfold Net.is_live in Hlive. apply bool_decide_eq_false_1 in Hlive.
      intros x. split.
      * intros Hin. split; [exact Hin |]. intros Heq. injection Heq as ->.
        contradiction.
      * intros [Hin _]. exact Hin.
  - exists w. split; [reflexivity |]. split; [exact Hscr |].
    intros x. split; [intros Hin; split; [exact Hin | discriminate] | tauto].
Qed.

(** [close] when no release fails. *)
Lemma close_ok_run d w :
  no_failure (script w) ->
  exists w',
    Messenger.close (d, w) = (Ret tt, (d, w')) /\
    (forall x, x ∈ live w' <-> x ∈ live w /\ x ∉ Messenger.transport d).
Proof.
  intros Hscr. unfold Messenger.close, Messenger.close_body.
  rewrite try_except_run. rewrite bind_run. simpl.
  destruct (close_handle_ok (Messenger.send_stream d) d w Hscr)
    as (w1 & Hr1 & Hs1 & Hl1).
  destruct (close_handle_ok (Messenger.recv_stream d) d w1 Hs1)
    as (w2 & Hr2 & Hs2 & Hl2).
  destruct (close_handle_ok (Messenger.socket d) d w2 Hs2)
    as (w3 & Hr3 & Hs3 & Hl3).
  rewrite bind_run, Hr1. rewrite bind_run, Hr2. rewrite Hr3.
  exists w3. split; [reflexivity |].
  intros x. rewrite Hl3, Hl2, Hl1. unfold Messenger.transport.
  rewrite !elem_of_app.
  destruct (Messenger.socket d), (Messenger.send_stream d),
    (Messenger.recv_stream d); simpl;
    rewrite ?list_elem_of_singleton, ?elem_of_nil; split;
    try (intros [[[Hin Ha] Hb] Hc]; split; [exact Hin |];
         intros Hx; repeat destruct Hx as [Hx | Hx]; congruence);
    try (intros [Hin Hx]; repeat split; try exact Hin; try discriminate;
         intros Heq; injection Heq as ->; apply Hx; tauto).
Qed.

(** On a released Transport [close] does nothing. *)
Lemma close_released_noop s :
  Messenger.released s -> Messenger.close s = (Ret tt, s).
Proof.
  destruct s as [d w]. unfold Messenger.released, Messenger.transport. simpl.
  rewrite !Forall_app. intros (Hso & Hse & Hre).
  unfold Messenger.close, Messenger.close_body.
  rewrite try_except_run. rewrite bind_run. simpl.
  assert (Hno : forall o : option nat,
            Forall (fun h => Net.is_live h w = false) (option_list o) ->
            match o with
            | Some h => Messenger.io (Net.handle_close h)
            | None => mret tt
            end (d, w) = (Ret tt, (d, w))).
  { intros [h |] Ho; [| reflexivity].
    inversion Ho as [| ? ? Hh _]; subst.
    unfold Messenger.io, Net.handle_close, get_state.
    repeat (rewrite bind_run; simpl). rewrite Hh. reflexivity. }
  rewrite bind_run, (Hno _ Hse). rewrite bind_run, (Hno _ Hre).
  rewrite (Hno _ Hso). reflexivity.
Qed.

(** X5. When no release fails, [close] returns, leaves the messenger as it
    is, and closes exactly the handles the messenger holds: the Transport is
    released and every other open handle stays open.  A second [close] then
    does nothing. *)
Theorem close_releases_and_is_idempotent d w :
  no_failure (script w) ->
  fst (Messenger.close (d, w)) = Ret tt /\
  fst (snd (Messenger.close (d, w))) = d /\
  (forall x, x ∈ live (snd (snd (Messenger.close (d, w)))) <->
             x ∈ live w /\ x ∉ Messenger.transport d) /\
  Messenger.released (snd (Messenger.close (d, w))) /\
  Messenger.close (snd (Messenger.close (d, w))) =
    (Ret tt, snd (Messenger.close (d, w))).
Proof.
  intros Hscr. destruct (close_ok_run d w Hscr) as (w' & Hrun & Hlive).
  rewrite Hrun. simpl.
  assert (Hrel : Messenger.released (d, w')).
  { unfold Messenger.released. simpl. apply Forall_forall. intros h Hh.
    apply is_live_gone. rewrite Hlive. tauto. }
  split; [reflexivity |]. split; [reflexivity |]. split; [exact Hlive |].
  split; [exact Hrel |]. apply close_released_noop, Hrel.
Qed.

(** X6. [close] is best effort: when the first release (of the send
    stream) raises, the exception is swallowed and nothing more is closed:
    the send stream itself is closed, as a stream is whose [close] raises,
    and every other handle that was open, the receive stream and the socket
    included, is still open. *)
Theorem close_stops_at_first_failure d w out e rest :
  Messenger.send_stream d = Some out -> out ∈ live w ->
  script w = IoErr e :: rest ->
  Messenger.close (d, w) =
    (Ret tt, (d, set_script rest
                   (set_live (filter (fun x => x <> out) (live w)) w))) /\
  (forall x, x ∈ live (snd (snd (Messenger.close (d, w)))) <->
             x ∈ live w /\ x <> out).
Proof.
  intros Hout Hlo Hscr.
  assert (Hrun : Messenger.close (d, w) =
            (Ret tt, (d, set_script rest
                           (set_live (filter (fun x => x <> out) (live w)) w)))).
  { unfold Messenger.close, Messenger.close_body.
    rewrite try_except_run. repeat (rewrite bind_run; simpl). rewrite Hout.
    unfold Messenger.io, Net.handle_close, Net.io_call, get_state.
    repeat (rewrite bind_run; simpl). rewrite (is_live_here out w Hlo).
    repeat (rewrite bind_run; simpl). rewrite Hscr. reflexivity. }
  rewrite Hrun. split; [reflexivity |]. intros x. simpl.
  rewrite list_elem_of_filter. tauto.
Qed.

End CloseFacts.

Section RetrieveMore.
Context `{Runtime}.

Lemma retrieve_try_keeps_world {B} (p : world -> B) request convert :
  (forall x w, p (set_script x w) = p w) ->
  (forall x w, p (set_wire x w) = p w) ->
  preserves (keeps (fun s : Messenger.mstate => p (snd s)))
            (Messenger.retrieve_try request convert).
Proof.
  intros Hs Hw. unfold Messenger.retrieve_try, Messenger.retrieve_body.
  m_frame;
    apply m_io_keeps_world;
    first [ apply stream_write_keeps; assumption
          | apply stream_flush_keeps; assumption
          | apply stream_readline_keeps; assumption ].
Qed.

Lemma retrieve_try_keeps_self request convert :
  preserves (keeps fst) (Messenger.retrieve_try request convert).
Proof.
  change (preserves (keeps (fun s : Messenger.mstate => id (fst s)))
                    (Messenger.retrieve_try request convert)).
  unfold Messenger.retrieve_try, Messenger.retrieve_body. m_frame.
Qed.


(** X8. A messenger that holds a token never connects on its own: [send],
    [retrieve_new] and [retrieve_all] leave the messenger (token, socket,
    streams) as it is, open and close no handle, and call [socket.connect]
    not once, whatever the exchange meets. *)
Theorem token_holder_never_reconnects d w :
  truthy (Messenger.token d) = true ->
  (forall message recipient,
     let s' := snd (Messenger.send message recipient (d, w)) in
     fst s' = d /\ connects (snd s') = connects w /\ live (snd s') = live w) /\
  (let s' := snd (Messenger.retrieve_new (d, w)) in
   fst s' = d /\ connects (snd s') = connects w /\ live (snd s') = live w) /\
  (let s' := snd (Messenger.retrieve_all (d, w)) in
   fst s' = d /\ connects (snd s') = connects w /\ live (snd s') = live w).
Proof.
  intros Htok. split; [| split].
  - intros message recipient s'. subst s'.
    rewrite send_with_token_no_connect by exact Htok.
    pose proof (send_try_keeps_self message recipient (d, w)) as Hd.
    pose proof (send_try_keeps_world connects message recipient
                  ltac:(reflexivity) ltac:(reflexivity) (d, w)) as Hc.
    pose proof (send_try_keeps_world live message recipient
                  ltac:(reflexivity) ltac:(reflexivity) (d, w)) as Hl.
    unfold keeps in *. auto.
  - intros s'. subst s'. unfold Messenger.retrieve_new.
    rewrite retrieve_with_token by exact Htok.
    pose proof (retrieve_try_keeps_self Protocol.request_unread_messages
                  Messenger.new_message (d, w)) as Hd.
    pose proof (retrieve_try_keeps_world connects
                  Protocol.request_unread_messages Messenger.new_message
                  ltac:(reflexivity) ltac:(reflexivity) (d, w)) as Hc.
    pose proof (retrieve_try_keeps_world live
                  Protocol.request_unread_messages Messenger.new_message
                  ltac:(reflexivity) ltac:(reflexivity) (d, w)) as Hl.
    unfold keeps in *. auto.
  - intros s'. subst s'. unfold Messenger.retrieve_all.
    rewrite retrieve_with_token by exact Htok.
    pose proof (retrieve_try_keeps_self Protocol.request_all_messages
                  Messenger.all_message (d, w)) as Hd.
    pose proof (retrieve_try_keeps_world connects
                  Protocol.request_all_messages Messenger.all_message
                  ltac:(reflexivity) ltac:(reflexivity) (d, w)) as Hc.
    pose proof (retrieve_try_keeps_world live
                  Protocol.request_all_messages Messenger.all_message
                  ltac:(reflexivity) ltac:(reflexivity) (d, w)) as Hl.
    unfold keeps in *. auto.
Qed.

(** X9. The two decoders agree: on every line [parse_response] yields a
    response exactly when [parse_messages] yields one, and then both carry
    the same ['type']. *)
Theorem decoders_agree line :
  (Protocol.parse_response line = Ret None <->
   Protocol.parse_messages line = Ret None) /\
  (forall r m, Protocol.parse_response line = Ret (Some r) ->
               Protocol.parse_messages line = Ret (Some m) ->
               Protocol.sr_type r = Protocol.mr_type m).
Proof.
  destruct (json_loads line) as [v | e] eqn:Hl.
  2:{ rewrite (parse_response_raise line e Hl), (parse_messages_raise line e Hl).
      split; [tauto | discriminate]. }
  assert (Hnot : (forall o, v <> JObj o) ->
            (Protocol.parse_response line = Ret None <->
             Protocol.parse_messages line = Ret None) /\
            (forall r m, Protocol.parse_response line = Ret (Some r) ->
                         Protocol.parse_messages line = Ret (Some m) ->
                         Protocol.sr_type r = Protocol.mr_type m)).
  { intros Hv. rewrite (parse_response_not_object line v Hl Hv),
      (parse_messages_not_object line v Hl Hv). split; [tauto | discriminate]. }
  destruct v as [| b | q | s | l | o]; try (apply Hnot; discriminate).
  destruct (o !! "response") as [resp |] eqn:Ho.
  2:{ rewrite (parse_response_no_key line o Hl Ho),
        (parse_messages_no_key line o Hl Ho). split; [tauto | discriminate]. }
  assert (Hnd : (forall ro, resp <> JObj ro) ->
            (Protocol.parse_response line = Ret None <->
             Protocol.parse_messages line = Ret None) /\
            (forall r m, Protocol.parse_response line = Ret (Some r) ->
                         Protocol.parse_messages line = Ret (Some m) ->
                         Protocol.sr_type r = Protocol.mr_type m)).
  { intros Hv. rewrite (parse_response_not_dict line o resp Hl Ho Hv),
      (parse_messages_not_dict line o resp Hl Ho Hv).
    split; [tauto | discriminate]. }
  destruct resp as [| b | q | s | l | ro]; try (apply Hnd; discriminate).
  rewrite (parse_response_dict line o ro Hl Ho),
    (parse_messages_dict line o ro Hl Ho).
  split; [split; discriminate |].
  intros r m Hr Hm. injection Hr as <-. injection Hm as <-. reflexivity.
Qed.

End RetrieveMore.

(** ** The token after [close] *)
Section CloseTheorem.
Context `{Runtime}.

Lemma transport_elem d x :
  x ∈ Messenger.transport d <->
  Messenger.socket d = Some x \/ Messenger.send_stream d = Some x \/
  Messenger.recv_stream d = Some x.
Proof.
  unfold Messenger.transport. rewrite !elem_of_app.
  destruct (Messenger.socket d), (Messenger.send_stream d),
    (Messenger.recv_stream d); simpl;
    rewrite ?list_elem_of_singleton, ?elem_of_nil; split;
    intros Hx; repeat destruct Hx as [Hx | Hx];
    try contradiction; try discriminate; subst;
    try (injection Hx as ->); tauto.
Qed.

(** One release, whatever the script has for it: the handle is closed
    whether or not the release raises. *)
Lemma close_handle_any (o : option nat) (d : Messenger.DirectMessenger) w :
  exists r w',
    match o with
    | Some h => Messenger.io (Net.handle_close h)
    | None => mret tt
    end (d, w) = (r, (d, w')) /\
    (forall x, x ∈ live w' <-> x ∈ live w /\ Some x <> o).
Proof.
  destruct o as [h |].
  - unfold Messenger.io, Net.handle_close, Net.io_call, modify, get_state.
    repeat (rewrite bind_run; simpl).
    destruct (Net.is_live h w) eqn:Hlive.
    + repeat (rewrite bind_run; simpl).
      destruct (script w) as [| [l | e] rest] eqn:Hs; simpl;
        (eexists; eexists; split; [reflexivity |]; simpl;
         intros x; rewrite list_elem_of_filter; split;
         [ intros [Hne Hin]; split; [exact Hin | congruence]
         | intros [Hin Hne]; split; [congruence | exact Hin] ]).
    + exists (Ret tt), w. split; [reflexivity |].
      unfold Net.is_live in Hlive. apply bool_decide_eq_false_1 in Hlive.
      intros x. split.
      * intros Hin. split; [exact Hin |]. intros Heq. injection Heq as ->.
        contradiction.
      * intros [Hin _]. exact Hin.
  - exists (Ret tt), w. split; [reflexivity |].
    intros x. split; [intros Hin; split; [exact Hin | discriminate] | tauto].
Qed.

(** The handles after [close], whatever the releases meet: none is opened,
    the send stream is closed, the handles of others stay open. *)
Lemma close_live d w x :
  (x ∈ live (snd (snd (Messenger.close (d, w)))) ->
   x ∈ live w /\ Messenger.send_stream d <> Some x) /\
  (x ∈ live w -> x ∉ Messenger.transport d ->
   x ∈ live (snd (snd (Messenger.close (d, w))))).
Proof.
  rewrite transport_elem.
  unfold Messenger.close, Messenger.close_body.
  rewrite try_except_run. rewrite bind_run. simpl.
  destruct (close_handle_any (Messenger.send_stream d) d w) as (r1 & w1 & Hr1 & Hl1).
  destruct (close_handle_any (Messenger.recv_stream d) d w1) as (r2 & w2 & Hr2 & Hl2).
  destruct (close_handle_any (Messenger.socket d) d w2) as (r3 & w3 & Hr3 & Hl3).
  rewrite bind_run, Hr1. destruct r1 as [[] | e1]; simpl.
  - rewrite bind_run, Hr2. destruct r2 as [[] | e2]; simpl.
    + rewrite Hr3. destruct r3 as [[] | e3]; simpl;
        rewrite Hl3, Hl2, Hl1; split;
        [ intros [[[Hin Ha] Hb] Hc]; split; [exact Hin | congruence]
        | intros Hin Hx; repeat split; try exact Hin; intros Heq; apply Hx;
          rewrite <- Heq; tauto
        | intros [[[Hin Ha] Hb] Hc]; split; [exact Hin | congruence]
        | intros Hin Hx; repeat split; try exact Hin; intros Heq; apply Hx;
          rewrite <- Heq; tauto ].
    + rewrite Hl2, Hl1. split.
      * intros [[Hin Ha] Hb]. split; [exact Hin | congruence].
      * intros Hin Hx. repeat split; try exact Hin; intros Heq; apply Hx;
          rewrite <- Heq; tauto.
  - rewrite Hl1. split.
    + intros [Hin Ha]. split; [exact Hin | congruence].
    + intros Hin Hx. repeat split; try exact Hin; intros Heq; apply Hx;
        rewrite <- Heq; tauto.
Qed.

(** With a token and without an open send stream [send] returns [False]. *)
Lemma send_try_closed d w message recipient :
  (forall out, Messenger.send_stream d = Some out -> out ∉ live w) ->
  fst (Messenger.send_try message recipient (d, w)) = Ret (JBool false).
Proof.
  intros Hgone. destruct (Messenger.send_stream d) as [out |] eqn:Hout.
  - apply (send_try_raise _ _ _ ValueError).
    unfold Messenger.send_body. repeat (rewrite bind_run; simpl).
    rewrite Hout. simpl. repeat (rewrite bind_run; simpl).
    rewrite stream_write_closed by (apply Hgone; reflexivity). reflexivity.
  - apply (send_try_raise _ _ _ AttributeError).
    unfold Messenger.send_body. repeat (rewrite bind_run; simpl).
    rewrite Hout. reflexivity.
Qed.

Lemma reply_line_send_closed d w :
  (forall out, Messenger.send_stream d = Some out -> out ∉ live w) ->
  reply_line (d, w) = None.
Proof.
  intros Hgone. destruct (Messenger.send_stream d) as [out |] eqn:Hout.
  - apply (reply_line_closed d w out); [left; exact Hout | apply Hgone; reflexivity].
  - apply reply_line_no_stream. left. exact Hout.
Qed.

(** A retrieval without a token calls [socket.connect] once. *)
Lemma retrieve_connects_without_token request convert d w :
  truthy (Messenger.token d) = false ->
  connects (snd (snd (Messenger.retrieve request convert (d, w)))) = S (connects w).
Proof.
  intros Htok. unfold Messenger.retrieve. rewrite bind_run. simpl. rewrite Htok. simpl.
  rewrite bind_run. pose proof (connect_counts (d, w)) as Hc. simpl in Hc.
  destruct (Messenger.connect (d, w)) as [[[] | e] [d' w']]; simpl in *;
    try exact Hc.
  pose proof (retrieve_try_keeps_world connects request convert
                ltac:(reflexivity) ltac:(reflexivity) (d', w')) as Hk.
  unfold keeps in Hk. simpl in Hk. rewrite Hk. exact Hc.
Qed.

(** C9 (as the code has it). [close] returns and leaves the object as it
    was: it holds the token it held before the call.  In the world [close]
    opens no handle, closes the send stream, leaves the handles of others
    open and, when no release raises, closes every handle of the object.
    A [send], a [retrieve_new] and a [retrieve_all] after [close] on a
    messenger with a token find that token and do not connect again: there
    is no further call of [socket.connect], the stream is closed, and they
    return [False] and the empty list.  Without a token (the messenger had
    not joined) each of them connects first, after [close] as before. *)
Theorem close_keeps_token (s : Messenger.mstate) :
  fst (Messenger.close s) = Ret tt /\
  fst (snd (Messenger.close s)) = fst s /\
  Messenger.token (fst (snd (Messenger.close s))) = Messenger.token (fst s) /\
  (forall h, h ∈ live (snd (snd (Messenger.close s))) ->
     h ∈ live (snd s) /\ Messenger.send_stream (fst s) <> Some h) /\
  (forall h, h ∈ live (snd s) -> h ∉ Messenger.transport (fst s) ->
     h ∈ live (snd (snd (Messenger.close s)))) /\
  (no_failure (script (snd s)) ->
   forall h, h ∈ Messenger.transport (fst s) ->
     h ∉ live (snd (snd (Messenger.close s)))) /\
  (truthy (Messenger.token (fst s)) = true ->
   (forall message recipient,
      connects (snd (snd (Messenger.send message recipient
                            (snd (Messenger.close s))))) = connects (snd s) /\
      fst (Messenger.send message recipient (snd (Messenger.close s))) =
        Ret (JBool false)) /\
   connects (snd (snd (Messenger.retrieve_new (snd (Messenger.close s))))) =
     connects (snd s) /\
   fst (Messenger.retrieve_new (snd (Messenger.close s))) = Ret [] /\
   connects (snd (snd (Messenger.retrieve_all (snd (Messenger.close s))))) =
     connects (snd s) /\
   fst (Messenger.retrieve_all (snd (Messenger.close s))) = Ret []) /\
  (truthy (Messenger.token (fst s)) = false ->
   (forall message recipient,
      connects (snd (snd (Messenger.send message recipient
                            (snd (Messenger.close s))))) = S (connects (snd s))) /\
   connects (snd (snd (Messenger.retrieve_new (snd (Messenger.close s))))) =
     S (connects (snd s)) /\
   connects (snd (snd (Messenger.retrieve_all (snd (Messenger.close s))))) =
     S (connects (snd s))).
Proof.
  pose proof (close_keeps_self s) as Hself. unfold keeps in Hself.
  pose proof (close_keeps_world connects ltac:(net_side) ltac:(net_side) s) as Hconn.
  unfold keeps in Hconn.
  destruct s as [d w]. simpl in Hself, Hconn |- *.
  assert (Hgone : forall out, Messenger.send_stream d = Some out ->
                    out ∉ live (snd (snd (Messenger.close (d, w))))).
  { intros out Hout Hin. destruct (close_live d w out) as [Hsub _].
    destruct (Hsub Hin) as [_ Hne]. contradiction. }
  split; [| split; [| split; [| split; [| split; [| split; [| split]]]]]].
  8: { intros Htok.
       destruct (Messenger.close (d, w)) as [r [d' w']] eqn:Hc. simpl in *. subst d'.
       split; [| split].
       - intros message recipient.
         rewrite send_connects_without_token by exact Htok. rewrite Hconn. reflexivity.
       - unfold Messenger.retrieve_new.
         rewrite retrieve_connects_without_token by exact Htok.
         rewrite Hconn. reflexivity.
       - unfold Messenger.retrieve_all.
         rewrite retrieve_connects_without_token by exact Htok.
         rewrite Hconn. reflexivity. }
  - destruct (close_returns (d, w)) as [[] Hr]. exact Hr.
  - exact Hself.
  - exact (f_equal Messenger.token Hself).
  - intros h. apply (close_live d w h).
  - intros h. apply (close_live d w h).
  - intros Hscr h Hh. destruct (close_ok_run d w Hscr) as (w' & Hrun & Hlive).
    rewrite Hrun. simpl. rewrite Hlive. tauto.
  - intros Htok.
    destruct (Messenger.close (d, w)) as [r [d' w']] eqn:Hc. simpl in *. subst d'.
    split; [| split; [| split; [| split]]].
    + intros message recipient.
      rewrite send_with_token_no_connect by exact Htok. split.
      * pose proof (send_try_keeps_world connects message recipient
                      ltac:(net_side) ltac:(net_side) (d, w')) as Hk.
        unfold keeps in Hk. simpl in Hk. rewrite Hk. exact Hconn.
      * apply send_try_closed. exact Hgone.
    + unfold Messenger.retrieve_new. rewrite retrieve_with_token by exact Htok.
      pose proof (retrieve_try_keeps_world connects
                    Protocol.request_unread_messages Messenger.new_message
                    ltac:(net_side) ltac:(net_side) (d, w')) as Hk.
      unfold keeps in Hk. simpl in Hk. rewrite Hk. exact Hconn.
    + unfold Messenger.retrieve_new. rewrite retrieve_with_token by exact Htok.
      rewrite retrieve_try_reply, (reply_line_send_closed d w' Hgone). reflexivity.
    + unfold Messenger.retrieve_all. rewrite retrieve_with_token by exact Htok.
      pose proof (retrieve_try_keeps_world connects
                    Protocol.request_all_messages Messenger.all_message
                    ltac:(net_side) ltac:(net_side) (d, w')) as Hk.
      unfold keeps in Hk. simpl in Hk. rewrite Hk. exact Hconn.
    + unfold Messenger.retrieve_all. rewrite retrieve_with_token by exact Htok.
      rewrite retrieve_try_reply, (reply_line_send_closed d w' Hgone). reflexivity.
Qed.

End CloseTheorem.

(** C9 (as stated) fails: after a successful join and [close] the
    messenger still holds the token ["T1"]. *)
Lemma close_does_not_clear_token :
  fst (Messenger.close joined_state) = Ret tt /\
  Messenger.token (fst (snd (Messenger.close joined_state))) = JStr "T1" /\
  ~ (Messenger.token (fst (snd (Messenger.close joined_state))) = JNull).
Proof.
  split; [reflexivity |]. split; [reflexivity |]. discriminate.
Qed.

Lemma close_keeps_token_witness :
  Messenger.token (fst (snd (Messenger.close joined_state))) = JStr "T1" /\
  Net.is_live 1%nat (snd (snd (Messenger.close joined_state))) = false /\
  connects (snd (snd (@Messenger.send sample_runtime "hi" "bob"
                        (snd (Messenger.close joined_state))))) = 1%nat /\
  connects (snd (snd (@Messenger.retrieve_new sample_runtime
                        (snd (Messenger.close joined_state))))) = 1%nat /\
  connects (snd (snd (@Messenger.retrieve_all sample_runtime
                        (snd (Messenger.close joined_state))))) = 1%nat.
Proof.
  destruct (@close_keeps_token sample_runtime joined_state)
    as (_ & _ & Htok & _ & _ & Hall & Huse & _).
  destruct (Huse eq_refl) as (Hsend & Hnew & _ & Hold & _).
  split; [| split; [| split; [| split]]].
  - rewrite Htok. reflexivity.
  - assert (Hscr : no_failure (script (snd joined_state)))
      by (vm_compute; constructor).
    apply is_live_gone, (Hall Hscr). vm_compute. repeat constructor.
  - rewrite (proj1 (Hsend "hi" "bob")). reflexivity.
  - rewrite Hnew. reflexivity.
  - rewrite Hold. reflexivity.
Defined.


(** ** The client's samples *)

Lemma send_reports_server_answer_witness :
  fst (@Messenger.send sample_runtime "hi" "bob"
         (joined_script [IoOk EmptyString; IoOk EmptyString; IoOk send_ok_line])) =
    Ret (JBool true) /\
  length (wire (snd (snd (@Messenger.send sample_runtime "hi" "bob"
    (joined_script [IoOk EmptyString; IoOk EmptyString; IoOk send_ok_line]))))) =
    2%nat.
Proof.
  assert (H1 : (1%nat : nat) ∈ [2%nat; 1%nat; 0%nat]) by repeat constructor.
  assert (H2 : (2%nat : nat) ∈ [2%nat; 1%nat; 0%nat]) by repeat constructor.
  destruct (@send_reports_server_answer sample_runtime
              (fst joined)
              (set_script [IoOk EmptyString; IoOk EmptyString; IoOk send_ok_line]
                          (snd joined))
              1%nat 2%nat EmptyString EmptyString send_ok_line [] "hi" "bob"
              eq_refl eq_refl eq_refl H1 H2 eq_refl) as (Hstate & v & Hv & Hiff).
  unfold joined_script. split.
  - rewrite Hv. f_equal.
    assert (Htrue : truthy v = true).
    { apply Hiff. eexists. split; [vm_compute; reflexivity | reflexivity]. }
    vm_compute in Hv. injection Hv as <-. reflexivity.
  - rewrite Hstate. reflexivity.
Defined.

Lemma send_never_raises_witness :
  fst (@Messenger.send sample_runtime "hi" "bob" closed) = Ret (JBool false).
Proof.
  destruct (@send_never_raises sample_runtime (fst closed) (snd closed) "hi" "bob")
    as (_ & Hfalse).
  destruct (Hfalse eq_refl) as (_ & Hclosed & _).
  apply (Hclosed 1%nat eq_refl). apply not_elem_of_nil.
Defined.


Lemma join_without_token_reconnects_witness :
  connects
    (snd (snd (@Messenger.send sample_runtime "hi" "bob"
       (snd (@Messenger.connect sample_runtime
               (sample_messenger,
                world_with [IoOk EmptyString; IoOk EmptyString;
                            IoOk EmptyString; IoOk send_ok_line])))))) = 2%nat.
Proof.
  assert (Hparse : @Protocol.parse_response sample_runtime send_ok_line =
            Ret (Some {| Protocol.sr_type := JStr "ok";
                         Protocol.sr_message := JStr EmptyString;
                         Protocol.sr_token := JStr EmptyString |}))
    by (vm_compute; reflexivity).
  destruct (@join_without_token_reconnects sample_runtime sample_messenger
              (world_with [IoOk EmptyString; IoOk EmptyString;
                           IoOk EmptyString; IoOk send_ok_line])
              EmptyString EmptyString EmptyString send_ok_line []
              {| Protocol.sr_type := JStr "ok";
                 Protocol.sr_message := JStr EmptyString;
                 Protocol.sr_token := JStr EmptyString |} "hi" "bob"
              eq_refl eq_refl eq_refl Hparse eq_refl eq_refl)
    as (_ & _ & Hc).
  exact Hc.
Defined.

Lemma close_releases_and_is_idempotent_witness :
  Messenger.released (snd (Messenger.close joined)) /\
  Messenger.close (snd (Messenger.close joined)) =
    (Ret tt, snd (Messenger.close joined)).
Proof.
  assert (Hscr : no_failure (script (snd joined))) by constructor.
  destruct (@close_releases_and_is_idempotent (fst joined) (snd joined) Hscr)
    as (_ & _ & _ & Hrel & Hidem).
  split; [exact Hrel | exact Hidem].
Defined.

Lemma close_stops_at_first_failure_witness :
  live (snd (snd (Messenger.close (joined_script [IoErr OSError])))) =
    [2%nat; 0%nat].
Proof.
  assert (H1 : (1%nat : nat) ∈ [2%nat; 1%nat; 0%nat]) by repeat constructor.
  destruct (@close_stops_at_first_failure (fst joined)
              (set_script [IoErr OSError] (snd joined))
              1%nat OSError [] eq_refl H1 eq_refl) as (Hrun & _).
  unfold joined_script. rewrite Hrun. reflexivity.
Defined.


Lemma token_holder_never_reconnects_witness :
  connects (snd (snd (@Messenger.send sample_runtime "hi" "bob"
                        (joined_script [IoErr ConnectionError])))) = 1%nat.
Proof.
  destruct (@token_holder_never_reconnects sample_runtime
              (fst joined) (set_script [IoErr ConnectionError] (snd joined))
              eq_refl) as (Hsend & _).
  destruct (Hsend "hi" "bob") as (_ & Hc & _).
  unfold joined_script. rewrite Hc. reflexivity.
Defined.

(** * Further properties of the database *)
Section PendingTable.
Context `{Runtime}.

Lemma add_pending_message_run uid recipient content ts db :
  Database.add_pending_message (Some uid) recipient content ts db =
    (Ret tt,
     Database.set_next_pending_id (Database.next_pending_id db + 1)
       (Database.set_pending
          (Database.pending_messages db ++
            [ {| Database.pending_id := Database.next_pending_id db;
                 Database.user_id := uid;
                 Database.recipient := recipient;
                 Database.content := content;
                 Database.timestamp := ts;
                 Database.attempts := 0 |} ]) db)).
Proof. reflexivity. Qed.

(** X10. A message added to the offline queue is listed, once, by the next
    [get_pending_messages] of its user, with the next id and no attempt so
    far; the lists of the other users are as before.  Without a user id the
    insert raises and the table is unchanged. *)
Theorem add_pending_message_then_listed uid recipient content ts db :
  fst (Database.add_pending_message (Some uid) recipient content ts db) = Ret tt /\
  (exists rows rows',
     fst (Database.get_pending_messages (Some uid) db) = Ret rows /\
     fst (Database.get_pending_messages (Some uid)
            (snd (Database.add_pending_message (Some uid) recipient content ts db)))
       = Ret rows' /\
     rows' ≡ₚ {| Database.pending_id := Database.next_pending_id db;
                 Database.user_id := uid;
                 Database.recipient := recipient;
                 Database.content := content;
                 Database.timestamp := ts;
                 Database.attempts := 0 |} :: rows) /\
  (forall other, other <> uid ->
     fst (Database.get_pending_messages (Some other)
            (snd (Database.add_pending_message (Some uid) recipient content ts db)))
     = fst (Database.get_pending_messages (Some other) db)) /\
  Database.add_pending_message None recipient content ts db =
    (Raise IntegrityError, db).
Proof.
  rewrite add_pending_message_run. simpl.
  split; [reflexivity |]. split; [| split; [| reflexivity]].
  - eexists _, _. split; [reflexivity |]. split; [reflexivity |].
    rewrite !merge_sort_Permutation. rewrite List.filter_app. simpl.
    rewrite Z.eqb_refl. simpl. rewrite app_nil_r || idtac.
    symmetry. apply Permutation_cons_append.
  - intros other Hne.
    rewrite List.filter_app. simpl.
    destruct (Z.eqb_spec uid other) as [-> | _]; [congruence |].
    simpl. rewrite app_nil_r. reflexivity.
Qed.

Lemma increment_pending_attempts_rows p db :
  Database.pending_messages (snd (Database.increment_pending_attempts p db)) =
  List.map (fun r => if Z.eqb (Database.pending_id r) p then bumped 1 r else r)
           (Database.pending_messages db).
Proof. reflexivity. Qed.

Lemma increments_pending n p db :
  Database.pending_messages (increments n p db) =
  List.map (fun r => if Z.eqb (Database.pending_id r) p then bumped n r else r)
           (Database.pending_messages db).
Proof.
  induction n as [| n IH].
  - simpl. rewrite <- (map_id (Database.pending_messages db)) at 1.
    apply map_ext. intros r. destruct (Z.eqb _ _); [| reflexivity].
    destruct r. unfold bumped. simpl. rewrite Z.add_0_r. reflexivity.
  - unfold increments in *. rewrite Nat.iter_succ.
    rewrite increment_pending_attempts_rows. rewrite IH. rewrite map_map. apply map_ext. intros r.
    destruct (Z.eqb_spec (Database.pending_id r) p) as [Hp | Hp].
    + unfold bumped at 1. simpl. rewrite (proj2 (Z.eqb_eq _ _) Hp).
      unfold bumped. simpl. f_equal. lia.
    + rewrite (proj2 (Z.eqb_neq _ _) Hp). reflexivity.
Qed.

(** X11. The attempt counter is what takes a row out of the flush: after
    [n] calls of [increment_pending_attempts] for its id, a pending row is
    still returned by [get_pending_messages] exactly when its attempts plus
    [n] are below 3. *)
Theorem increments_exclude_at_three n r db :
  In r (Database.pending_messages db) ->
  exists rows,
    fst (Database.get_pending_messages (Some (Database.user_id r))
           (increments n (Database.pending_id r) db)) = Ret rows /\
    (In (bumped n r) rows <-> Database.attempts r + Z.of_nat n < 3).
Proof.
  intros Hr. eexists. split; [reflexivity |].
  rewrite flushed_rows_spec. rewrite increments_pending. split.
  - intros (_ & _ & Hlt). exact Hlt.
  - intros Hlt. split; [| split; [reflexivity | exact Hlt]].
    apply in_map_iff. exists r. rewrite Z.eqb_refl. split; [reflexivity | exact Hr].
Qed.

(** X12. [clear_pending_messages] empties the offline queue of its user and
    leaves the queues of the other users as they are. *)
Theorem clear_pending_messages_clears_user uid db :
  fst (Database.get_pending_messages (Some uid)
         (snd (Database.clear_pending_messages uid db))) = Ret [] /\
  (forall other, other <> uid ->
     fst (Database.get_pending_messages (Some other)
            (snd (Database.clear_pending_messages uid db)))
     = fst (Database.get_pending_messages (Some other) db)).
Proof.
  rewrite !get_pending_messages_run.
  unfold Database.clear_pending_messages, Database.get_connection, modify. simpl.
  split.
  - f_equal.
    assert (Hnil : List.filter (Database.pending_selected (Some uid))
              (List.filter (fun r => negb (Z.eqb (Database.user_id r) uid))
                           (Database.pending_messages db)) = []).
    { induction (Database.pending_messages db) as [| r l IH]; [reflexivity |].
      simpl. destruct (Z.eqb_spec (Database.user_id r) uid) as [Hu | Hu]; simpl.
      - exact IH.
      - rewrite (proj2 (Z.eqb_neq _ _) Hu). simpl. exact IH. }
    rewrite Hnil. reflexivity.
  - intros other Hne. do 2 f_equal.
    induction (Database.pending_messages db) as [| r l IH]; [reflexivity |].
    simpl. destruct (Z.eqb_spec (Database.user_id r) uid) as [Hu | Hu]; simpl.
    + rewrite Hu. rewrite (proj2 (Z.eqb_neq _ _)) by congruence. simpl. exact IH.
    + rewrite IH. reflexivity.
Qed.

End PendingTable.

(** ** Users, contacts and the history *)
Section TablesFacts.
Context `{Runtime}.

Lemma find_app_last {A} (f : A -> bool) (l : list A) (x : A) :
  List.find f l = None -> f x = true -> List.find f (l ++ [x]) = Some x.
Proof.
  intros Hl Hx. induction l as [| y l IH]; simpl in *.
  - rewrite Hx. reflexivity.
  - destruct (f y); [discriminate | apply IH, Hl].
Qed.

(** X13. [get_or_create_user] returns an id on every database, a second
    call for the same name returns the same id and changes nothing, and no
    existing user loses its id. *)
Theorem get_or_create_user_idempotent username db :
  exists uid,
    fst (Database.get_or_create_user username db) = Ret uid /\
    Database.get_or_create_user username
        (snd (Database.get_or_create_user username db)) =
      (Ret uid, snd (Database.get_or_create_user username db)) /\
    (forall r, In r (Database.users db) ->
       In r (Database.users (snd (Database.get_or_create_user username db)))).
Proof.
  unfold Database.get_or_create_user, Database.get_connection.
  destruct (List.find _ (Database.users db)) as [r |] eqn:Hfind; simpl.
  - exists (fst r). rewrite Hfind. auto.
  - exists (Database.next_user_id db).
    rewrite (find_app_last _ _ (Database.next_user_id db, username) Hfind)
      by apply String.eqb_refl.
    split; [reflexivity |]. split; [reflexivity |].
    intros r Hr. apply in_or_app. left. exact Hr.
Qed.

Lemma py_eq_refl v : Database.bind_param v = Ret tt -> Database.py_eq v v = true.
Proof.
  destruct v as [| b | q | s | l | m]; simpl; try discriminate; intros _.
  - reflexivity.
  - destruct b; reflexivity.
  - apply Qeq_bool_iff. reflexivity.
  - apply String.eqb_refl.
Qed.

Lemma add_contact_on_run uid friend db :
  Database.bind_param friend = Ret tt ->
  Database.add_contact_on false uid friend db =
    (Ret tt, Database.insert_or_ignore_contact uid friend db).
Proof.
  intros Hb. unfold Database.add_contact_on, Database.get_connection.
  rewrite try_except_run. rewrite bind_run. unfold pure_outcome at 1.
  rewrite Hb. reflexivity.
Qed.

Lemma add_contact_run uid friend db :
  Database.bind_param friend = Ret tt ->
  Database.add_contact uid friend db =
    (Ret tt, Database.insert_or_ignore_contact uid friend db).
Proof. apply add_contact_on_run. Qed.

(** A value that cannot be bound is refused before the statement runs,
    locked or not. *)
Lemma add_contact_on_unbindable locked uid friend db :
  Database.bind_param friend <> Ret tt ->
  Database.add_contact_on locked uid friend db = (Raise ProgrammingError, db).
Proof.
  intros Hb. unfold Database.add_contact_on, Database.get_connection.
  rewrite try_except_run. rewrite bind_run. unfold pure_outcome at 1.
  destruct friend; simpl in *; try congruence; reflexivity.
Qed.

(** Under the write lock of another connection [add_contact] raises and
    writes nothing. *)
Lemma add_contact_on_locked uid friend db :
  exists e, Database.add_contact_on true uid friend db = (Raise e, db).
Proof.
  unfold Database.add_contact_on, Database.get_connection.
  rewrite try_except_run. rewrite bind_run. unfold pure_outcome at 1.
  destruct friend; simpl; eauto.
Qed.

Lemma insert_or_ignore_contact_idem uid friend db :
  Database.bind_param friend = Ret tt ->
  Database.insert_or_ignore_contact uid friend
    (Database.insert_or_ignore_contact uid friend db) =
  Database.insert_or_ignore_contact uid friend db.
Proof.
  intros Hb. unfold Database.insert_or_ignore_contact.
  destruct uid as [u |]; [| reflexivity].
  assert (Hstep : forall d,
    (if existsb (fun c => Z.eqb (fst c) u && Database.py_eq (snd c) friend)
                (Database.contacts
                   (if existsb (fun c => Z.eqb (fst c) u &&
                                         Database.py_eq (snd c) friend)
                               (Database.contacts d)
                    then d
                    else Database.set_contacts
                           (Database.contacts d ++ [(u, friend)]) d))
     then (if existsb (fun c => Z.eqb (fst c) u && Database.py_eq (snd c) friend)
                      (Database.contacts d)
           then d
           else Database.set_contacts (Database.contacts d ++ [(u, friend)]) d)
     else Database.set_contacts
            (Database.contacts
               (if existsb (fun c => Z.eqb (fst c) u &&
                                     Database.py_eq (snd c) friend)
                           (Database.contacts d)
                then d
                else Database.set_contacts
                       (Database.contacts d ++ [(u, friend)]) d) ++ [(u, friend)])
            (if existsb (fun c => Z.eqb (fst c) u && Database.py_eq (snd c) friend)
                        (Database.contacts d)
             then d
             else Database.set_contacts (Database.contacts d ++ [(u, friend)]) d)) =
    (if existsb (fun c => Z.eqb (fst c) u && Database.py_eq (snd c) friend)
                (Database.contacts d)
     then d
     else Database.set_contacts (Database.contacts d ++ [(u, friend)]) d)).
  { intros d. destruct (existsb _ (Database.contacts d)) eqn:Hex.
    - rewrite Hex. reflexivity.
    - simpl. rewrite existsb_app. simpl. rewrite Z.eqb_refl.
      rewrite (py_eq_refl _ Hb). simpl. rewrite orb_true_r. reflexivity. }
  destruct friend; try reflexivity; apply Hstep.
Qed.

(** X14. Adding a contact twice is adding it once: the second call leaves
    the database as the first left it and ends as the first did.  Without
    a user id, or with [None] for the contact, INSERT OR IGNORE skips the
    row: the call returns and nothing is stored.  A contact that cannot be
    bound (a list, a dict) is refused with an exception that is no
    [IntegrityError], and nothing is stored. *)
Theorem add_contact_idempotent uid friend db :
  Database.add_contact uid friend (snd (Database.add_contact uid friend db)) =
  Database.add_contact uid friend db /\
  (Database.bind_param friend = Ret tt -> uid = None \/ friend = JNull ->
   Database.add_contact uid friend db = (Ret tt, db)) /\
  (Database.bind_param friend <> Ret tt ->
   exists e, Database.add_contact uid friend db = (Raise e, db) /\
             is_IntegrityError e = false).
Proof.
  split; [| split].
  - destruct (Database.bind_param friend) as [[] | e] eqn:Hb.
    + rewrite !add_contact_run by exact Hb. simpl.
      rewrite insert_or_ignore_contact_idem by exact Hb. reflexivity.
    + unfold Database.add_contact.
      rewrite !add_contact_on_unbindable by congruence. reflexivity.
  - intros Hb Hnone. rewrite add_contact_run by exact Hb.
    unfold Database.insert_or_ignore_contact.
    destruct Hnone as [-> | ->]; [reflexivity |].
    destruct uid; reflexivity.
  - intros Hb. exists ProgrammingError. split; [| reflexivity].
    apply add_contact_on_unbindable, Hb.
Qed.

(** [add_message] never returns: when its values bind and its INSERT is
    done, the [add_contact] it calls meets the write lock. *)
Lemma add_message_raises uid sender recipient content ts db :
  exists e, Database.add_message uid sender recipient content ts db = (Raise e, db).
Proof.
  unfold Database.add_message, Database.add_contact_on, Database.get_connection,
    try_except, pure_outcome, raise, modify.
  destruct sender, recipient, content, uid; simpl; eauto;
    repeat match goal with
           | |- context [if ?b then _ else _] => destruct b; simpl
           end; eauto.
Qed.

Lemma get_connection_rolls_back {A} (body : Py Database.MessageDatabase A) db e db' :
  Database.get_connection body db = (Raise e, db') -> db' = db.
Proof.
  unfold Database.get_connection.
  destruct (body db) as [[a | e'] db'']; intros Heq; congruence.
Qed.


End TablesFacts.

(** ** Reading the history *)
Section HistoryFacts.

Lemma by_timestamp_total : Total History.by_timestamp.
Proof.
  intros r1 r2. unfold History.by_timestamp.
  destruct (Qlt_le_dec (Database.msg_timestamp r2) (Database.msg_timestamp r1))
    as [Hlt | Hle].
  - right. apply Qlt_le_weak, Hlt.
  - left. exact Hle.
Qed.

Lemma by_timestamp_trans : Transitive History.by_timestamp.
Proof. intros r1 r2 r3. unfold History.by_timestamp. apply Qle_trans. Qed.

(** X16. [get_all_messages] returns at most 500 rows, all of the user,
    oldest first; when the user has more, the rows left out are the newest:
    none of them is older than a row returned.  The database is not
    changed. *)
Theorem get_all_messages_keeps_oldest uid db :
  exists rows dropped,
    History.get_all_messages (Some uid) db = (Ret rows, db) /\
    (length rows <= 500)%nat /\
    StronglySorted History.by_timestamp rows /\
    (rows ++ dropped)%list ≡ₚ
      List.filter (fun r => Z.eqb (Database.msg_user_id r) uid)
                  (Database.messages db) /\
    (forall r r', In r rows -> In r' dropped ->
       Qle (Database.msg_timestamp r) (Database.msg_timestamp r')) /\
    (dropped = [] <->
     (length (List.filter (fun r => Z.eqb (Database.msg_user_id r) uid)
                          (Database.messages db)) <= 500)%nat).
Proof.
  set (sel := List.filter (fun r => Z.eqb (Database.msg_user_id r) uid)
                          (Database.messages db)).
  set (sorted := merge_sort History.by_timestamp sel).
  assert (Hsorted : StronglySorted History.by_timestamp sorted).
  { apply (@StronglySorted_merge_sort _ History.by_timestamp _
             by_timestamp_trans by_timestamp_total). }
  assert (Hperm : sorted ≡ₚ sel) by apply merge_sort_Permutation.
  exists (take 500 sorted), (drop 500 sorted).
  rewrite <- (take_drop 500 sorted) in Hsorted.
  split; [reflexivity |]. split; [rewrite length_take; lia |].
  split; [eapply StronglySorted_app_1_l; exact Hsorted |].
  split; [rewrite take_drop; exact Hperm |]. split.
  - intros r r' Hr Hr'.
    apply (StronglySorted_app_1_elem_of _ _ _ _ _ Hsorted);
      apply list_elem_of_In; assumption.
  - rewrite <- (Permutation_length Hperm). split.
    + intros Hnil.
      rewrite <- (take_drop 500 sorted), Hnil, app_nil_r.
      rewrite length_take. lia.
    + intros Hlen. apply drop_ge. exact Hlen.
Qed.

End HistoryFacts.

(** ** Invariants of the database under the running program *)
Section DbInvariant.
Context `{Runtime} (P : Database.MessageDatabase -> Prop).
Hypothesis P_add_pending : forall uid recipient content ts,
  preserves (maintains P) (Database.add_pending_message uid recipient content ts).
Hypothesis P_mark : forall p, preserves (maintains P) (Database.mark_pending_sent p).
Hypothesis P_add_message : forall uid sender recipient content ts,
  preserves (maintains P) (Database.add_message uid sender recipient content ts).
Hypothesis P_add_contact : forall uid friend,
  preserves (maintains P) (Database.add_contact uid friend).
Hypothesis P_user : forall username,
  preserves (maintains P) (Database.get_or_create_user username).

Ltac p_frame tac :=
  a_frame_with ltac:(first
    [ apply a_on_db_maintains_db;
      first [ apply P_add_pending | apply P_mark | apply P_add_message
            | apply P_add_contact | apply P_user
            | intros db Hdb; exact Hdb ]
    | tac ]).

Lemma _connect_db :
  preserves (maintains (fun s : App.astate => P (App.db (fst s)))) App._connect.
Proof. unfold App._connect. p_frame fail. Qed.

Lemma _flush_db :
  preserves (maintains (fun s : App.astate => P (App.db (fst s))))
            App._flush_pending_messages.
Proof. unfold App._flush_pending_messages. p_frame fail. Qed.

Lemma _try_reconnect_db :
  preserves (maintains (fun s : App.astate => P (App.db (fst s)))) App._try_reconnect.
Proof.
  unfold App._try_reconnect.
  p_frame ltac:(first [ apply _connect_db | apply _flush_db ]).
Qed.

Lemma _handle_send_failure_db msg :
  preserves (maintains (fun s : App.astate => P (App.db (fst s))))
            (App._handle_send_failure msg).
Proof. unfold App._handle_send_failure. p_frame ltac:(apply _try_reconnect_db). Qed.

Lemma _network_worker_step_db :
  preserves (maintains (fun s : App.astate => P (App.db (fst s))))
            App._network_worker_step.
Proof.
  unfold App._network_worker_step, App._network_worker_body.
  p_frame ltac:(apply _handle_send_failure_db).
Qed.

Lemma _poll_messages_step_db :
  preserves (maintains (fun s : App.astate => P (App.db (fst s))))
            App._poll_messages_step.
Proof.
  unfold App._poll_messages_step, App._poll_messages_body, App._poll_one.
  p_frame ltac:(apply _try_reconnect_db).
Qed.

Lemma _send_message_db text :
  preserves (maintains (fun s : App.astate => P (App.db (fst s))))
            (App._send_message text).
Proof. unfold App._send_message. p_frame fail. Qed.

Lemma on_connect_db server username password :
  preserves (maintains (fun s : App.astate => P (App.db (fst s))))
            (App.on_connect server username password).
Proof.
  unfold App.on_connect, App._start_threads. p_frame ltac:(apply _connect_db).
Qed.

Lemma _add_contact_db name :
  preserves (maintains (fun s : App.astate => P (App.db (fst s))))
            (App._add_contact name).
Proof. unfold App._add_contact. p_frame fail. Qed.

Lemma shutdown_db :
  preserves (maintains (fun s : App.astate => P (App.db (fst s)))) App.shutdown.
Proof. unfold App.shutdown. p_frame fail. Qed.

Lemma step_db s s' : step s s' -> P (App.db (fst s)) -> P (App.db (fst s')).
Proof.
  intros Hstep. destruct Hstep.
  - apply _network_worker_step_db.
  - apply _poll_messages_step_db.
  - apply _send_message_db.
  - apply on_connect_db.
  - intros Hs. exact Hs.
  - apply _add_contact_db.
  - intros Hs. exact Hs.
  - apply shutdown_db.
  - intros Hs. exact Hs.
Qed.

Lemma reachable_db server max_retries poll_interval db0 w0 s :
  P db0 -> reachable server max_retries poll_interval db0 w0 s ->
  P (App.db (fst s)).
Proof.
  intros H0. induction 1 as [| s s' _ IH Hstep]; [exact H0 |].
  eapply step_db; eassumption.
Qed.

End DbInvariant.

Section PendingIds.
Context `{Runtime}.

Lemma keeps_pending_ids {A} (m : Py Database.MessageDatabase A) :
  preserves (keeps (fun db => (Database.pending_messages db,
                               Database.next_pending_id db))) m ->
  preserves (maintains pending_ids_ok) m.
Proof.
  intros Hm db Hdb. specialize (Hm db). unfold keeps in Hm.
  injection Hm as Hp Hn. unfold pending_ids_ok in *. rewrite Hp, Hn. exact Hdb.
Qed.

Lemma add_contact_keeps_ids uid friend :
  preserves (keeps (fun db => (Database.pending_messages db,
                               Database.next_pending_id db)))
            (Database.add_contact uid friend).
Proof. apply add_contact_on_keeps. reflexivity. Qed.

Lemma add_message_keeps_ids uid sender recipient content ts :
  preserves (keeps (fun db => (Database.pending_messages db,
                               Database.next_pending_id db)))
            (Database.add_message uid sender recipient content ts).
Proof.
  unfold Database.add_message.
  apply get_connection_preserves; [typeclasses eauto |].
  repeat frame_step;
    first [ apply preserves_modify; intros db; reflexivity
          | apply add_contact_on_keeps; reflexivity ].
Qed.

Lemma get_or_create_user_keeps_ids username :
  preserves (keeps (fun db => (Database.pending_messages db,
                               Database.next_pending_id db)))
            (Database.get_or_create_user username).
Proof.
  unfold Database.get_or_create_user.
  apply get_connection_preserves; [typeclasses eauto |].
  intros db. unfold keeps. destruct (List.find _ _); reflexivity.
Qed.

Lemma add_pending_message_ids uid recipient content ts :
  preserves (maintains pending_ids_ok)
            (Database.add_pending_message uid recipient content ts).
Proof.
  unfold Database.add_pending_message.
  apply get_connection_preserves; [typeclasses eauto |].
  repeat frame_step.
  apply preserves_modify. intros db [Hnd Hlt]. unfold pending_ids_ok. simpl.
  split.
  - rewrite fmap_app. simpl. apply NoDup_app. split; [exact Hnd |].
    split; [| apply NoDup_singleton].
    intros p Hp Hp'. apply list_elem_of_singleton in Hp'. subst p.
    apply list_elem_of_fmap in Hp. destruct Hp as (r & Hr & Hin).
    rewrite Forall_forall in Hlt. specialize (Hlt r Hin). lia.
  - apply Forall_app. split.
    + eapply Forall_impl; [exact Hlt |]. simpl. intros r Hr. lia.
    + repeat constructor. simpl. lia.
Qed.

Lemma mark_pending_sent_ids p :
  preserves (maintains pending_ids_ok) (Database.mark_pending_sent p).
Proof.
  unfold Database.mark_pending_sent.
  apply get_connection_preserves; [typeclasses eauto |].
  apply preserves_modify. intros db [Hnd Hlt]. unfold pending_ids_ok. simpl.
  split.
  - induction (Database.pending_messages db) as [| r l IH]; [constructor |].
    simpl in *. apply NoDup_cons in Hnd. destruct Hnd as [Hr Hl].
    apply Forall_cons in Hlt. destruct Hlt as [_ Hlt].
    destruct (negb _); [| apply IH; assumption].
    simpl. apply NoDup_cons. split; [| apply IH; assumption].
    intros Hin. apply Hr. apply list_elem_of_fmap in Hin.
    destruct Hin as (r' & Heq & Hin). apply list_elem_of_fmap.
    exists r'. split; [exact Heq |].
    apply list_elem_of_In. apply list_elem_of_In, filter_In in Hin. apply Hin.
  - apply Forall_forall. intros r Hr. apply list_elem_of_In, filter_In in Hr.
    rewrite Forall_forall in Hlt. apply Hlt, list_elem_of_In, Hr.
Qed.

(** With distinct ids the DELETE of [mark_pending_sent] takes out one row. *)
Lemma mark_pending_sent_removes_one r db :
  NoDup (Database.pending_id <$> Database.pending_messages db) ->
  In r (Database.pending_messages db) ->
  exists before after,
    Database.pending_messages db = (before ++ r :: after)%list /\
    Database.pending_messages
      (snd (Database.mark_pending_sent (Database.pending_id r) db)) =
    (before ++ after)%list.
Proof.
  unfold Database.mark_pending_sent, Database.get_connection, modify. simpl.
  induction (Database.pending_messages db) as [| x l IH]; simpl;
    intros Hnd Hin; [contradiction |].
  apply NoDup_cons in Hnd. destruct Hnd as [Hx Hl].
  destruct Hin as [-> | Hin].
  - exists [], l. split; [reflexivity |]. rewrite Z.eqb_refl. simpl.
    clear IH Hl. induction l as [| y l IHl]; [reflexivity |]. simpl in *.
    destruct (Z.eqb_spec (Database.pending_id y) (Database.pending_id r)) as [He | He].
    + exfalso. apply Hx. rewrite <- He. apply list_elem_of_here.
    + simpl. f_equal. apply IHl.
      intros Hin. apply Hx. apply list_elem_of_further. exact Hin.
  - destruct (IH Hl Hin) as (before & after & Heq & Hrem).
    exists (x :: before), after. split; [simpl; rewrite Heq; reflexivity |].
    destruct (Z.eqb_spec (Database.pending_id x) (Database.pending_id r)) as [He | He].
    + exfalso. apply Hx. rewrite He. apply list_elem_of_fmap.
      exists r. split; [reflexivity | apply list_elem_of_In, Hin].
    + simpl. rewrite Hrem. reflexivity.
Qed.

(** X17. The ids of the pending rows stay distinct, and below the counter
    of the table, in every state the program reaches from a database where
    they are (a new database has no row); so acknowledging one retry with
    [mark_pending_sent] takes exactly that row out of the offline queue and
    keeps all others, in their order. *)
Theorem pending_ids_stay_distinct server max_retries poll_interval db0 w0 s :
  pending_ids_ok db0 ->
  reachable server max_retries poll_interval db0 w0 s ->
  pending_ids_ok (App.db (fst s)) /\
  (forall r, In r (Database.pending_messages (App.db (fst s))) ->
     exists before after,
       Database.pending_messages (App.db (fst s)) = (before ++ r :: after)%list /\
       Database.pending_messages
         (snd (Database.mark_pending_sent (Database.pending_id r)
                 (App.db (fst s)))) = (before ++ after)%list).
Proof.
  intros H0 Hreach.
  assert (Hok : pending_ids_ok (App.db (fst s))).
  { refine (reachable_db pending_ids_ok _ _ _ _ _ _ _ _ _ _ _ H0 Hreach).
    - apply add_pending_message_ids.
    - apply mark_pending_sent_ids.
    - intros. apply keeps_pending_ids, add_message_keeps_ids.
    - intros. apply keeps_pending_ids, add_contact_keeps_ids.
    - intros. apply keeps_pending_ids, get_or_create_user_keeps_ids. }
  split; [exact Hok |].
  intros r Hr. apply mark_pending_sent_removes_one; [apply Hok | exact Hr].
Qed.

End PendingIds.

(** ** The flush of the offline queue *)
Section FlushOrder.
Context `{Runtime}.

Lemma pending_by_timestamp_total : Total Database.by_timestamp.
Proof.
  intros r1 r2. unfold Database.by_timestamp.
  destruct (Qlt_le_dec (Database.timestamp r2) (Database.timestamp r1))
    as [Hlt | Hle].
  - right. apply Qlt_le_weak, Hlt.
  - left. exact Hle.
Qed.

Lemma pending_by_timestamp_trans : Transitive Database.by_timestamp.
Proof. intros r1 r2 r3. unfold Database.by_timestamp. apply Qle_trans. Qed.

(** X18. [_flush_pending_messages] puts the retries behind what the
    outgoing queue holds, oldest first, each marked as a retry with the id
    of its row; it deletes no row, so a second flush before the retries are
    acknowledged puts every one of them into the queue a second time. *)
Theorem flush_appends_oldest_first a w :
  exists retries,
    App.outgoing_queue (fst (snd (App._flush_pending_messages (a, w)))) =
      (App.outgoing_queue a ++ retries)%list /\
    retries ≡ₚ
      App.retry_of <$> List.filter (Database.pending_selected (App.user_id a))
                                   (Database.pending_messages (App.db a)) /\
    StronglySorted (fun m1 m2 => Qle (App.timestamp m1) (App.timestamp m2)) retries /\
    Forall (fun m => App.is_retry m = true /\ is_Some (App.pending_id m)) retries /\
    App.db (fst (snd (App._flush_pending_messages (a, w)))) = App.db a /\
    App.outgoing_queue
      (fst (snd (App._flush_pending_messages
                   (snd (App._flush_pending_messages (a, w)))))) =
      (App.outgoing_queue a ++ retries ++ retries)%list.
Proof.
  rewrite !_flush_pending_messages_run. simpl.
  eexists. split; [reflexivity |]. split; [| split; [| split; [| split]]].
  - apply fmap_Permutation, merge_sort_Permutation.
  - apply (StronglySorted_fmap _ Database.by_timestamp).
    + intros r1 r2 Hle. exact Hle.
    + apply (@StronglySorted_merge_sort _ Database.by_timestamp _
               pending_by_timestamp_trans pending_by_timestamp_total).
  - apply Forall_fmap, Forall_forall. intros r _. simpl. split; [reflexivity | eauto].
  - reflexivity.
  - rewrite <- app_assoc. reflexivity.
Qed.

End FlushOrder.

(** ** The connection state between the turns *)
Section StateMachine.
Context `{Runtime}.


















End StateMachine.

(** ** The turns of the network worker *)
Section WorkerTurns.
Context `{Runtime}.

(** A reconnection that ends CONNECTED has flushed the table into the
    queue and left the table alone. *)
Lemma _try_reconnect_connected_queue a w :
  App.connection_state (fst (snd (App._try_reconnect (a, w)))) = App.CONNECTED ->
  App.outgoing_queue (fst (snd (App._try_reconnect (a, w)))) =
    (App.outgoing_queue a ++
     (App.retry_of <$>
        merge_sort Database.by_timestamp
          (List.filter (Database.pending_selected (App.user_id a))
                       (Database.pending_messages (App.db a)))))%list.
Proof.
  intros Hconn.
  destruct (Z.lt_ge_cases (Z.of_N (App.retry_count a)) (App.max_retries a)) as [Hlt | Hge].
  2:{ rewrite _try_reconnect_offline in Hconn by lia. discriminate. }
  rewrite (_try_reconnect_run a w Hlt) in Hconn |- *.
  set (s1 := (App.set_retry_count _ _, set_sleeps _ w)) in *.
  pose proof (_connect_keeps_app
                (fun a => (App.db a, App.user_id a, App.outgoing_queue a))
                ltac:(reflexivity) ltac:(reflexivity) ltac:(reflexivity) s1) as Hk.
  unfold keeps in Hk. simpl in Hk.
  destruct (_connect_outcome s1) as [(Hr & _) | (Hr & Hst & _)].
  - destruct (App._connect s1) as [r [a' w']]. simpl in Hr, Hk. subst r.
    injection Hk as Hdb Huid Hq.
    rewrite _flush_pending_messages_run. simpl. rewrite Hdb, Huid, Hq.
    reflexivity.
  - destruct (App._connect s1) as [r [a' w']]. simpl in Hr, Hst. subst r.
    simpl in Hconn. congruence.
Qed.

Lemma _try_reconnect_keeps_db s :
  App.db (fst (snd (App._try_reconnect s))) = App.db (fst s).
Proof.
  exact (_try_reconnect_db (fun db => db = App.db (fst s)) s eq_refl).
Qed.

(** X20. A message whose first send fails is not lost: [_handle_send_failure]
    stores it in the offline queue of the user, with the next id and no
    attempt, whatever the reconnection gives; and when the reconnection
    succeeds in the same call, the message is back in the outgoing queue as
    a retry that carries the id of its row. *)
Theorem failed_send_is_retried a w msg uid :
  App.is_retry msg = false ->
  App.user_id a = Some uid ->
  In {| Database.pending_id := Database.next_pending_id (App.db a);
        Database.user_id := uid;
        Database.recipient := App.recipient msg;
        Database.content := App.content msg;
        Database.timestamp := App.timestamp msg;
        Database.attempts := 0 |}
     (Database.pending_messages
        (App.db (fst (snd (App._handle_send_failure msg (a, w)))))) /\
  (App.connection_state (fst (snd (App._handle_send_failure msg (a, w)))) =
     App.CONNECTED ->
   In {| App.recipient := App.recipient msg;
         App.content := App.content msg;
         App.timestamp := App.timestamp msg;
         App.is_retry := true;
         App.pending_id := Some (Database.next_pending_id (App.db a)) |}
      (App.outgoing_queue (fst (snd (App._handle_send_failure msg (a, w)))))).
Proof.
  intros Hretry Huid.
  unfold App._handle_send_failure. rewrite bind_run. simpl.
  rewrite Hretry. simpl. rewrite bind_run. unfold App.on_db at 1. simpl.
  rewrite Huid. rewrite add_pending_message_run. simpl.
  rewrite bind_run. simpl.
  set (a2 := App.set_connection_state _ _ _).
  set (newrow := {| Database.pending_id := Database.next_pending_id (App.db a);
                    Database.user_id := uid;
                    Database.recipient := App.recipient msg;
                    Database.content := App.content msg;
                    Database.timestamp := App.timestamp msg;
                    Database.attempts := 0 |}).
  assert (Hin : In newrow (Database.pending_messages (App.db a2))).
  { subst a2. simpl. apply in_or_app. right. left. reflexivity. }
  pose proof (_try_reconnect_keeps_db (a2, w)) as Hdb. simpl in Hdb.
  split.
  - destruct (App._try_reconnect (a2, w)) as [[[] | e] [a3 w3]]; simpl in *;
      rewrite Hdb; exact Hin.
  - intros Hconn.
    assert (Hconn' : App.connection_state
              (fst (snd (App._try_reconnect (a2, w)))) = App.CONNECTED).
    { destruct (App._try_reconnect (a2, w)) as [[[] | e] [a3 w3]]; exact Hconn. }
    pose proof (_try_reconnect_connected_queue a2 w Hconn') as Hq.
    assert (Hgoal : In (App.retry_of newrow)
              (App.outgoing_queue (fst (snd (App._try_reconnect (a2, w)))))).
    { rewrite Hq. apply in_or_app. right.
      apply list_elem_of_In, list_elem_of_fmap. exists newrow.
      split; [reflexivity |]. apply list_elem_of_In, flushed_rows_spec.
      split; [exact Hin |]. split; [exact Huid | simpl; lia]. }
    destruct (App._try_reconnect (a2, w)) as [[[] | e] [a3 w3]]; exact Hgoal.
Qed.

End WorkerTurns.

Section WorkerSuccess.
Context `{Runtime}.

(** The rows of the offline queue after the acknowledgement of the retry
    [msg], if it is one: [if pending_id:] skips [None] and 0. *)
Lemma network_turn_sent a w msg rest d r d' w' :
  App.outgoing_queue a = msg :: rest ->
  App.connection_state a = App.CONNECTED ->
  App.messenger a = Some d ->
  Messenger.send (App.content msg) (App.recipient msg) (d, w) = (Ret r, (d', w')) ->
  truthy r = true ->
  App._network_worker_step (a, w) =
    try_except
      (a1 ← App.self;
       App.on_db (Database.add_message (App.user_id a1)
                    (App.json_of_str (App.username a1))
                    (JStr (App.recipient msg)) (JStr (App.content msg))
                    (App.timestamp msg));;
       match App.pending_id msg with
       | Some p => if Z.eqb p 0 then mret tt
                   else App.on_db (Database.mark_pending_sent p)
       | None => mret tt
       end;;
       App.set_self (fun a2 => App.set_incoming_queue
         (App.incoming_queue a2 ++ [App.sent_success (App.recipient msg)]) a2))
      [ (is_Exception, mret tt) ]
      (App.set_messenger (Some d') (App.set_outgoing_queue rest a), w').
Proof.
  intros Hq Hst Hm Hsend Htr.
  unfold App._network_worker_step, App._network_worker_body.
  rewrite !try_except_run. rewrite bind_run. simpl. rewrite Hq.
  rewrite bind_run. simpl. rewrite Hst. simpl.
  rewrite bind_run. rewrite Hm. rewrite bind_run.
  unfold App.on_messenger at 1. simpl. rewrite Hm, Hsend. simpl. rewrite Htr.
  reflexivity.
Qed.

(** X21. A turn of the network worker whose send the server acknowledges
    records nothing: [add_message] raises in every case (its [add_contact]
    meets the write lock of its own INSERT) and the worker swallows the
    exception.  The message is off the outgoing queue, the database is as
    before, the GUI gets no [sent_success]; and since the row of a retry is
    not deleted, the next flush queues every pending row of the user with
    less than 3 attempts again, the one just sent included. *)
Theorem sent_message_is_never_recorded a w msg rest d r d' w' :
  App.outgoing_queue a = msg :: rest ->
  App.connection_state a = App.CONNECTED ->
  App.messenger a = Some d ->
  Messenger.send (App.content msg) (App.recipient msg) (d, w) = (Ret r, (d', w')) ->
  truthy r = true ->
  App._network_worker_step (a, w) =
    (Ret tt, (App.set_db (App.db a)
                (App.set_messenger (Some d') (App.set_outgoing_queue rest a)), w')) /\
  (forall row, In row (Database.pending_messages (App.db a)) ->
     App.user_id a = Some (Database.user_id row) ->
     Database.attempts row < 3 ->
     In (App.retry_of row)
        (App.outgoing_queue
           (fst (snd (App._flush_pending_messages
                        (snd (App._network_worker_step (a, w)))))))).
Proof.
  intros Hq Hst Hm Hsend Htr.
  assert (Hrun : App._network_worker_step (a, w) =
    (Ret tt, (App.set_db (App.db a)
                (App.set_messenger (Some d') (App.set_outgoing_queue rest a)), w'))).
  { rewrite (network_turn_sent a w msg rest d r d' w' Hq Hst Hm Hsend Htr).
    rewrite try_except_run.
    rewrite bind_run. simpl. rewrite bind_run. unfold App.on_db at 1. simpl.
    destruct (add_message_raises (App.user_id a) (App.json_of_str (App.username a))
                (JStr (App.recipient msg)) (JStr (App.content msg))
                (App.timestamp msg) (App.db a)) as [e He].
    rewrite He. reflexivity. }
  split; [exact Hrun |].
  intros row Hrow Huid Hatt. rewrite Hrun. cbn [snd].
  rewrite _flush_pending_messages_run. simpl.
  apply in_or_app. right. apply list_elem_of_In, list_elem_of_fmap.
  exists row. split; [reflexivity |].
  apply list_elem_of_In, flushed_rows_spec. auto.
Qed.

(** X22. When the send succeeds but the history cannot be written
    ([add_message] raises), the worker swallows the exception: the message
    has gone out, yet the database is as before, so the row of a retry
    stays in the offline queue for the next flush, and the GUI is told
    nothing. *)
Theorem unrecorded_send_keeps_pending_row a w msg rest d r d' w' e db' :
  App.outgoing_queue a = msg :: rest ->
  App.connection_state a = App.CONNECTED ->
  App.messenger a = Some d ->
  Messenger.send (App.content msg) (App.recipient msg) (d, w) = (Ret r, (d', w')) ->
  truthy r = true ->
  Database.add_message (App.user_id a) (App.json_of_str (App.username a))
    (JStr (App.recipient msg)) (JStr (App.content msg)) (App.timestamp msg)
    (App.db a) = (Raise e, db') ->
  App._network_worker_step (a, w) =
    (Ret tt, (App.set_db (App.db a)
                (App.set_messenger (Some d') (App.set_outgoing_queue rest a)), w')).
Proof.
  intros Hq Hst Hm Hsend Htr Hadd.
  rewrite (network_turn_sent a w msg rest d r d' w' Hq Hst Hm Hsend Htr).
  rewrite try_except_run.
  rewrite bind_run. simpl. rewrite bind_run. unfold App.on_db at 1. simpl.
  rewrite Hadd. simpl.
  rewrite (get_connection_rolls_back _ _ _ _ Hadd). reflexivity.
Qed.

End WorkerSuccess.

(** ** The turns of the poller *)
Section PollTurns.
Context `{Runtime}.

Lemma set_db_same a : App.set_db (App.db a) a = a.
Proof. destruct a. reflexivity. Qed.

(** A message with content and sender is never stored: [float] or
    [add_message] raises, and nothing has changed. *)
Lemma _poll_one_raises msg a w :
  truthy (Messenger.message msg) = true ->
  truthy (Messenger.recipient msg) = true ->
  exists e, App._poll_one msg (a, w) = (Raise e, (a, w)).
Proof.
  intros Hc Hs. unfold App._poll_one. rewrite Hc, Hs. simpl.
  rewrite bind_run. simpl. rewrite bind_run.
  assert (Hadd : forall ts, exists e,
            (App.on_db (Database.add_message (App.user_id a)
                          (Messenger.recipient msg)
                          (App.json_of_str (App.username a))
                          (Messenger.message msg) ts) ≫=
             (fun _ : () =>
                App.set_self (fun a0 => App.set_incoming_queue
                  (App.incoming_queue a0 ++
                   [App.new_message (Messenger.recipient msg)
                                    (Messenger.message msg)]) a0)))
              (a, w) = (Raise e, (a, w))).
  { intros ts. rewrite bind_run. unfold App.on_db. simpl.
    destruct (add_message_raises (App.user_id a) (Messenger.recipient msg)
                (App.json_of_str (App.username a)) (Messenger.message msg)
                ts (App.db a)) as [e He].
    rewrite He. rewrite set_db_same. eauto. }
  destruct (truthy (Messenger.timestamp msg)).
  - unfold pure_outcome at 1.
    destruct (App.py_float (Messenger.timestamp msg)) as [q | e]; [| eauto].
    apply Hadd.
  - unfold App.io, Net.time_time. simpl. apply Hadd.
Qed.

(** X23. A polled batch whose first message has content and sender is
    lost: storing the message raises ([add_message] never returns, and
    before it [float] may reject the timestamp), the loop is left, and
    nothing of the batch is stored or shown although the server has handed
    it out.  The poll turn still returns; the poller takes the connection
    for lost, and below the retry cap it sleeps the backoff, connects once
    more and sleeps 5 seconds. *)
Theorem polled_message_is_never_recorded a w d d' w' msg more :
  App.connection_state a = App.CONNECTED ->
  App.messenger a = Some d ->
  Messenger.retrieve_new (d, w) = (Ret (msg :: more), (d', w')) ->
  truthy (Messenger.message msg) = true ->
  truthy (Messenger.recipient msg) = true ->
  fst (App._poll_messages_step (a, w)) = Ret tt /\
  App.db (fst (snd (App._poll_messages_step (a, w)))) = App.db a /\
  App.incoming_queue (fst (snd (App._poll_messages_step (a, w)))) =
    App.incoming_queue a /\
  (Z.of_N (App.retry_count a) < App.max_retries a ->
   connects (snd (snd (App._poll_messages_step (a, w)))) = S (connects w') /\
   sleeps (snd (snd (App._poll_messages_step (a, w)))) =
     (sleeps w' ++
      [inject_Z (App.backoff (App.backoff_time a) (App.retry_count a)); 5%Q])%list).
Proof.
  intros Hst Hm Hget Hc Hs.
  remember (App._poll_messages_step (a, w)) as res eqn:Hres.
  unfold App._poll_messages_step, App._poll_messages_body in Hres.
  rewrite try_except_run in Hres. rewrite bind_run in Hres. simpl in Hres.
  rewrite Hst, Hm in Hres. simpl in Hres.
  rewrite bind_run in Hres. rewrite bind_run in Hres.
  unfold App.on_messenger at 1 in Hres. simpl in Hres.
  rewrite Hm, Hget in Hres. simpl in Hres.
  rewrite bind_run in Hres.
  destruct (_poll_one_raises msg (App.set_messenger (Some d') a) w' Hc Hs)
    as [e Hone].
  rewrite Hone in Hres. simpl in Hres.
  rewrite bind_run in Hres. simpl in Hres. rewrite Hst in Hres. simpl in Hres.
  rewrite bind_run in Hres. rewrite bind_run in Hres. simpl in Hres.
  set (a2 := App.set_connection_state _ _ _) in Hres.
  pose proof (_try_reconnect_keeps_db (a2, w')) as Hdb.
  pose proof (_try_reconnect_keeps App.incoming_queue ltac:(reflexivity)
                ltac:(reflexivity) ltac:(reflexivity) ltac:(reflexivity)
                ltac:(reflexivity) (a2, w')) as Hin.
  pose proof (_try_reconnect_attempt a2 w') as Hatt.
  unfold keeps_app, keeps in Hin. simpl in Hdb, Hin, Hatt.
  assert (Hret : exists s3, App._try_reconnect (a2, w') = (Ret tt, s3)).
  { destruct (Z.lt_ge_cases (Z.of_N (App.retry_count a2)) (App.max_retries a2)) as [Hlt | Hge].
    - rewrite (_try_reconnect_run a2 w' Hlt).
      match goal with |- context [App._connect ?s] =>
        destruct (_connect_outcome s) as [(Hr & _) | (Hr & _)];
        destruct (App._connect s) as [r [a3 w3]]; simpl in Hr; subst r end.
      + rewrite _flush_pending_messages_run. eauto.
      + eauto.
    - rewrite _try_reconnect_offline by lia. eauto. }
  destruct Hret as [[a3 w3] Hrun]. rewrite Hrun in Hres, Hdb, Hin, Hatt.
  simpl in *. subst res. simpl.
  split; [reflexivity |]. split; [exact Hdb |]. split; [exact Hin |].
  intros Hlt. destruct (Hatt Hlt) as (Hsl & Hcn & _).
  split; [exact Hcn |]. rewrite Hsl. rewrite <- app_assoc. reflexivity.
Qed.

(** X24. One message whose timestamp [float] rejects costs the whole batch:
    the [ValueError] leaves the loop before anything of this message or of
    those behind it is stored or shown, although the server has handed them
    out; the poller then takes the connection for lost, and below the retry
    cap it sleeps the backoff, connects once more and sleeps 5 seconds. *)
Theorem bad_timestamp_drops_batch a w d d' w' msg more e :
  App.connection_state a = App.CONNECTED ->
  App.messenger a = Some d ->
  Messenger.retrieve_new (d, w) = (Ret (msg :: more), (d', w')) ->
  truthy (Messenger.message msg) = true ->
  truthy (Messenger.recipient msg) = true ->
  truthy (Messenger.timestamp msg) = true ->
  App.py_float (Messenger.timestamp msg) = Raise e ->
  fst (App._poll_messages_step (a, w)) = Ret tt /\
  App.db (fst (snd (App._poll_messages_step (a, w)))) = App.db a /\
  App.incoming_queue (fst (snd (App._poll_messages_step (a, w)))) =
    App.incoming_queue a /\
  (Z.of_N (App.retry_count a) < App.max_retries a ->
   connects (snd (snd (App._poll_messages_step (a, w)))) = S (connects w') /\
   sleeps (snd (snd (App._poll_messages_step (a, w)))) =
     (sleeps w' ++
      [inject_Z (App.backoff (App.backoff_time a) (App.retry_count a)); 5%Q])%list).
Proof.
  intros Hst Hm Hget Hc Hs Ht Hfloat.
  remember (App._poll_messages_step (a, w)) as res eqn:Hres.
  unfold App._poll_messages_step, App._poll_messages_body in Hres.
  rewrite try_except_run in Hres. rewrite bind_run in Hres. simpl in Hres.
  rewrite Hst, Hm in Hres. simpl in Hres.
  rewrite bind_run in Hres. rewrite bind_run in Hres.
  unfold App.on_messenger at 1 in Hres. simpl in Hres.
  rewrite Hm, Hget in Hres. simpl in Hres.
  rewrite bind_run in Hres. unfold App._poll_one at 1 in Hres.
  rewrite Hc, Hs, Ht in Hres. simpl in Hres.
  rewrite bind_run in Hres. simpl in Hres. rewrite bind_run in Hres.
  unfold pure_outcome at 1 in Hres. rewrite Hfloat in Hres. simpl in Hres.
  rewrite bind_run in Hres. simpl in Hres. rewrite Hst in Hres. simpl in Hres.
  rewrite bind_run in Hres. rewrite bind_run in Hres. simpl in Hres.
  set (a2 := App.set_connection_state _ _ _) in Hres.
  pose proof (_try_reconnect_keeps_db (a2, w')) as Hdb.
  pose proof (_try_reconnect_keeps App.incoming_queue ltac:(reflexivity)
                ltac:(reflexivity) ltac:(reflexivity) ltac:(reflexivity)
                ltac:(reflexivity) (a2, w')) as Hin.
  pose proof (_try_reconnect_attempt a2 w') as Hatt.
  unfold keeps_app, keeps in Hin. simpl in Hdb, Hin, Hatt.
  assert (Hret : exists s3, App._try_reconnect (a2, w') = (Ret tt, s3)).
  { destruct (Z.lt_ge_cases (Z.of_N (App.retry_count a2)) (App.max_retries a2)) as [Hlt | Hge].
    - rewrite (_try_reconnect_run a2 w' Hlt).
      match goal with |- context [App._connect ?s] =>
        destruct (_connect_outcome s) as [(Hr & _) | (Hr & _)];
        destruct (App._connect s) as [r [a3 w3]]; simpl in Hr; subst r end.
      + rewrite _flush_pending_messages_run. eauto.
      + eauto.
    - rewrite _try_reconnect_offline by lia. eauto. }
  destruct Hret as [[a3 w3] Hrun]. rewrite Hrun in Hres, Hdb, Hin, Hatt.
  simpl in *. subst res. simpl.
  split; [reflexivity |]. split; [exact Hdb |]. split; [exact Hin |].
  intros Hlt. destruct (Hatt Hlt) as (Hsl & Hcn & _).
  split; [exact Hcn |]. rewrite Hsl. rewrite <- app_assoc. reflexivity.
Qed.

End PollTurns.

(** ** The samples of the database and of the turns *)

Lemma increments_exclude_at_three_witness :
  exists rows,
    fst (Database.get_pending_messages (Some 1) (increments 3 1 sample_db)) =
      Ret rows /\
    (In (bumped 3 (row 1 1 "bob" "hi" 10%Q 0)) rows <-> 0 + Z.of_nat 3 < 3).
Proof.
  refine (increments_exclude_at_three 3 (row 1 1 "bob" "hi" 10%Q 0) sample_db _).
  left. reflexivity.
Defined.

Lemma pending_ids_stay_distinct_witness :
  pending_ids_ok (App.db (fst sample_session)) /\
  Forall (fun r =>
    exists before after,
      Database.pending_messages (App.db (fst sample_session)) =
        (before ++ r :: after)%list /\
      Database.pending_messages
        (snd (Database.mark_pending_sent (Database.pending_id r)
                (App.db (fst sample_session)))) = (before ++ after)%list)
    (Database.pending_messages (App.db (fst sample_session))).
Proof.
  assert (H0 : pending_ids_ok Database.init).
  { split; constructor. }
  assert (Hreach : @reachable sample_runtime "127.0.0.1" 5 2%Q Database.init
                     friendly_world sample_session).
  { unfold sample_session.
    eapply reachable_step; [| apply step_network].
    - eapply reachable_step; [| apply step_send_message ].
      eapply reachable_step; [| apply step_contact_select ].
      eapply reachable_step; [| apply step_on_connect ].
      apply reachable_init.
    - vm_compute. reflexivity. }
  destruct (@pending_ids_stay_distinct sample_runtime "127.0.0.1" 5 2%Q
              Database.init friendly_world sample_session H0 Hreach)
    as (Hok & Hmark).
  exact (conj Hok
           (proj2 (Forall_forall _ _)
              (fun r Hr => Hmark r (proj1 (list_elem_of_In _ _) Hr)))).
Defined.



Lemma failed_send_is_retried_witness :
  In (row 4 1 "bob" "hello" 12%Q 0)
     (Database.pending_messages
        (App.db (fst (snd (@App._handle_send_failure sample_runtime hello
                             (sample_app sample_db [], friendly_world)))))) /\
  In {| App.recipient := "bob"; App.content := "hello"; App.timestamp := 12%Q;
        App.is_retry := true; App.pending_id := Some 4 |}
     (App.outgoing_queue
        (fst (snd (@App._handle_send_failure sample_runtime hello
                     (sample_app sample_db [], friendly_world))))).
Proof.
  destruct (@failed_send_is_retried sample_runtime (sample_app sample_db [])
              friendly_world hello 1 eq_refl eq_refl) as (Hrow & Hqueue).
  split; [exact Hrow |]. apply Hqueue. vm_compute. reflexivity.
Defined.

Lemma sent_message_is_never_recorded_witness :
  Database.messages
    (App.db (fst (snd (@App._network_worker_step sample_runtime
      (connected_app sample_db [hi_again],
       joined_world [IoOk EmptyString; IoOk EmptyString; IoOk send_ok_line]))))) =
    [] /\
  App.incoming_queue
    (fst (snd (@App._network_worker_step sample_runtime
      (connected_app sample_db [hi_again],
       joined_world [IoOk EmptyString; IoOk EmptyString; IoOk send_ok_line])))) =
    [] /\
  In hi_again
     (App.outgoing_queue
        (fst (snd (App._flush_pending_messages
           (snd (@App._network_worker_step sample_runtime
              (connected_app sample_db [hi_again],
               joined_world [IoOk EmptyString; IoOk EmptyString;
                             IoOk send_ok_line]))))))).
Proof.
  assert (Hsend : @Messenger.send sample_runtime "hi" "bob"
            (fst joined,
             joined_world [IoOk EmptyString; IoOk EmptyString; IoOk send_ok_line]) =
          (Ret (JBool true), (fst (snd sent_hi), snd (snd sent_hi))))
    by (vm_compute; reflexivity).
  destruct (@sent_message_is_never_recorded sample_runtime
              (connected_app sample_db [hi_again])
              (joined_world [IoOk EmptyString; IoOk EmptyString; IoOk send_ok_line])
              hi_again [] (fst joined) (JBool true)
              (fst (snd sent_hi)) (snd (snd sent_hi))
              eq_refl eq_refl eq_refl Hsend eq_refl)
    as (Hrun & Hflush).
  split; [rewrite Hrun; reflexivity |]. split; [rewrite Hrun; reflexivity |].
  apply (Hflush (row 1 1 "bob" "hi" 10%Q 0)).
  - left. reflexivity.
  - reflexivity.
  - simpl. lia.
Defined.

Lemma unrecorded_send_keeps_pending_row_witness :
  @App._network_worker_step sample_runtime
    (connected_app sample_db [hi_again],
     joined_world [IoOk EmptyString; IoOk EmptyString; IoOk send_ok_line]) =
  (Ret tt,
   (App.set_db sample_db
      (App.set_messenger (Some (fst (snd sent_hi)))
         (App.set_outgoing_queue [] (connected_app sample_db [hi_again]))),
    snd (snd sent_hi))).
Proof.
  assert (Hsend : @Messenger.send sample_runtime "hi" "bob"
            (fst joined,
             joined_world [IoOk EmptyString; IoOk EmptyString; IoOk send_ok_line]) =
          (Ret (JBool true), (fst (snd sent_hi), snd (snd sent_hi))))
    by (vm_compute; reflexivity).
  exact (@unrecorded_send_keeps_pending_row sample_runtime
           (connected_app sample_db [hi_again])
           (joined_world [IoOk EmptyString; IoOk EmptyString; IoOk send_ok_line])
           hi_again [] (fst joined) (JBool true)
           (fst (snd sent_hi)) (snd (snd sent_hi)) OperationalError sample_db
           eq_refl eq_refl eq_refl Hsend eq_refl eq_refl).
Defined.

Lemma polled_message_is_never_recorded_witness :
  fst (@App._poll_messages_step inbox_runtime
         (connected_app Database.init [],
          joined_world [IoOk EmptyString; IoOk EmptyString; IoOk inbox_line])) =
    Ret tt /\
  App.db (fst (snd (@App._poll_messages_step inbox_runtime
         (connected_app Database.init [],
          joined_world [IoOk EmptyString; IoOk EmptyString; IoOk inbox_line])))) =
    Database.init /\
  App.incoming_queue (fst (snd (@App._poll_messages_step inbox_runtime
         (connected_app Database.init [],
          joined_world [IoOk EmptyString; IoOk EmptyString; IoOk inbox_line])))) =
    [] /\
  connects (snd (snd (@App._poll_messages_step inbox_runtime
         (connected_app Database.init [],
          joined_world [IoOk EmptyString; IoOk EmptyString; IoOk inbox_line])))) =
    2%nat.
Proof.
  assert (Hget : @Messenger.retrieve_new inbox_runtime
            (fst joined,
             joined_world [IoOk EmptyString; IoOk EmptyString; IoOk inbox_line]) =
          (Ret [received (JStr "alice") (JStr "one") (JStr "1");
                received (JStr "bob") (JStr "two") (JStr "2")],
           (fst (snd inbox_poll), snd (snd inbox_poll))))
    by (vm_compute; reflexivity).
  destruct (@polled_message_is_never_recorded inbox_runtime
              (connected_app Database.init [])
              (joined_world [IoOk EmptyString; IoOk EmptyString; IoOk inbox_line])
              (fst joined) (fst (snd inbox_poll)) (snd (snd inbox_poll))
              (received (JStr "alice") (JStr "one") (JStr "1"))
              [received (JStr "bob") (JStr "two") (JStr "2")]
              eq_refl eq_refl Hget eq_refl eq_refl)
    as (Hret & Hdb & Hinc & Hre).
  split; [exact Hret |]. split; [exact Hdb |]. split; [exact Hinc |].
  destruct (Hre ltac:(simpl; lia)) as (Hcn & _). rewrite Hcn. reflexivity.
Defined.

Lemma bad_timestamp_drops_batch_witness :
  fst (@App._poll_messages_step garbled_runtime
         (connected_app Database.init [],
          joined_world [IoOk EmptyString; IoOk EmptyString; IoOk garbled_line])) =
    Ret tt /\
  App.db (fst (snd (@App._poll_messages_step garbled_runtime
         (connected_app Database.init [],
          joined_world [IoOk EmptyString; IoOk EmptyString; IoOk garbled_line])))) =
    Database.init /\
  App.incoming_queue (fst (snd (@App._poll_messages_step garbled_runtime
         (connected_app Database.init [],
          joined_world [IoOk EmptyString; IoOk EmptyString; IoOk garbled_line])))) =
    [].
Proof.
  assert (Hget : @Messenger.retrieve_new garbled_runtime
            (fst joined,
             joined_world [IoOk EmptyString; IoOk EmptyString; IoOk garbled_line]) =
          (Ret [received (JStr "alice") (JStr "one") (JStr "soon")],
           (fst (snd garbled_poll), snd (snd garbled_poll))))
    by (vm_compute; reflexivity).
  destruct (@bad_timestamp_drops_batch garbled_runtime
              (connected_app Database.init [])
              (joined_world [IoOk EmptyString; IoOk EmptyString; IoOk garbled_line])
              (fst joined) (fst (snd garbled_poll)) (snd (snd garbled_poll))
              (received (JStr "alice") (JStr "one") (JStr "soon")) [] ValueError
              eq_refl eq_refl Hget eq_refl eq_refl eq_refl eq_refl)
    as (Hret & Hdb & Hinc & _).
  split; [exact Hret |]. split; [exact Hdb | exact Hinc].
Defined.
